(** * A monthly volunteer roster and its Markdown table

    A shallow embedding of the notebook [notebooks/rosters.ipynb]:
    [build_roster], [get_year_month] and [to_markdown], together with the
    parts of [datetime], [dateutil], [pandas] and [csv] those three
    functions call.  Python integers are [Z], Python strings are [string],
    the dictionary of volunteers is a [gmap], a raised exception is the
    [Raise] case of [result]. *)

From Stdlib Require Import ZArith String Ascii List Lia.
From stdpp Require Import base option list gmap strings sorting.

Local Open Scope string_scope.
Local Open Scope Z_scope.

Set Default Proof Using "Type".

(** ** Exceptions *)

Inductive exn : Set :=
  | OverflowError         (* datetime.date: an argument that is no C int *)
  | ValueError            (* datetime.date, relativedelta *)
  | OutOfBoundsDatetime   (* pandas; a subclass of ValueError *)
  | KeyError              (* dict subscript *)
  | IndexError.           (* .iat[0] on an empty Series *)

Inductive result (A : Type) : Type :=
  | Ok (a : A)
  | Raise (e : exn).
Arguments Ok {A} a.
Arguments Raise {A} e.

#[global] Instance result_ret : MRet result := fun _ a => Ok a.
#[global] Instance result_bind : MBind result := fun _ _ k r =>
  match r with
  | Ok a => k a
  | Raise e => Raise e
  end.

Definition is_Ok {A} (r : result A) : bool :=
  match r with Ok _ => true | Raise _ => false end.

(** [[g(x) for x in l]], stopping at the first exception. *)
Fixpoint traverse {A B} (g : A → result B) (l : list A) : result (list B) :=
  match l with
  | [] => Ok []
  | x :: l' => y ← g x; ys ← traverse g l'; Ok (y :: ys)
  end.

(** ** datetime: the proleptic Gregorian calendar *)

Module datetime.

Record date : Set := mk_date { year : Z; month : Z; day : Z }.

Definition MINYEAR : Z := 1.
Definition MAXYEAR : Z := 9999.

(** [_is_leap] *)
Definition is_leap (y : Z) : bool :=
  (y mod 4 =? 0) && (negb (y mod 100 =? 0) || (y mod 400 =? 0)).

(** [_DAYS_IN_MONTH], 1-based. *)
Definition DAYS_IN_MONTH (m : Z) : Z :=
  match m with
  | 2 => 28
  | 4 | 6 | 9 | 11 => 30
  | _ => 31
  end.

(** [_days_in_month] *)
Definition days_in_month (y m : Z) : Z :=
  if (m =? 2) && is_leap y then 29 else DAYS_IN_MONTH m.

(** [_DAYS_BEFORE_MONTH], 1-based. *)
Definition DAYS_BEFORE_MONTH (m : Z) : Z :=
  match m with
  | 1 => 0 | 2 => 31 | 3 => 59 | 4 => 90 | 5 => 120 | 6 => 151
  | 7 => 181 | 8 => 212 | 9 => 243 | 10 => 273 | 11 => 304 | _ => 334
  end.

(** [_days_before_year] *)
Definition days_before_year (y : Z) : Z :=
  let y := y - 1 in y * 365 + y / 4 - y / 100 + y / 400.

(** [_days_before_month] *)
Definition days_before_month (y m : Z) : Z :=
  DAYS_BEFORE_MONTH m + (if (2 <? m) && is_leap y then 1 else 0).

(** The constructor of CPython's [_datetime] reads its three arguments
    as C [int]s, which are 32 bits wide. *)
Definition INT_MIN : Z := -2147483648.
Definition INT_MAX : Z := 2147483647.
Definition c_int (z : Z) : bool := (INT_MIN <=? z) && (z <=? INT_MAX).

(** [date(year, month, day)]: the constructor reads its arguments, an
    [OverflowError] when one of them is no C [int], and then checks the
    fields. *)
Definition new (y m d : Z) : result date :=
  if negb (c_int y && c_int m && c_int d) then Raise OverflowError
  else if negb ((MINYEAR <=? y) && (y <=? MAXYEAR)) then Raise ValueError
  else if negb ((1 <=? m) && (m <=? 12)) then Raise ValueError
  else if negb ((1 <=? d) && (d <=? days_in_month y m)) then Raise ValueError
  else Ok (mk_date y m d).

(** [date.toordinal]: 1 is 0001-01-01. *)
Definition toordinal (d : date) : Z :=
  days_before_year (year d) + days_before_month (year d) (month d) + day d.

Definition DI400Y : Z := 146097.
Definition DI100Y : Z := 36524.
Definition DI4Y : Z := 1461.

(** [_ord2ymd], the inverse of [toordinal]. *)
Definition fromordinal (n : Z) : date :=
  let n := n - 1 in
  let n400 := n / DI400Y in
  let n := n mod DI400Y in
  let n100 := n / DI100Y in
  let n := n mod DI100Y in
  let n4 := n / DI4Y in
  let n := n mod DI4Y in
  let n1 := n / 365 in
  let n := n mod 365 in
  let y := n400 * 400 + 1 + n100 * 100 + n4 * 4 + n1 in
  if (n1 =? 4) || (n100 =? 4) then mk_date (y - 1) 12 31
  else
    let leapyear := (n1 =? 3) && (negb (n4 =? 24) || (n100 =? 3)) in
    let m := Z.shiftr (n + 50) 5 in
    let preceding :=
      DAYS_BEFORE_MONTH m + (if (2 <? m) && leapyear then 1 else 0) in
    if n <? preceding then
      let m := m - 1 in
      let preceding := preceding
        - (DAYS_IN_MONTH m + (if (m =? 2) && leapyear then 1 else 0)) in
      mk_date y m (n - preceding + 1)
    else mk_date y m (n - preceding + 1).

(** [date.weekday]: Monday is 0. *)
Definition weekday (d : date) : Z := (toordinal d + 6) mod 7.

End datetime.

#[global] Instance date_eq_dec : EqDecision datetime.date.
Proof. solve_decision. Defined.

(** ** dateutil: [d + relativedelta(months=n)] for [1 <= |n| <= 12] *)

Module dateutil.
Import datetime.

Definition add_relativedelta_months (d : date) (months : Z) : result date :=
  let y := year d in
  let m := month d + months in
  let '(y, m) :=
    if 12 <? m then (y + 1, m - 12)
    else if m <? 1 then (y - 1, m + 12)
    else (y, m) in
  datetime.new y m (Z.min (days_in_month y m) (day d)).

End dateutil.

(** ** pandas: timestamps and date ranges *)

Module pandas.
Import datetime.

(** A [Timestamp] is a signed 64-bit count of nanoseconds since
    1970-01-01T00:00; the least 64-bit value is reserved for [NaT]. *)
Definition Timestamp : Set := Z.

Definition ns_per_day : Z := 86400 * 1000000000.
Definition epoch_ordinal : Z := 719163.       (* date(1970,1,1).toordinal() *)
Definition int64_min : Z := - 2 ^ 63.
Definition int64_max : Z := 2 ^ 63 - 1.

(** [NaT], the missing timestamp. *)
Definition NaT : Timestamp := int64_min.

(** [Timestamp(d)] for a [datetime.date]: midnight of that day, or
    [OutOfBoundsDatetime] when the count does not fit. *)
Definition Timestamp_of_date (d : date) : result Timestamp :=
  let v := (toordinal d - epoch_ordinal) * ns_per_day in
  if (int64_min <? v) && (v <=? int64_max) then Ok v
  else Raise OutOfBoundsDatetime.

(** The calendar day a timestamp falls on. *)
Definition to_date (t : Timestamp) : date :=
  fromordinal (t / ns_per_day + epoch_ordinal).

(** [closed=] of [date_range]. *)
Inductive closed_side : Set := closed_None | closed_left | closed_right.

(** [date_range(start, end, closed=...)] at the default daily frequency:
    [start], [start + 1 day], ... up to [end], then the endpoints that
    [closed] excludes are dropped. *)
Definition date_range (start end_ : date) (closed : closed_side)
  : result (list Timestamp) :=
  b ← Timestamp_of_date start;
  e ← Timestamp_of_date end_;
  let n := if b <=? e then (e - b) / ns_per_day + 1 else 0 in
  let ix := (λ i, b + i * ns_per_day) <$> seqZ 0 n in
  Ok (match closed with
      | closed_None => ix
      | closed_left => filter (λ t, t ≠ e) ix
      | closed_right => filter (λ t, t ≠ b) ix
      end).

(** [DAYS_FULL] *)
Definition DAYS_FULL (wd : Z) : string :=
  match wd with
  | 0 => "Monday" | 1 => "Tuesday" | 2 => "Wednesday" | 3 => "Thursday"
  | 4 => "Friday" | 5 => "Saturday" | _ => "Sunday"
  end.

(** [DatetimeIndex.day_name()] and [DatetimeIndex.day], per element. *)
Definition day_name (t : Timestamp) : string := DAYS_FULL (weekday (to_date t)).
Definition day_of (t : Timestamp) : Z := day (to_date t).

(** [is_dates_only]: every value that is not [NaT] is a midnight. *)
Definition is_dates_only (values : list Timestamp) : bool :=
  forallb (λ t, negb (negb (t =? NaT) && negb (t mod ns_per_day =? 0))) values.

(** [get_format_datetime64_from_values]: the format that printing a
    column uses; for a column of days only, an empty format stands for
    the ISO format. *)
Definition get_format_datetime64_from_values (values : list Timestamp)
    (date_format : string) : string :=
  if is_dates_only values then
    if String.eqb date_format "" then "%Y-%m-%d" else date_format
  else date_format.

End pandas.

(** ** Text: decimal fields and [strftime] formats *)

Definition LF : ascii := ascii_of_nat 10.
Definition DQUOTE : ascii := ascii_of_nat 34.

Definition digit (n : Z) : ascii := ascii_of_nat (48 + Z.to_nat (n mod 10)).

(** Zero-padded decimal fields of width 2 and 4, as [%m], [%d] and [%Y]
    print them.  Every year a [Timestamp] can hold has four digits. *)
Definition zfill2 (n : Z) : string :=
  String (digit (n / 10)) (String (digit n) "").
Definition zfill4 (n : Z) : string :=
  String (digit (n / 1000)) (String (digit (n / 100)) (zfill2 n)).

Definition digit_value (c : ascii) : option Z :=
  let n := Z.of_nat (nat_of_ascii c) in
  if (48 <=? n) && (n <=? 57) then Some (n - 48) else None.

(** The conversions of a format string that are modelled here. *)
Inductive directive : Set :=
  | Lit (c : ascii)
  | dir_Y       (* %Y: year with century *)
  | dir_m       (* %m: month, 01..12 *)
  | dir_d.      (* %d: day of the month, 01..31 *)

(** The characters a format is taken to print as they are: the ASCII
    characters but the null character. *)
Definition literal (c : ascii) : bool :=
  let n := nat_of_ascii c in (1 <=? n)%nat && (n <=? 127)%nat.

(** [None] when the format uses any other conversion or character. *)
Fixpoint parse_format (fmt : string) : option (list directive) :=
  match fmt with
  | "" => Some []
  | String c rest =>
    if Ascii.eqb c "%" then
      match rest with
      | String k rest' =>
        item ← (if Ascii.eqb k "Y" then Some dir_Y
                else if Ascii.eqb k "m" then Some dir_m
                else if Ascii.eqb k "d" then Some dir_d
                else if Ascii.eqb k "%" then Some (Lit "%")
                else None);
        items ← parse_format rest';
        Some (item :: items)
      | "" => None
      end
    else if literal c then items ← parse_format rest; Some (Lit c :: items)
    else None
  end.

Definition format_directive (d : datetime.date) (item : directive) : string :=
  match item with
  | Lit c => String c ""
  | dir_Y => zfill4 (datetime.year d)
  | dir_m => zfill2 (datetime.month d)
  | dir_d => zfill2 (datetime.day d)
  end.

(** ** csv: the writer behind [DataFrame.to_csv] *)

Module csv.

(** The dialect [to_csv] uses: the caller's separator, the double quote
    as quote character, [QUOTE_MINIMAL], doubled quotes inside a quoted
    field, and the platform's line separator (a line feed, as in the
    notebook's recorded output). *)
Definition quotechar : ascii := DQUOTE.
Definition lineterminator : string := String LF "".

Definition chars (s : string) : list ascii := list_ascii_of_string s.

(** [QUOTE_MINIMAL]: a field is quoted when it contains the delimiter,
    the quote character or a character of the line terminator. *)
Definition special (delimiter : ascii) (c : ascii) : bool :=
  Ascii.eqb c delimiter || Ascii.eqb c quotechar
  || existsb (Ascii.eqb c) (chars lineterminator).

Definition needs_quotes (delimiter : ascii) (field : string) : bool :=
  existsb (special delimiter) (chars field).

(** Every quote character inside a quoted field is doubled. *)
Fixpoint double_quotes (field : string) : string :=
  match field with
  | "" => ""
  | String c rest =>
    if Ascii.eqb c quotechar
    then String quotechar (String quotechar (double_quotes rest))
    else String c (double_quotes rest)
  end.

Definition write_field (delimiter : ascii) (field : string) : string :=
  if needs_quotes delimiter field
  then String quotechar (double_quotes field +:+ String quotechar "")
  else field.

(** [writer.writerow]: a record of one empty field is written quoted,
    so that the line is not empty. *)
Definition writerow (delimiter : ascii) (fields : list string) : string :=
  match fields with
  | [ "" ] => String quotechar (String quotechar lineterminator)
  | _ => String.concat (String delimiter "") (write_field delimiter <$> fields)
         +:+ lineterminator
  end.

End csv.

(** ** pandas: frames of strings *)

Record DataFrame : Type := mk_frame {
  columns : list string;
  values : list (list string)
}.

(** [pd.concat([a, b])] of two frames that have the same columns. *)
Definition pd_concat (a b : DataFrame) : DataFrame :=
  mk_frame (columns a) (values a ++ values b).

(** [g.to_csv(sep=..., index=False)]: the column names, then the rows. *)
Definition to_csv (g : DataFrame) (sep : ascii) : string :=
  String.concat "" (csv.writerow sep <$> (columns g :: values g)).

(** ** The notebook *)

(** One row of a roster: the four columns of the frame [build_roster]
    returns. *)
Record row : Set := mk_row {
  date : string;
  weekday : string;
  volunteers : string;
  notes : string
}.

#[global] Instance row_eq_dec : EqDecision row.
Proof. solve_decision. Defined.

Definition roster_columns : list string :=
  ["date"; "weekday"; "volunteers"; "notes"].

Definition fields (r : row) : list string :=
  [date r; weekday r; volunteers r; notes r].

(** A roster as the frame of strings it is. *)
Definition frame (roster : list row) : DataFrame :=
  mk_frame roster_columns (fields <$> roster).

(** [to_markdown(f)] with [path=None].  With a path, the same text is
    written to that file instead of being returned. *)
Definition to_markdown (f : DataFrame) : string :=
  let cols := columns f in
  let header := mk_frame cols [replicate (length cols) "---"] in
  let g := pd_concat header f in
  to_csv g "|".

(** What a cell of a column of printed timestamps holds: a string, or
    the float [nan] where the timestamp is missing. *)
Inductive cell : Set :=
  | Str (s : string)
  | NaN.

Section Notebook.
Import pandas.

(** What the platform prints for a format that uses a conversion other
    than [%Y], [%m], [%d] and [%%], or a character that is not ASCII or
    is the null character. *)
Variable libc_strftime : string → Timestamp → string.

(** What [pd.to_datetime] makes of a string that is not a day written
    [YYYY-MM-DD] that a [Timestamp] can hold: an exception, a timestamp
    or [NaT]. *)
Variable to_datetime_other : string → result Timestamp.

(** [Timestamp.strftime(fmt)] *)
Definition strftime (fmt : string) (t : Timestamp) : string :=
  match parse_format fmt with
  | Some items => String.concat "" (format_directive (to_date t) <$> items)
  | None => libc_strftime fmt t
  end.

(** The day a string of the shape [dddd-dd-dd] names. *)
Definition parse_ymd (s : string) : option (Z * Z * Z) :=
  match list_ascii_of_string s with
  | [y1; y2; y3; y4; s1; m1; m2; s2; d1; d2] =>
    if Ascii.eqb s1 "-" && Ascii.eqb s2 "-" then
      a ← digit_value y1; b ← digit_value y2;
      c ← digit_value y3; d ← digit_value y4;
      e ← digit_value m1; f ← digit_value m2;
      g ← digit_value d1; h ← digit_value d2;
      Some (1000 * a + 100 * b + 10 * c + d, 10 * e + f, 10 * g + h)
    else None
  | _ => None
  end.

(** [pd.to_datetime(s)] for one string. *)
Definition to_datetime (s : string) : result Timestamp :=
  match parse_ymd s with
  | Some (y, m, d) =>
    match datetime.new y m d ≫= Timestamp_of_date with
    | Ok t => Ok t
    | Raise _ => to_datetime_other s
    end
  | None => to_datetime_other s
  end.

(** [x in volunteers_by_weekday.keys()] *)
Definition isin (x : string) (keys : gset string) : bool :=
  bool_decide (x ∈ keys).

(** [volunteers_by_weekday[x]] *)
Definition getitem (d : gmap string (list string)) (x : string)
  : result (list string) :=
  match d !! x with
  | Some v => Ok v
  | None => Raise KeyError
  end.

(** [meeting_time]: the weekday, the week of the month, the start and
    the end of the meeting. *)
Definition meeting : Type := string * Z * string * string.

(** ['Staff meeting {!s}--{!s}'.format(start, end)] *)
Definition staff_meeting (start end_ : string) : string :=
  "Staff meeting " +:+ start +:+ "--" +:+ end_.

Definition build_roster (year month : Z)
    (volunteers_by_weekday : gmap string (list string))
    (meeting_time : option meeting) : result (list row) :=
  (* Create a roster for every day of the month *)
  d1 ← datetime.new year month 1;
  d2 ← dateutil.add_relativedelta_months d1 1;
  ix ← date_range d1 d2 closed_left;
  let f := (λ t, (t, strftime "%Y-%m-%d" t, day_name t)) <$> ix in
  (* Keep only the days specified by volunteers_by_weekday *)
  let f := List.filter
    (λ r : Timestamp * string * string,
       isin r.2 (dom volunteers_by_weekday)) f in
  (* Assign volunteers *)
  f ← traverse
    (λ r : Timestamp * string * string,
       names ← getitem volunteers_by_weekday r.2;
       Ok (r, String.concat " & " names)) f;
  (* Add notes, including staff meeting *)
  let f := (λ r : Timestamp * string * string * string,
              (r.1.1.1, mk_row r.1.1.2 r.1.2 r.2 "")) <$> f in
  let f :=
    match meeting_time with
    | Some (wd, week, start, end_) =>
      (λ r : Timestamp * row,
         if String.eqb (weekday r.2) wd
            && (7 * (week - 1) <=? day_of r.1)
            && (day_of r.1 <=? 7 * week)
         then (r.1, mk_row (date r.2) (weekday r.2) (volunteers r.2)
                           (staff_meeting start end_))
         else r) <$> f
    | None => f
    end in
  Ok (f.*2).

(** [.iat[0]] *)
Definition iat0 {A} (l : list A) : result A :=
  match l with
  | x :: _ => Ok x
  | [] => Raise IndexError
  end.

(** [Series.dt.strftime(format)]: every timestamp of the column printed
    by the format of the column, [NaT] as [nan]. *)
Definition dt_strftime (format : string) (values : list Timestamp)
  : list cell :=
  let fmt := get_format_datetime64_from_values values format in
  (λ t, if t =? NaT then NaN else Str (strftime fmt t)) <$> values.

Definition get_year_month (roster : list row) (format : string)
  : result cell :=
  ts ← traverse to_datetime (date <$> roster);
  iat0 (dt_strftime format ts).

(** The default of [format]. *)
Definition default_format : string := "%Y%m".

End Notebook.

Import pandas.

(** ** The words of the specification *)

(** The months a roster can be built for: the first day of the month and
    the first day of the following month are both days a [Timestamp] can
    hold, which is so from October 1677 to March 2262. *)
Definition valid_period (year month : Z) : Prop :=
  1 ≤ month ≤ 12 ∧ 12 * 1677 + 10 ≤ 12 * year + month ≤ 12 * 2262 + 3.

(** Every calendar day of a month, first to last. *)
Definition calendar_days (year month : Z) : list datetime.date :=
  datetime.mk_date year month <$> seqZ 1 (datetime.days_in_month year month).

(** The full name of the weekday of a calendar day. *)
Definition weekday_name (d : datetime.date) : string :=
  DAYS_FULL (datetime.weekday d).

(** [date.isoformat()]: a calendar day written [YYYY-MM-DD]. *)
Definition isoformat (d : datetime.date) : string :=
  zfill4 (datetime.year d) +:+ "-" +:+ zfill2 (datetime.month d)
  +:+ "-" +:+ zfill2 (datetime.day d).

(** The calendar day a [date] column entry names, if it is one. *)
Definition date_of_string (s : string) : option datetime.date :=
  '(y, m, d) ← parse_ymd s;
  match datetime.new y m d with Ok d => Some d | Raise _ => None end.

(** Python's [<] on strings. *)
Definition str_lt (a b : string) : Prop := String.ltb a b = true.

(** The note of the day [d] under an optional meeting time. *)
Definition note_of (meeting_time : option meeting) (d : datetime.date) : string :=
  match meeting_time with
  | Some (wd, week, start, end_) =>
    if bool_decide (weekday_name d = wd
                    ∧ 7 * (week - 1) ≤ datetime.day d ≤ 7 * week)
    then staff_meeting start end_ else ""
  | None => ""
  end.

(** ** Definitions for the statements and their proofs *)

(** Month and day of the [n]-th day of a year, counted from 0: the last
    part of [datetime.fromordinal]. *)
Definition month_day (leapyear : bool) (n : Z) : Z * Z :=
  let m := Z.shiftr (n + 50) 5 in
  let preceding :=
    datetime.DAYS_BEFORE_MONTH m + (if (2 <? m) && leapyear then 1 else 0) in
  if n <? preceding then
    let m := m - 1 in
    let preceding := preceding
      - (datetime.DAYS_IN_MONTH m + (if (m =? 2) && leapyear then 1 else 0)) in
    (m, n - preceding + 1)
  else (m, n - preceding + 1).

(** What [datetime.fromordinal] needs of a year to split its days. *)
Definition year_check (y : Z) : bool :=
  let s := datetime.days_before_year y in
  let r400 := s mod datetime.DI400Y in
  let r100 := r400 mod datetime.DI100Y in
  let r4 := r100 mod datetime.DI4Y in
  let n100 := r400 / datetime.DI100Y in
  let n4 := r100 / datetime.DI4Y in
  let n1 := r4 / 365 in
  (r400 + 364 <? datetime.DI400Y) && (r100 + 364 <? datetime.DI100Y)
  && (r4 + 364 <? datetime.DI4Y)
  && (r4 mod 365 =? 0) && negb (n1 =? 4) && negb (n100 =? 4)
  && (s / datetime.DI400Y * 400 + 1 + n100 * 100 + n4 * 4 + n1 =? y)
  && bool_decide ((n1 =? 3) && (negb (n4 =? 24) || (n100 =? 3))
                  = datetime.is_leap y)
  && (if datetime.is_leap y
      then bool_decide (datetime.fromordinal (s + 366)
                        = datetime.mk_date y 12 31)
      else true).

(** The days of one month, counted from 0 within their year. *)
Definition month_check (leap : bool) (m : Z) : bool :=
  let dim := if (m =? 2) && leap then 29 else datetime.DAYS_IN_MONTH m in
  let before :=
    datetime.DAYS_BEFORE_MONTH m + (if (2 <? m) && leap then 1 else 0) in
  forallb (λ i, (before + i <=? 364)
                && bool_decide (month_day leap (before + i) = (m, 1 + i))
                || ((before + i =? 365) && leap && (m =? 12) && (i =? 30)))
          (seqZ 0 dim).

(** The first day of a month, and of the month after it. *)
Definition first_day (y m : Z) : datetime.date := datetime.mk_date y m 1.
Definition next_first_day (y m : Z) : datetime.date :=
  if m =? 12 then datetime.mk_date (y + 1) 1 1 else datetime.mk_date y (m + 1) 1.

(** Midnight of a day, as a count of nanoseconds. *)
Definition midnight (d : datetime.date) : Timestamp :=
  (datetime.toordinal d - epoch_ordinal) * ns_per_day.

(** The timestamps of the days of a month. *)
Definition month_index (y m : Z) : list Timestamp :=
  (λ i, midnight (first_day y m) + i * ns_per_day)
    <$> seqZ 0 (datetime.days_in_month y m).

(** The row of one calendar day, and the roster of a list of days: what
    the specification says [build_roster] returns. *)
Definition roster_row (volunteers_by_weekday : gmap string (list string))
    (meeting_time : option meeting) (d : datetime.date) : row :=
  mk_row (isoformat d) (weekday_name d)
    (String.concat " & " (default [] (volunteers_by_weekday !! weekday_name d)))
    (note_of meeting_time d).

Definition roster_of_days (volunteers_by_weekday : gmap string (list string))
    (meeting_time : option meeting) (days : list datetime.date) : list row :=
  roster_row volunteers_by_weekday meeting_time
    <$> List.filter (λ d, isin (weekday_name d) (dom volunteers_by_weekday)) days.

(** The first three lines of [build_roster]: the index of the month. *)
Definition build_index (year month : Z) : result (list Timestamp) :=
  d1 ← datetime.new year month 1;
  d2 ← dateutil.add_relativedelta_months d1 1;
  date_range d1 d2 closed_left.

(** What these three lines raise for a period that is not valid: the
    constructor of the first day reads its arguments and checks them,
    the month after December 9999 does not exist, and the days that are
    left are days a [Timestamp] cannot hold. *)
Definition raised (year month : Z) : exn :=
  if negb (datetime.c_int year && datetime.c_int month) then OverflowError
  else if (1 <=? year) && (year <=? 9999) && (1 <=? month) && (month <=? 12)
          && negb ((year =? 9999) && (month =? 12))
  then OutOfBoundsDatetime
  else ValueError.

(** Two days of one month, the first before the second. *)
Definition earlier_in_month (d d' : datetime.date) : Prop :=
  datetime.year d = datetime.year d' ∧ datetime.month d = datetime.month d'
  ∧ 1 ≤ datetime.day d ∧ datetime.day d < datetime.day d'
  ∧ datetime.day d' ≤ 31.

(** A row whose date names a calendar day that a [Timestamp] can hold,
    as every row of a roster does. *)
Definition well_dated (r : row) : Prop :=
  ∃ d, date_of_string (date r) = Some d
       ∧ Timestamp_of_date d = Ok (midnight d).

(** The table as the specification words it: every row is its fields
    joined by the pipe character, each field as it is. *)
Definition joined_row (fs : list string) : string :=
  String.concat "|" fs +:+ csv.lineterminator.

Definition unquoted_table (roster : list row) : string :=
  String.concat ""
    (joined_row <$> (roster_columns :: replicate 4 "---" :: (fields <$> roster))).

(** The table as the csv writer prints it. *)
Definition written_row (fs : list string) : string :=
  String.concat "|" (csv.write_field "|" <$> fs) +:+ csv.lineterminator.

Definition written_table (roster : list row) : string :=
  String.concat ""
    (written_row <$> (roster_columns :: replicate 4 "---" :: (fields <$> roster))).

(** A string in which the character [c] does not occur. *)
Definition lacks (c : ascii) (s : string) : Prop :=
  Forall (λ x, x ≠ c) (csv.chars s).

(** A field with no pipe, no double quote and no line feed in it. *)
Definition plain (s : string) : Prop :=
  lacks "|" s ∧ lacks DQUOTE s ∧ lacks LF s.

Definition plain_row (r : row) : Prop := Forall plain (fields r).

(** [s.split(sep)] for a separator of one character. *)
Fixpoint split_on (sep : ascii) (s : string) : list string :=
  match s with
  | EmptyString => [EmptyString]
  | String c rest =>
    if Ascii.eqb c sep then EmptyString :: split_on sep rest
    else match split_on sep rest with
         | piece :: pieces => String c piece :: pieces
         | [] => [String c EmptyString]
         end
  end.

(** Modelled from the spec: the parse-back of the round trip, which the
    notebook does not contain.  The text is split into rows on line
    feeds (the piece after the last line feed is no row), the header row
    and the separator row of dashes are dropped, and every other row is
    split into fields on the pipe character. *)
Definition table_rows (text : string) : list string :=
  match reverse (split_on LF text) with
  | EmptyString :: rows => reverse rows
  | _ => split_on LF text
  end.

Definition parse_table (text : string) : list (list string) :=
  match table_rows text with
  | _header :: _separator :: rows => split_on "|" <$> rows
  | _ => []
  end.

(** The closed instances at the end run the notebook with a platform
    that is never asked: no format in them uses a conversion other than
    [%Y], [%m] and [%d], and every date in them is written [YYYY-MM-DD]. *)
Definition libc_unused : string → Timestamp → string := λ fmt _, fmt.
Definition other_unused : string → result Timestamp := λ _, Raise ValueError.

(** The first row of the roster that the notebook prints. *)
Definition january_sunday : row := mk_row "2021-01-03" "Sunday" "? & ?" "".

(** The seven names [day_name] can give. *)
Definition weekday_names : list string := DAYS_FULL <$> seqZ 0 7.

(** The days [i] of a month of [dim] days, whose first day has the
    weekday number [w0], that have the weekday number [k] and lie in
    [lo..hi]. *)
Definition occurrences (w0 dim k lo hi : Z) : list Z :=
  List.filter
    (λ i, ((w0 + (i - 1)) mod 7 =? k) && (lo <=? i) && (i <=? hi))
    (seqZ 1 dim).

(** What the proofs need of [occurrences], for one month and weekday. *)
Definition occurrences_check (w0 dim k : Z) : bool :=
  let count := Z.of_nat (length (occurrences w0 dim k 0 31)) in
  (4 <=? count) && (count <=? 5)
  && match occurrences w0 dim k 0 7 with
     | [d] => (1 <=? d) && (d <=? 7)
     | _ => false
     end
  && forallb (λ week,
       match occurrences w0 dim k (7 * (week - 1)) (7 * week) with
       | [a] => negb ((w0 + (7 * (week - 1) - 1)) mod 7 =? k)
       | [a; b] => (a =? 7 * (week - 1)) && (b =? 7 * week)
                   && ((w0 + (7 * (week - 1) - 1)) mod 7 =? k)
       | _ => false
       end) (seqZ 2 3)
  && (Z.of_nat (length (occurrences w0 dim k 28 35)) <=? 1).

(** Any one week's window holds a weekday at most twice. *)
Definition occurrences_bound_check (w0 dim k : Z) : bool :=
  forallb (λ week,
    Z.of_nat (length (occurrences w0 dim k (7 * (week - 1)) (7 * week))) <=? 2)
    (seqZ 1 5).

(** A reader for the rows that [csv.writerow] writes; it serves the
    proof that the table determines the roster.  [read_quoted] reads a
    quoted field after its opening quote, up to the closing quote;
    [read_plain] reads an unquoted field, up to the next pipe or line
    feed. *)
Fixpoint read_quoted (s : string) : option (string * string) :=
  match s with
  | EmptyString => None
  | String c s' =>
    if Ascii.eqb c DQUOTE then
      match s' with
      | String c2 s'' =>
        if Ascii.eqb c2 DQUOTE
        then '(field, rest) ← read_quoted s''; Some (String DQUOTE field, rest)
        else Some (EmptyString, s')
      | EmptyString => Some (EmptyString, EmptyString)
      end
    else '(field, rest) ← read_quoted s'; Some (String c field, rest)
  end.

Fixpoint read_plain (s : string) : string * string :=
  match s with
  | EmptyString => (EmptyString, EmptyString)
  | String c s' =>
    if Ascii.eqb c "|" || Ascii.eqb c LF then (EmptyString, s)
    else let '(field, rest) := read_plain s' in (String c field, rest)
  end.

Definition read_cell (s : string) : option (string * string) :=
  match s with
  | String c s' => if Ascii.eqb c DQUOTE then read_quoted s' else Some (read_plain s)
  | EmptyString => Some (EmptyString, EmptyString)
  end.

Definition expect (c : ascii) (s : string) : option string :=
  match s with
  | String x s' => if Ascii.eqb x c then Some s' else None
  | EmptyString => None
  end.

Definition read_row (s : string) : option (row * string) :=
  '(a, s) ← read_cell s; s ← expect "|" s;
  '(b, s) ← read_cell s; s ← expect "|" s;
  '(c, s) ← read_cell s; s ← expect "|" s;
  '(d, s) ← read_cell s; s ← expect LF s;
  Some (mk_row a b c d, s).

Fixpoint read_rows (fuel : nat) (s : string) : list row :=
  match fuel with
  | O => []
  | S n =>
    match read_row s with
    | Some (r, s') => r :: read_rows n s'
    | None => []
    end
  end.

(** The lines of the rows of a roster, after the two header lines. *)
Definition table_body (roster : list row) : string :=
  String.concat "" (written_row <$> (fields <$> roster)).

(** A text that goes on with a pipe or a line feed. *)
Definition delimited (s : string) : Prop :=
  ∃ c s', s = String c s' ∧ (c = "|"%char ∨ c = LF).

(** ** The file system, for [to_markdown] with a path

    A tree of directories and files under a root, seen from the working
    directory of the process.  The place of an entry is the list of the
    names that lead to it from the root, the last name first, so that
    the place above is the tail and the root is the empty list.  A path
    is relative to the working directory: the list of its parts, the
    last part first, each part a name or [..]; the empty list is the
    path [.].  Absolute paths, links, permissions and full disks are
    left out, names are compared letter by letter, and every failure
    modelled is one of the five below. *)

Module os.

(** The names of the model: the portable file names of POSIX, that is
    letters, digits, [.], [_] and [-], at most 255 of them, other than
    [.] and [..]. *)
Definition portable_char (c : ascii) : bool :=
  let n := nat_of_ascii c in
  ((48 <=? n) && (n <=? 57) || (65 <=? n) && (n <=? 90)
   || (97 <=? n) && (n <=? 122))%nat
  || Ascii.eqb c "." || Ascii.eqb c "_" || Ascii.eqb c "-".

Definition portable (s : string) : bool :=
  forallb portable_char (list_ascii_of_string s)
  && negb (String.eqb s "") && negb (String.eqb s ".")
  && negb (String.eqb s "..") && (String.length s <=? 255)%nat.

Record name : Set := Name {
  name_string : string;
  name_portable : portable name_string = true
}.

Lemma name_eq (a b : name) : name_string a = name_string b → a = b.
Proof.
  destruct a as [s Hs], b as [t Ht]. simpl. intros ->.
  f_equal. apply proof_irrel.
Qed.

#[global] Instance name_eq_dec : EqDecision name.
Proof.
  intros a b. destruct (decide (name_string a = name_string b)) as [E|E].
  - left. by apply name_eq.
  - right. by intros ->.
Defined.

Definition to_name (s : string) : option name :=
  match decide (portable s = true) with
  | left H => Some (Name s H)
  | right _ => None
  end.

#[global] Program Instance name_countable : Countable name :=
  inj_countable name_string to_name _.
Next Obligation.
  intros [s Hs]. unfold to_name. simpl.
  destruct (decide (portable s = true)) as [H|H]; [|done].
  f_equal. by apply name_eq.
Qed.

(** A part of a path: [..], or a name. *)
Inductive part : Set :=
  | Up
  | Entry (n : name).

Inductive node : Set :=
  | Dir
  | File (content : string).

Inductive os_error : Set :=
  | OSError              (* an OSError of no subclass *)
  | FileExistsError
  | FileNotFoundError
  | NotADirectoryError
  | IsADirectoryError.

(** What following a path gives: the place it leads to and the node
    there, or the failure on the way. *)
Inductive lookup : Set :=
  | Found (place : list name) (n : node)
  | ENOENT
  | ENOTDIR.

(** A computation on the file system returns or raises, and leaves a
    file system behind in both cases. *)
Inductive outcome (A : Type) : Type :=
  | Returned (a : A)
  | Raised (e : os_error).
Arguments Returned {A} a.
Arguments Raised {A} e.

Definition io (A : Type) : Type :=
  gmap (list name) node → outcome A * gmap (list name) node.

Definition ret {A} (a : A) : io A := λ fs, (Returned a, fs).
Definition raise {A} (e : os_error) : io A := λ fs, (Raised e, fs).

(** [m] and then [k] on what [m] returns; what [m] raises is raised. *)
Definition bind {A B} (m : io A) (k : A → io B) : io B := λ fs,
  match m fs with
  | (Returned a, fs') => k a fs'
  | (Raised e, fs') => (Raised e, fs')
  end.

(** [Path.parent]: the path without its last part; [.] is its own
    parent. *)
Definition parent (p : list part) : list part := tail p.

Section Process.

(** The place of the working directory, which is a directory. *)
Variable cwd : list name.

(** The walk along a path, from the working directory: a name is looked
    up in the directory reached so far, [..] leads to the directory
    above it, which for the root is the root. *)
Fixpoint resolve (fs : gmap (list name) node) (p : list part) : lookup :=
  match p with
  | [] => Found cwd Dir
  | c :: up =>
    match resolve fs up with
    | Found d Dir =>
      match c with
      | Up => Found (tail d) Dir
      | Entry n =>
        match fs !! (n :: d) with
        | Some x => Found (n :: d) x
        | None => ENOENT
        end
      end
    | Found _ (File _) => ENOTDIR
    | ENOENT => ENOENT
    | ENOTDIR => ENOTDIR
    end
  end.

(** [Path.exists()] and [Path.is_dir()] *)
Definition path_exists (p : list part) : io bool := λ fs,
  (Returned (match resolve fs p with Found _ _ => true | _ => false end), fs).

Definition is_dir (p : list part) : io bool := λ fs,
  (Returned (match resolve fs p with Found _ Dir => true | _ => false end),
   fs).

(** [os.mkdir(p)] *)
Definition os_mkdir (p : list part) : io unit := λ fs,
  match p with
  | [] => (Raised FileExistsError, fs)
  | c :: up =>
    match resolve fs up with
    | Found d Dir =>
      match c with
      | Up => (Raised FileExistsError, fs)
      | Entry n =>
        match fs !! (n :: d) with
        | Some _ => (Raised FileExistsError, fs)
        | None => (Returned (), <[n :: d := Dir]> fs)
        end
      end
    | Found _ (File _) => (Raised NotADirectoryError, fs)
    | ENOENT => (Raised FileNotFoundError, fs)
    | ENOTDIR => (Raised NotADirectoryError, fs)
    end
  end.

(** [open(p, 'w')], one write of the whole text, and the close. *)
Definition write_text (p : list part) (text : string) : io unit := λ fs,
  match p with
  | [] => (Raised IsADirectoryError, fs)
  | c :: up =>
    match resolve fs up with
    | Found d Dir =>
      match c with
      | Up => (Raised IsADirectoryError, fs)
      | Entry n =>
        match fs !! (n :: d) with
        | Some Dir => (Raised IsADirectoryError, fs)
        | _ => (Returned (), <[n :: d := File text]> fs)
        end
      end
    | Found _ (File _) => (Raised NotADirectoryError, fs)
    | ENOENT => (Raised FileNotFoundError, fs)
    | ENOTDIR => (Raised NotADirectoryError, fs)
    end
  end.

(** The handler of [Path.mkdir] for an [OSError] that is not a
    [FileNotFoundError]. *)
Definition unless_is_dir (p : list part) (exist_ok : bool) (e : os_error)
  : io unit :=
  bind (is_dir p) (λ d,
  if negb exist_ok || negb d then raise e else ret ()).

(** [Path.mkdir(parents=False, exist_ok=...)] *)
Definition mkdir (p : list part) (exist_ok : bool) : io unit := λ fs,
  match os_mkdir p fs with
  | (Raised FileNotFoundError, fs') => (Raised FileNotFoundError, fs')
  | (Raised e, fs') => unless_is_dir p exist_ok e fs'
  | done => done
  end.

(** [Path.mkdir(parents=True, exist_ok=...)] *)
Fixpoint mkdir_parents (p : list part) (exist_ok : bool) : io unit := λ fs,
  match os_mkdir p fs with
  | (Raised FileNotFoundError, fs') =>
    match p with
    | [] => (Raised FileNotFoundError, fs')
    | _ :: up => bind (mkdir_parents up true) (λ _, mkdir p exist_ok) fs'
    end
  | (Raised e, fs') => unless_is_dir p exist_ok e fs'
  | done => done
  end.

End Process.

(** [str(path)] *)
Definition part_string (c : part) : string :=
  match c with
  | Up => ".."
  | Entry n => name_string n
  end.

Definition str (p : list part) : string :=
  match p with
  | [] => "."
  | _ => String.concat "/" (part_string <$> reverse p)
  end.

End os.

(** ** pandas: writing a table to a path *)

(** [str.lower] on ASCII text, and [str.endswith]. *)
Definition lower_char (c : ascii) : ascii :=
  let n := nat_of_ascii c in
  if ((65 <=? n) && (n <=? 90))%nat then ascii_of_nat (n + 32) else c.

Definition lower (s : string) : string :=
  string_of_list_ascii (lower_char <$> list_ascii_of_string s).

Definition endswith (s suffix : string) : bool :=
  (String.length suffix <=? String.length s)%nat
  && String.eqb
       (substring (String.length s - String.length suffix)
          (String.length suffix) s)
       suffix.

(** [_extension_to_compression] of pandas 1.5, in its order. *)
Definition extension_to_compression : list (string * string) :=
  [ (".tar", "tar"); (".tar.gz", "tar"); (".tar.bz2", "tar");
    (".tar.xz", "tar"); (".gz", "gzip"); (".bz2", "bz2"); (".zip", "zip");
    (".xz", "xz"); (".zst", "zstd") ].

(** [infer_compression(filepath, 'infer')] *)
Definition infer_compression (filepath : string) : option string :=
  snd <$> List.find (λ ec, endswith (lower filepath) ec.1)
                    extension_to_compression.

(** The paths whose writing is modelled: the text of the path is
    shorter than 1024 characters, which every platform takes, and does
    not end in an extension that makes pandas compress the file. *)
Definition ordinary (p : list os.part) : bool :=
  (String.length (os.str p) <? 1024)%nat
  && bool_decide (infer_compression (os.str p) = None).

Section Files.

(** The place of the working directory. *)
Variable cwd : list os.name.

(** What [to_markdown] does with a path that is not [ordinary]. *)
Variable to_markdown_other : DataFrame → list os.part → os.io (option string).

(** [g.to_csv(path, sep=sep, index=False)] of pandas 1.4 and 1.5, for an
    ordinary path: [check_parent_directory] raises an [OSError] when the
    parent of the path is no directory, then the file is opened and the
    text written. *)
Definition to_csv_path (g : DataFrame) (sep : ascii) (p : list os.part)
  : os.io unit :=
  os.bind (os.is_dir cwd (os.parent p)) (λ d,
  if negb d then os.raise os.OSError
  else os.write_text cwd p (to_csv g sep)).

(** The body of [to_markdown(f, path)]: with a path the table is written
    to the file and nothing is returned, without one it is returned. *)
Definition to_markdown_run (f : DataFrame) (path : option (list os.part))
  : os.io (option string) :=
  os.bind
    match path with
    | Some p =>
      (* Make path parent directory if it doesn't exist *)
      os.bind (os.path_exists cwd (os.parent p)) (λ present,
      if negb present then os.mkdir_parents cwd (os.parent p) false
      else os.ret ())
    | None => os.ret ()
    end (λ _,
  let cols := columns f in
  let header := mk_frame cols [replicate (length cols) "---"] in
  let g := pd_concat header f in
  match path with
  | Some p => os.bind (to_csv_path g "|" p) (λ _, os.ret None)
  | None => os.ret (Some (to_csv g "|"))
  end).

(** [to_markdown(f, path)] in full. *)
Definition to_markdown_io (f : DataFrame) (path : option (list os.part))
  : os.io (option string) :=
  match path with
  | Some p =>
    if ordinary p then to_markdown_run f path else to_markdown_other f p
  | None => to_markdown_run f path
  end.

End Files.

(** A file system in which every entry lies in a directory, and the
    working directory is one of its directories. *)
Definition node_at (fs : gmap (list os.name) os.node) (d : list os.name)
  : option os.node :=
  match d with
  | [] => Some os.Dir
  | _ => fs !! d
  end.

Definition well_formed (fs : gmap (list os.name) os.node) : Prop :=
  ∀ n d x, fs !! (n :: d) = Some x → node_at fs d = Some os.Dir.

Definition sound (cwd : list os.name) (fs : gmap (list os.name) os.node)
  : Prop :=
  well_formed fs ∧ node_at fs cwd = Some os.Dir.

(** The path that goes [k] directories up and then down along the
    names, the last name first: [../output/roster] is
    [below [roster; output] 1]. *)
Definition below (names : list os.name) (k : nat) : list os.part :=
  (os.Entry <$> names) ++ replicate k os.Up.

(** The notebook's directory, next to a file, and the path that the
    notebook names for the table. *)
Definition notebooks : os.name := os.Name "notebooks" eq_refl.
Definition README : os.name := os.Name "README.md" eq_refl.
Definition output : os.name := os.Name "output" eq_refl.
Definition rosterio_202101 : os.name := os.Name "rosterio_202101" eq_refl.

Definition project : gmap (list os.name) os.node :=
  {[ [notebooks] := os.Dir; [README] := os.File "# Tumekulator" ]}.

Definition other_path_unused
  : DataFrame → list os.part → os.io (option string) :=
  λ _ _, os.raise os.OSError.

(** ** The calendar *)

Lemma forallb_seqZ (P : Z → bool) (a n z : Z) :
  forallb P (seqZ a n) = true → a ≤ z < a + n → P z = true.
Proof.
  intros H Hz. rewrite forallb_forall in H. apply H.
  apply list_elem_of_In, elem_of_seqZ. lia.
Qed.

Lemma div_mod_shift (q r k D : Z) :
  0 ≤ r → 0 ≤ k → r + k < D →
  (q * D + r + k) / D = q ∧ (q * D + r + k) mod D = r + k.
Proof.
  intros. split; symmetry.
  - apply (Z.div_unique _ _ _ (r + k)); lia.
  - apply (Z.mod_unique _ _ q); lia.
Qed.

(** Adding [k] to [n] without leaving the block of [D] that holds [n]. *)
Lemma div_mod_window (n k D : Z) :
  0 < D → 0 ≤ k → n mod D + k < D →
  (n + k) / D = n / D ∧ (n + k) mod D = n mod D + k.
Proof.
  intros HD Hk Hlt.
  pose proof (Z.div_mod n D ltac:(lia)) as E.
  pose proof (Z.mod_pos_bound n D HD) as B.
  rewrite E at 1 3.
  rewrite (Z.mul_comm D). apply div_mod_shift; lia.
Qed.

Lemma year_check_all : forallb year_check (seqZ 1677 586) = true.
Proof. vm_compute. reflexivity. Qed.

Lemma fromordinal_in_year (y k : Z) :
  1677 ≤ y ≤ 2262 → 0 ≤ k ≤ 364 →
  datetime.fromordinal (datetime.days_before_year y + k + 1)
  = let md := month_day (datetime.is_leap y) k in datetime.mk_date y md.1 md.2.
Proof.
  intros Hy Hk.
  pose proof (forallb_seqZ _ _ _ y year_check_all ltac:(lia)) as C.
  unfold year_check in C. cbv zeta in C.
  repeat (apply andb_prop in C; destruct C as [C ?]).
  repeat match goal with
  | H : (_ <? _) = true |- _ => apply Z.ltb_lt in H
  | H : (_ =? _) = true |- _ => apply Z.eqb_eq in H
  | H : negb (_ =? _) = true |- _ => apply negb_true_iff, Z.eqb_neq in H
  | H : bool_decide _ = true |- _ => apply bool_decide_eq_true in H
  end.
  set (s := datetime.days_before_year y) in *.
  unfold datetime.fromordinal. cbv zeta.
  replace (s + k + 1 - 1) with (s + k) by lia.
  destruct (div_mod_window s k datetime.DI400Y) as [E1 E2]; [done|lia|lia|].
  rewrite E1, E2.
  destruct (div_mod_window (s mod datetime.DI400Y) k datetime.DI100Y)
    as [E3 E4]; [done|lia|lia|].
  rewrite E3, E4.
  destruct (div_mod_window (s mod datetime.DI400Y mod datetime.DI100Y) k
              datetime.DI4Y) as [E5 E6]; [done|lia|lia|].
  rewrite E5, E6.
  destruct (div_mod_window
              (s mod datetime.DI400Y mod datetime.DI100Y mod datetime.DI4Y)
              k 365) as [E7 E8]; [done|lia|lia|].
  rewrite E7, E8.
  match goal with H : _ = datetime.is_leap y |- _ => rewrite H end.
  match goal with H : _ = y |- _ => rewrite H end.
  match goal with H : _ mod 365 = 0 |- _ => rewrite H end.
  rewrite Z.add_0_l.
  rewrite (proj2 (Z.eqb_neq _ 4)) by done.
  rewrite (proj2 (Z.eqb_neq _ 4)) by done.
  simpl orb. cbv iota.
  unfold month_day. cbv zeta.
  destruct (k <? _); reflexivity.
Qed.

Lemma fromordinal_last_of_leap (y : Z) :
  1677 ≤ y ≤ 2262 → datetime.is_leap y = true →
  datetime.fromordinal (datetime.days_before_year y + 366)
  = datetime.mk_date y 12 31.
Proof.
  intros Hy Hl.
  pose proof (forallb_seqZ _ _ _ y year_check_all ltac:(lia)) as C.
  unfold year_check in C. cbv zeta in C.
  apply andb_prop in C as [_ C]. rewrite Hl in C.
  by apply bool_decide_eq_true in C.
Qed.

Lemma month_check_all (leap : bool) :
  forallb (month_check leap) (seqZ 1 12) = true.
Proof. destruct leap; vm_compute; reflexivity. Qed.

Lemma month_cases (m : Z) :
  1 ≤ m ≤ 12 →
  m = 1 ∨ m = 2 ∨ m = 3 ∨ m = 4 ∨ m = 5 ∨ m = 6
  ∨ m = 7 ∨ m = 8 ∨ m = 9 ∨ m = 10 ∨ m = 11 ∨ m = 12.
Proof. lia. Qed.

Ltac by_month H :=
  apply month_cases in H;
  repeat (destruct H as [H|H]; [subst|]); [..|subst].

Lemma days_before_month_bounds (y m : Z) :
  1 ≤ m ≤ 12 → 0 ≤ datetime.days_before_month y m ≤ 335.
Proof.
  intros Hm. unfold datetime.days_before_month.
  destruct (datetime.is_leap y); by_month Hm; simpl; lia.
Qed.

Lemma days_in_month_bounds (y m : Z) :
  1 ≤ m ≤ 12 → 28 ≤ datetime.days_in_month y m ≤ 31.
Proof.
  intros Hm. unfold datetime.days_in_month.
  destruct (datetime.is_leap y); by_month Hm; simpl; lia.
Qed.

(** [fromordinal] inverts [toordinal] on every day of the months that
    timestamps reach. *)
Lemma fromordinal_toordinal (y m d : Z) :
  1677 ≤ y ≤ 2262 → 1 ≤ m ≤ 12 → 1 ≤ d ≤ datetime.days_in_month y m →
  datetime.fromordinal (datetime.toordinal (datetime.mk_date y m d))
  = datetime.mk_date y m d.
Proof.
  intros Hy Hm Hd.
  pose proof (days_before_month_bounds y m Hm) as Hb.
  unfold datetime.toordinal, datetime.days_before_month in *; simpl.
  unfold datetime.days_in_month in Hd.
  pose proof (forallb_seqZ _ _ _ m (month_check_all (datetime.is_leap y))
                ltac:(lia)) as Cm.
  unfold month_check in Cm. cbv zeta in Cm.
  pose proof (forallb_seqZ _ _ _ (d - 1) Cm ltac:(lia)) as Ci.
  cbv beta in Ci. replace (1 + (d - 1)) with d in Ci by lia.
  set (before := datetime.DAYS_BEFORE_MONTH m
                 + (if (2 <? m) && datetime.is_leap y then 1 else 0)) in *.
  apply orb_prop in Ci as [Ci|Ci].
  - apply andb_prop in Ci as [Hle Hmd].
    apply Z.leb_le in Hle. apply bool_decide_eq_true in Hmd.
    replace (datetime.days_before_year y + before + d)
      with (datetime.days_before_year y + (before + (d - 1)) + 1) by lia.
    rewrite fromordinal_in_year by lia.
    cbv zeta. by rewrite Hmd.
  - repeat (apply andb_prop in Ci as [Ci ?]).
    repeat match goal with
    | H : (_ =? _) = true |- _ => apply Z.eqb_eq in H end.
    replace (datetime.days_before_year y + before + d)
      with (datetime.days_before_year y + 366) by lia.
    rewrite fromordinal_last_of_leap by done.
    f_equal; lia.
Qed.

Lemma days_before_year_succ (y : Z) :
  datetime.days_before_year (y + 1)
  = datetime.days_before_year y + 365 + (if datetime.is_leap y then 1 else 0).
Proof.
  unfold datetime.days_before_year, datetime.is_leap.
  replace (y + 1 - 1) with y by lia.
  destruct (Z.eqb_spec (y mod 4) 0), (Z.eqb_spec (y mod 100) 0),
    (Z.eqb_spec (y mod 400) 0); simpl; Z.div_mod_to_equations; lia.
Qed.

Lemma days_before_year_mono (y y' : Z) :
  y ≤ y' →
  datetime.days_before_year y + 365 * (y' - y) ≤ datetime.days_before_year y'.
Proof.
  unfold datetime.days_before_year. intros. Z.div_mod_to_equations. lia.
Qed.

Lemma toordinal_next_first_day (y m : Z) :
  1 ≤ m ≤ 12 →
  datetime.toordinal (next_first_day y m)
  = datetime.toordinal (first_day y m) + datetime.days_in_month y m.
Proof.
  intros Hm. unfold next_first_day, first_day, datetime.toordinal,
    datetime.days_before_month, datetime.days_in_month.
  by_month Hm; simpl; rewrite ?days_before_year_succ;
    destruct (datetime.is_leap y); simpl; lia.
Qed.

(** The days a [Timestamp] can hold run from 1677-09-22 to 2262-04-11. *)
Lemma Timestamp_of_date_bounds (d : datetime.date) :
  Timestamp_of_date d
  = if (612412 <=? datetime.toordinal d) && (datetime.toordinal d <=? 825914)
    then Ok (midnight d) else Raise OutOfBoundsDatetime.
Proof.
  unfold Timestamp_of_date, midnight, epoch_ordinal, ns_per_day,
    int64_min, int64_max.
  set (o := datetime.toordinal d).
  change (2 ^ 63) with 9223372036854775808.
  destruct (Z.leb_spec 612412 o), (Z.leb_spec o 825914); simpl;
  repeat match goal with
  | |- context [?a <? ?b] => destruct (Z.ltb_spec a b)
  | |- context [?a <=? ?b] => destruct (Z.leb_spec a b)
  end; simpl; try reflexivity; lia.
Qed.

Lemma to_date_midnight (d : datetime.date) (i : Z) :
  to_date (midnight d + i * ns_per_day)
  = datetime.fromordinal (datetime.toordinal d + i).
Proof.
  unfold to_date, midnight. f_equal.
  rewrite <- Z.mul_add_distr_r, Z.div_mul by done. lia.
Qed.

Lemma first_day_ordinal (y m : Z) :
  datetime.toordinal (first_day y m)
  = datetime.days_before_year y + datetime.days_before_month y m + 1.
Proof. reflexivity. Qed.

(** A valid period lies within the days a [Timestamp] can hold. *)
Lemma valid_period_ordinals (y m : Z) :
  valid_period y m →
  612412 ≤ datetime.toordinal (first_day y m)
  ∧ datetime.toordinal (first_day y m) + datetime.days_in_month y m ≤ 825914.
Proof.
  intros [Hm Hw]. rewrite first_day_ordinal.
  pose proof (days_before_month_bounds y m Hm).
  pose proof (days_in_month_bounds y m Hm).
  assert (datetime.days_before_year 1678 = 612512) as E1 by reflexivity.
  assert (datetime.days_before_year 2262 = 825813) as E2 by reflexivity.
  split.
  - destruct (decide (y = 1677)) as [->|].
    + unfold datetime.days_before_month. by_month Hm; try lia; vm_compute; discriminate.
    + pose proof (days_before_year_mono 1678 y ltac:(lia)). lia.
  - destruct (decide (y = 2262)) as [->|].
    + unfold datetime.days_before_month, datetime.days_in_month.
      by_month Hm; try lia; vm_compute; discriminate.
    + pose proof (days_before_year_mono (y + 1) 2262 ltac:(lia)).
      rewrite days_before_year_succ in *.
      unfold datetime.days_before_month, datetime.days_in_month in *.
      destruct (datetime.is_leap y); by_month Hm; simpl in *; lia.
Qed.

(** Outside the valid periods, the first day of the month or of the
    following month is a day no [Timestamp] can hold. *)
Lemma invalid_period_ordinals (y m : Z) :
  1 ≤ m ≤ 12 → ¬ valid_period y m →
  datetime.toordinal (first_day y m) < 612412
  ∨ 825914 < datetime.toordinal (first_day y m) + datetime.days_in_month y m.
Proof.
  intros Hm Hv. rewrite first_day_ordinal.
  pose proof (days_before_month_bounds y m Hm).
  pose proof (days_in_month_bounds y m Hm).
  assert (datetime.days_before_year 1677 = 612147) as E1 by reflexivity.
  assert (datetime.days_before_year 2263 = 826178) as E2 by reflexivity.
  assert (12 * y + m < 12 * 1677 + 10 ∨ 12 * 2262 + 3 < 12 * y + m) as [Lo|Hi]
    by (unfold valid_period in Hv; lia).
  - left. destruct (decide (y = 1677)) as [->|].
    + unfold datetime.days_before_month. by_month Hm; try lia; vm_compute; reflexivity.
    + pose proof (days_before_year_mono (y + 1) 1677 ltac:(lia)).
      rewrite days_before_year_succ in *.
      destruct (datetime.is_leap y); lia.
  - right. destruct (decide (y = 2262)) as [->|].
    + unfold datetime.days_before_month, datetime.days_in_month.
      by_month Hm; try lia; vm_compute; reflexivity.
    + pose proof (days_before_year_mono 2263 y ltac:(lia)). lia.
Qed.

(** ** The index of a month *)

Lemma filter_drop_last (b n : Z) :
  0 ≤ n →
  filter (λ t, t ≠ b + n * ns_per_day)
         ((λ i, b + i * ns_per_day) <$> seqZ 0 (n + 1))
  = (λ i, b + i * ns_per_day) <$> seqZ 0 n.
Proof.
  intros Hn. rewrite seqZ_app, fmap_app, filter_app by lia.
  simpl. rewrite filter_cons_False, filter_nil, app_nil_r by (intros ?; done).
  assert (∀ l, Forall (λ i, i < n) l →
    filter (λ t, t ≠ b + n * ns_per_day) ((λ i, b + i * ns_per_day) <$> l)
    = (λ i, b + i * ns_per_day) <$> l) as Hkeep.
  { induction 1 as [|i l Hi _ IH]; [done|].
    rewrite fmap_cons, filter_cons_True by (unfold ns_per_day; lia).
    by rewrite IH. }
  apply Hkeep, Forall_seqZ. lia.
Qed.

Lemma date_range_valid (y m : Z) :
  valid_period y m →
  date_range (first_day y m) (next_first_day y m) closed_left
  = Ok (month_index y m).
Proof.
  intros Hv. pose proof (valid_period_ordinals y m Hv) as [Hlo Hhi].
  destruct Hv as [Hm _].
  pose proof (days_in_month_bounds y m Hm) as Hd.
  pose proof (toordinal_next_first_day y m Hm) as Hn.
  unfold date_range. rewrite !Timestamp_of_date_bounds.
  rewrite (proj2 (Z.leb_le 612412 _)), (proj2 (Z.leb_le _ 825914)) by lia.
  rewrite (proj2 (Z.leb_le 612412 _)), (proj2 (Z.leb_le _ 825914)) by lia.
  simpl.
  assert (midnight (next_first_day y m)
          = midnight (first_day y m)
            + datetime.days_in_month y m * ns_per_day) as ->.
  { unfold midnight. rewrite Hn. lia. }
  rewrite (proj2 (Z.leb_le _ _)) by (unfold ns_per_day; lia).
  replace (midnight (first_day y m) + datetime.days_in_month y m * ns_per_day
           - midnight (first_day y m))
    with (datetime.days_in_month y m * ns_per_day) by lia.
  rewrite Z.div_mul by done.
  f_equal. apply filter_drop_last. lia.
Qed.

Lemma date_range_invalid (y m : Z) :
  1 ≤ m ≤ 12 → ¬ valid_period y m →
  date_range (first_day y m) (next_first_day y m) closed_left
  = Raise OutOfBoundsDatetime.
Proof.
  intros Hm Hv. pose proof (invalid_period_ordinals y m Hm Hv) as Hout.
  pose proof (days_in_month_bounds y m Hm) as Hd.
  pose proof (toordinal_next_first_day y m Hm) as Hn.
  unfold date_range. rewrite !Timestamp_of_date_bounds.
  destruct (Z.leb_spec 612412 (datetime.toordinal (first_day y m)));
    destruct (Z.leb_spec (datetime.toordinal (first_day y m)) 825914);
    simpl; try reflexivity.
  rewrite (proj2 (Z.leb_le 612412 _)) by lia.
  rewrite (proj2 (Z.leb_gt _ 825914)) by lia. reflexivity.
Qed.

(** The index of a month is its calendar days, in order. *)
Lemma month_index_days (y m : Z) :
  valid_period y m → to_date <$> month_index y m = calendar_days y m.
Proof.
  intros [Hm Hw]. unfold month_index, calendar_days.
  rewrite <- (fmap_add_seqZ 1 0), <- !list_fmap_compose.
  apply list_fmap_ext. intros _ i Hi%list_elem_of_lookup_2%elem_of_seqZ.
  simpl. rewrite to_date_midnight.
  replace (datetime.toordinal (first_day y m) + i)
    with (datetime.toordinal (datetime.mk_date y m (1 + i)))
    by (unfold datetime.toordinal, first_day; simpl; lia).
  apply fromordinal_toordinal; lia.
Qed.

(** The first three lines of [build_roster]. *)
Lemma first_day_new (y m : Z) :
  1 ≤ y ≤ 9999 → 1 ≤ m ≤ 12 → datetime.new y m 1 = Ok (first_day y m).
Proof.
  intros Hy Hm. pose proof (days_in_month_bounds y m Hm).
  unfold datetime.new, datetime.c_int, datetime.INT_MIN, datetime.INT_MAX,
    datetime.MINYEAR, datetime.MAXYEAR.
  repeat match goal with
  | |- context [?a <=? ?b] => destruct (Z.leb_spec a b); try lia
  end. reflexivity.
Qed.

Lemma next_first_day_new (y m : Z) :
  1 ≤ y ≤ 9999 → 1 ≤ m ≤ 12 → (y, m) ≠ (9999, 12) →
  dateutil.add_relativedelta_months (first_day y m) 1
  = Ok (next_first_day y m).
Proof.
  intros Hy Hm Hne. unfold dateutil.add_relativedelta_months, next_first_day.
  simpl. destruct (Z.eqb_spec m 12) as [->|Hm12].
  - simpl. assert (y ≠ 9999) by congruence.
    apply (first_day_new (y + 1) 1); lia.
  - rewrite (proj2 (Z.ltb_ge 12 (m + 1))), (proj2 (Z.ltb_ge (m + 1) 1)) by lia.
    pose proof (days_in_month_bounds y (m + 1) ltac:(lia)).
    rewrite Z.min_r by lia. apply first_day_new; lia.
Qed.

Lemma valid_period_year (y m : Z) : valid_period y m → 1677 ≤ y ≤ 2262.
Proof. unfold valid_period. lia. Qed.

(** ** The rows of a roster *)

Lemma filter_fmap_swap {A B} (p : B → bool) (h : A → B) (l : list A) :
  List.filter p (h <$> l) = h <$> List.filter (λ x, p (h x)) l.
Proof.
  induction l as [|x l IH]; [done|]. simpl.
  destruct (p (h x)); simpl; [f_equal|]; exact IH.
Qed.

Lemma filter_Forall {A} (p : A → bool) (l : list A) :
  Forall (λ x, p x = true) (List.filter p l).
Proof.
  induction l as [|x l IH]; simpl; [constructor|].
  destruct (p x) eqn:E; [constructor|]; done.
Qed.

Lemma traverse_Ok {A B} (g : A → result B) (g' : A → B) (l : list A) :
  Forall (λ x, g x = Ok (g' x)) l → traverse g l = Ok (g' <$> l).
Proof.
  induction 1 as [|x l Hx _ IH]; [done|]. simpl. by rewrite Hx, IH.
Qed.

Lemma isin_getitem (d : gmap string (list string)) (x : string) :
  isin x (dom d) = true → getitem d x = Ok (default [] (d !! x)).
Proof.
  unfold isin, getitem. intros H%bool_decide_eq_true%elem_of_dom.
  by destruct H as [v ->].
Qed.

Lemma day_name_weekday_name (t : Timestamp) :
  day_name t = weekday_name (to_date t).
Proof. unfold day_name, weekday_name. reflexivity. Qed.

Lemma meeting_condition (d : datetime.date) (wd : string) (week : Z) :
  String.eqb (weekday_name d) wd
  && (7 * (week - 1) <=? datetime.day d) && (datetime.day d <=? 7 * week)
  = bool_decide (weekday_name d = wd
                 ∧ 7 * (week - 1) ≤ datetime.day d ≤ 7 * week).
Proof.
  destruct (String.eqb_spec (weekday_name d) wd),
    (Z.leb_spec (7 * (week - 1)) (datetime.day d)),
    (Z.leb_spec (datetime.day d) (7 * week)); simpl; symmetry;
    first [ apply bool_decide_eq_true; split; [done|lia]
          | apply bool_decide_eq_false; intros [? ?]; first [done|lia] ].
Qed.

Lemma build_index_valid (year month : Z) :
  valid_period year month → build_index year month = Ok (month_index year month).
Proof.
  intros Hv. pose proof (valid_period_year _ _ Hv) as Hy.
  pose proof Hv as [Hm _]. unfold build_index.
  rewrite first_day_new by lia. cbn [mbind result_bind].
  rewrite next_first_day_new by (try lia; intros [= -> _]; lia).
  cbn [mbind result_bind]. by apply date_range_valid.
Qed.

Lemma build_index_invalid (year month : Z) :
  ¬ valid_period year month →
  build_index year month = Raise (raised year month).
Proof.
  intros Hv. unfold build_index, raised.
  destruct (decide (1 ≤ year ≤ 9999 ∧ 1 ≤ month ≤ 12)) as [[Hy Hm]|Hout].
  - rewrite first_day_new by done. cbn [mbind result_bind].
    assert (datetime.c_int year && datetime.c_int month = true) as ->
      by (unfold datetime.c_int, datetime.INT_MIN, datetime.INT_MAX; lia).
    rewrite (proj2 (Z.leb_le 1 year)), (proj2 (Z.leb_le year 9999)),
      (proj2 (Z.leb_le 1 month)), (proj2 (Z.leb_le month 12)) by lia.
    cbn [negb andb].
    destruct (decide ((year, month) = (9999, 12))) as [[= -> ->]|Hne].
    + reflexivity.
    + rewrite next_first_day_new by done. cbn [mbind result_bind].
      assert ((year =? 9999) && (month =? 12) = false) as ->
        by (apply andb_false_iff;
            destruct (Z.eqb_spec year 9999), (Z.eqb_spec month 12);
            try congruence; auto).
      cbn [negb]. by apply date_range_invalid.
  - unfold datetime.new, datetime.c_int, datetime.INT_MIN, datetime.INT_MAX,
      datetime.MINYEAR, datetime.MAXYEAR.
    repeat match goal with
    | |- context [?a <=? ?b] => destruct (Z.leb_spec a b); simpl; try done
    end; lia.
Qed.

(** ** Dates as strings *)

Lemma filter_bool_decide {A} (P : A → Prop) `{!∀ x, Decision (P x)}
    (l : list A) :
  List.filter (λ x, bool_decide (P x)) l = filter P l.
Proof.
  induction l as [|x l IH]; [done|]. simpl.
  destruct (decide (P x)) as [HP|HP].
  - rewrite bool_decide_eq_true_2, filter_cons_True by done. by f_equal.
  - rewrite bool_decide_eq_false_2, filter_cons_False by done. done.
Qed.

Lemma str_lt_irrefl (s : string) : ¬ str_lt s s.
Proof.
  unfold str_lt, String.ltb. pose proof (String.compare_antisym s s) as H.
  destruct (String.compare s s); simpl in H; congruence.
Qed.

Lemma compare_append (p a b : string) :
  String.compare (p +:+ a) (p +:+ b) = String.compare a b.
Proof.
  induction p as [|c p IH]; [done|]. simpl.
  assert (Ascii.compare c c = Eq) as ->; [|done].
  pose proof (Ascii.compare_antisym c c) as H.
  destruct (Ascii.compare c c); simpl in H; congruence.
Qed.

Lemma zfill2_lt_all :
  forallb (λ a, forallb (λ b, String.ltb (zfill2 a) (zfill2 b))
                        (seqZ (a + 1) (31 - a)))
          (seqZ 1 31) = true.
Proof. vm_compute. reflexivity. Qed.

Lemma zfill2_lt (a b : Z) :
  1 ≤ a → a < b → b ≤ 31 → str_lt (zfill2 a) (zfill2 b).
Proof.
  intros Ha Hab Hb.
  pose proof (forallb_seqZ _ _ _ a zfill2_lt_all ltac:(lia)) as H.
  cbv beta in H. apply (forallb_seqZ _ _ _ b H). lia.
Qed.

(** Within one month, days in calendar order are written in string order. *)
Lemma isoformat_lt (d d' : datetime.date) :
  datetime.year d = datetime.year d' → datetime.month d = datetime.month d' →
  1 ≤ datetime.day d → datetime.day d < datetime.day d' →
  datetime.day d' ≤ 31 →
  str_lt (isoformat d) (isoformat d').
Proof.
  intros Hy Hm H1 H2 H3. unfold str_lt, String.ltb, isoformat.
  rewrite Hy, Hm, !compare_append.
  by apply zfill2_lt.
Qed.

Lemma StronglySorted_filter {A} (R : A → A → Prop) (p : A → bool) (l : list A) :
  StronglySorted R l → StronglySorted R (List.filter p l).
Proof.
  induction 1 as [|x l Hl IH Hx]; simpl; [constructor|].
  destruct (p x); [|done]. constructor; [done|].
  apply Forall_forall. intros y Hy%list_elem_of_In%filter_In.
  destruct Hy as [Hy _]. apply list_elem_of_In in Hy.
  by eapply Forall_forall in Hx.
Qed.

Lemma StronglySorted_NoDup {A} (R : A → A → Prop) (l : list A) :
  (∀ x, ¬ R x x) → StronglySorted R l → NoDup l.
Proof.
  intros Hirr. induction 1 as [|x l Hl IH Hx]; constructor; [|done].
  intros Hin. eapply Forall_forall in Hx; [|done]. by eapply Hirr.
Qed.

Lemma StronglySorted_seqZ (a n : Z) : StronglySorted Z.lt (seqZ a n).
Proof.
  destruct (decide (0 ≤ n)) as [Hn|Hn]; [|rewrite seqZ_nil by lia; constructor].
  revert a. pattern n. apply natlike_ind; [|clear n Hn|done].
  - intros a. rewrite seqZ_nil by lia. constructor.
  - intros n Hn IH a. rewrite seqZ_cons by lia.
    replace (Z.pred (Z.succ n)) with n by lia.
    constructor; [apply IH|]. apply Forall_seqZ. lia.
Qed.

Lemma calendar_days_sorted (y m : Z) :
  1 ≤ m ≤ 12 → StronglySorted earlier_in_month (calendar_days y m).
Proof.
  intros Hm. pose proof (days_in_month_bounds y m Hm) as Hd.
  unfold calendar_days.
  assert (StronglySorted (λ a b, 1 ≤ a ∧ a < b ∧ b ≤ 31)
            (seqZ 1 (datetime.days_in_month y m))) as Hs.
  { pose proof (StronglySorted_seqZ 1 (datetime.days_in_month y m)) as Hs.
    assert (Forall (λ a, 1 ≤ a ≤ 31) (seqZ 1 (datetime.days_in_month y m)))
      as Hall by (apply Forall_seqZ; lia).
    induction Hs as [|a l Hl IH Ha]; [constructor|].
    apply Forall_cons in Hall as [Hb Hall].
    constructor; [by apply IH|].
    apply Forall_forall. intros b Hin.
    rewrite Forall_forall in Ha, Hall.
    specialize (Ha b Hin). specialize (Hall b Hin). lia. }
  eapply StronglySorted_fmap, Hs.
  intros a b (?&?&?). unfold earlier_in_month. simpl. lia.
Qed.

Lemma digit_value_digit (n : Z) : digit_value (digit n) = Some (n mod 10).
Proof.
  unfold digit. pose proof (Z.mod_pos_bound n 10 ltac:(lia)) as H.
  assert (n mod 10 = 0 ∨ n mod 10 = 1 ∨ n mod 10 = 2 ∨ n mod 10 = 3
          ∨ n mod 10 = 4 ∨ n mod 10 = 5 ∨ n mod 10 = 6 ∨ n mod 10 = 7
          ∨ n mod 10 = 8 ∨ n mod 10 = 9) as Hc by lia.
  repeat (destruct Hc as [Hc|Hc]; [rewrite Hc; reflexivity|]).
  rewrite Hc; reflexivity.
Qed.

(** Reading back a day written [YYYY-MM-DD]. *)
Lemma parse_ymd_isoformat (d : datetime.date) :
  0 ≤ datetime.year d ≤ 9999 → 0 ≤ datetime.month d ≤ 99 →
  0 ≤ datetime.day d ≤ 99 →
  parse_ymd (isoformat d)
  = Some (datetime.year d, datetime.month d, datetime.day d).
Proof.
  intros Hy Hm Hd. destruct d as [y m dd].
  cbn [datetime.year datetime.month datetime.day] in *.
  assert (isoformat (datetime.mk_date y m dd)
    = String (digit (y / 1000)) (String (digit (y / 100))
       (String (digit (y / 10)) (String (digit y) (String "-"
        (String (digit (m / 10)) (String (digit m) (String "-"
         (String (digit (dd / 10)) (String (digit dd) EmptyString))))))))))
    as -> by reflexivity.
  unfold parse_ymd.
  cbn [list_ascii_of_string Ascii.eqb Bool.eqb andb].
  rewrite !digit_value_digit. cbn [mbind option_bind].
  f_equal. f_equal; [f_equal|]; Z.div_mod_to_equations; lia.
Qed.

(** ** The roster of a valid period *)

Lemma calendar_days_elem (y m : Z) (d : datetime.date) :
  d ∈ calendar_days y m ↔
  ∃ i, d = datetime.mk_date y m i ∧ 1 ≤ i ≤ datetime.days_in_month y m.
Proof.
  unfold calendar_days. rewrite list_elem_of_fmap.
  split; intros (i & -> & Hi); exists i; split; try done;
    [apply elem_of_seqZ in Hi|apply elem_of_seqZ]; lia.
Qed.

Lemma date_of_string_isoformat (y m : Z) (d : datetime.date) :
  valid_period y m → d ∈ calendar_days y m →
  date_of_string (isoformat d) = Some d.
Proof.
  intros Hv (i & -> & Hi)%calendar_days_elem.
  pose proof (valid_period_year _ _ Hv) as Hy. destruct Hv as [Hm _].
  pose proof (days_in_month_bounds y m Hm) as Hd.
  unfold date_of_string. rewrite parse_ymd_isoformat by (simpl; lia).
  simpl. unfold datetime.new, datetime.c_int, datetime.INT_MIN, datetime.INT_MAX,
    datetime.MINYEAR, datetime.MAXYEAR.
  repeat match goal with
  | |- context [?a <=? ?b] => destruct (Z.leb_spec a b); try lia
  end. reflexivity.
Qed.

Lemma roster_of_days_elem (vbw : gmap string (list string))
    (mt : option meeting) (days : list datetime.date) (r : row) :
  r ∈ roster_of_days vbw mt days ↔
  ∃ d, d ∈ days ∧ weekday_name d ∈ dom vbw ∧ r = roster_row vbw mt d.
Proof.
  unfold roster_of_days, isin. rewrite filter_bool_decide, list_elem_of_fmap.
  split.
  - intros (d & -> & [Hk Hd]%list_elem_of_filter). by exists d.
  - intros (d & Hd & Hk & ->). exists d. split; [done|].
    by apply list_elem_of_filter.
Qed.

Lemma roster_of_days_dates (vbw : gmap string (list string))
    (mt : option meeting) (days : list datetime.date) :
  date <$> roster_of_days vbw mt days
  = isoformat <$> filter (λ d, weekday_name d ∈ dom vbw) days.
Proof.
  unfold roster_of_days, isin. rewrite filter_bool_decide.
  rewrite <- list_fmap_compose. by apply list_fmap_ext.
Qed.

Lemma calendar_days_interval (y m : Z) :
  valid_period y m →
  calendar_days y m
  = datetime.fromordinal
      <$> seqZ (datetime.toordinal (first_day y m))
               (datetime.toordinal (next_first_day y m)
                - datetime.toordinal (first_day y m)).
Proof.
  intros Hv. pose proof (valid_period_year _ _ Hv) as Hy.
  pose proof Hv as [Hm _].
  rewrite toordinal_next_first_day by done.
  replace (datetime.toordinal (first_day y m) + datetime.days_in_month y m
           - datetime.toordinal (first_day y m))
    with (datetime.days_in_month y m) by lia.
  unfold calendar_days.
  rewrite <- (Z.add_0_r (datetime.toordinal (first_day y m))).
  rewrite <- (fmap_add_seqZ _ 0), <- (fmap_add_seqZ 1 0).
  rewrite <- !list_fmap_compose.
  apply list_fmap_ext. intros _ i Hi%list_elem_of_lookup_2%elem_of_seqZ.
  simpl.
  replace (datetime.toordinal (first_day y m) + i)
    with (datetime.toordinal (datetime.mk_date y m (1 + i)))
    by (unfold datetime.toordinal, first_day; simpl; lia).
  symmetry. apply fromordinal_toordinal; lia.
Qed.

Lemma roster_dates_sorted (y m : Z) (vbw : gmap string (list string))
    (mt : option meeting) :
  1 ≤ m ≤ 12 →
  StronglySorted str_lt (date <$> roster_of_days vbw mt (calendar_days y m)).
Proof.
  intros Hm. unfold roster_of_days. rewrite <- list_fmap_compose.
  eapply StronglySorted_fmap;
    [|apply StronglySorted_filter, calendar_days_sorted, Hm].
  intros d d' (?&?&?&?&?). simpl. by apply isoformat_lt.
Qed.

Lemma note_of_other_weekday (vbw : gmap string (list string))
    (wd : string) (week : Z) (start end_ : string) (d : datetime.date) :
  vbw !! wd = None → weekday_name d ∈ dom vbw →
  note_of (Some (wd, week, start, end_)) d = "".
Proof.
  intros Hwd Hk. unfold note_of. case_bool_decide as H; [|done].
  destruct H as [<- _]. apply elem_of_dom in Hk as [? Hk]. congruence.
Qed.

(** ** The label of a roster *)

Lemma date_of_string_Some (s : string) (d : datetime.date) :
  date_of_string s = Some d →
  ∃ y m dd, parse_ymd s = Some (y, m, dd) ∧ datetime.new y m dd = Ok d.
Proof.
  unfold date_of_string. destruct (parse_ymd s) as [[[y m] dd]|]; [|done].
  cbn [mbind option_bind]. intros H. exists y, m, dd. split; [done|].
  destruct (datetime.new y m dd); congruence.
Qed.

Lemma new_Ok (y m dd : Z) (d : datetime.date) :
  datetime.new y m dd = Ok d →
  d = datetime.mk_date y m dd ∧ 1 ≤ y ≤ 9999 ∧ 1 ≤ m ≤ 12
  ∧ 1 ≤ dd ≤ datetime.days_in_month y m.
Proof.
  unfold datetime.new, datetime.c_int, datetime.INT_MIN, datetime.INT_MAX,
    datetime.MINYEAR, datetime.MAXYEAR.
  repeat match goal with
  | |- context [?a <=? ?b] => destruct (Z.leb_spec a b); simpl; try done
  end.
  intros [= <-]. repeat split; lia.
Qed.

(** A day that a [Timestamp] can hold lies in the years 1677..2262. *)
Lemma Timestamp_year_bounds (y m dd : Z) :
  1 ≤ m ≤ 12 → 1 ≤ dd ≤ datetime.days_in_month y m →
  Timestamp_of_date (datetime.mk_date y m dd)
  = Ok (midnight (datetime.mk_date y m dd)) →
  1677 ≤ y ≤ 2262.
Proof.
  intros Hm Hd. rewrite Timestamp_of_date_bounds.
  pose proof (days_before_month_bounds y m Hm).
  pose proof (days_in_month_bounds y m Hm).
  assert (datetime.days_before_year 1677 = 612147) as E1 by reflexivity.
  assert (datetime.days_before_year 2263 = 826178) as E2 by reflexivity.
  unfold datetime.toordinal. cbn [datetime.year datetime.month datetime.day].
  destruct (Z.leb_spec 612412
    (datetime.days_before_year y + datetime.days_before_month y m + dd));
    [|done].
  destruct (Z.leb_spec
    (datetime.days_before_year y + datetime.days_before_month y m + dd)
    825914); [|done].
  intros _. split.
  - destruct (decide (1677 ≤ y)); [done|].
    pose proof (days_before_year_mono (y + 1) 1677 ltac:(lia)).
    rewrite days_before_year_succ in *.
    unfold datetime.days_before_month, datetime.days_in_month in *.
    destruct (datetime.is_leap y); by_month Hm; simpl in *; lia.
  - destruct (decide (y ≤ 2262)); [done|].
    pose proof (days_before_year_mono 2263 y ltac:(lia)). lia.
Qed.

(** ** The Markdown table *)

Lemma append_String (c : ascii) (s t : string) :
  String c s +:+ t = String c (s +:+ t).
Proof. reflexivity. Qed.

Lemma append_nil_l (t : string) : EmptyString +:+ t = t.
Proof. reflexivity. Qed.

Lemma append_nil_r (s : string) : s +:+ EmptyString = s.
Proof.
  induction s as [|c s IH]; [done|]. by rewrite append_String, IH.
Qed.

Lemma append_assoc (a b c : string) : (a +:+ b) +:+ c = a +:+ (b +:+ c).
Proof.
  induction a as [|x a IH]; [done|]. by rewrite !append_String, IH.
Qed.

Lemma chars_append (a b : string) :
  csv.chars (a +:+ b) = (csv.chars a ++ csv.chars b)%list.
Proof.
  induction a as [|x a IH]; [done|]. rewrite append_String.
  unfold csv.chars in *. simpl. by rewrite IH.
Qed.

Lemma lacks_String (c x : ascii) (s : string) :
  lacks c (String x s) ↔ x ≠ c ∧ lacks c s.
Proof. unfold lacks. simpl. apply (Forall_cons (λ y, y ≠ c)). Qed.

Lemma lacks_append (c : ascii) (a b : string) :
  lacks c (a +:+ b) ↔ lacks c a ∧ lacks c b.
Proof. unfold lacks. rewrite chars_append. apply (Forall_app (λ y, y ≠ c)). Qed.

Lemma concat_empty_cons (x : string) (xs : list string) :
  String.concat "" (x :: xs) = x +:+ String.concat "" xs.
Proof. destruct xs; [symmetry; apply append_nil_r|done]. Qed.

Lemma split_on_lacks (sep : ascii) (s : string) :
  lacks sep s → split_on sep s = [s].
Proof.
  induction s as [|c s IH]; [done|]. intros [Hc Hs]%lacks_String.
  simpl. rewrite (proj2 (Ascii.eqb_neq c sep)) by done. by rewrite IH.
Qed.

Lemma split_on_append (sep : ascii) (a b : string) :
  lacks sep a → split_on sep (a +:+ String sep b) = a :: split_on sep b.
Proof.
  induction a as [|c a IH].
  - intros _. rewrite append_nil_l. simpl. by rewrite Ascii.eqb_refl.
  - intros [Hc Ha]%lacks_String. rewrite append_String. simpl.
    rewrite (proj2 (Ascii.eqb_neq c sep)) by done. by rewrite IH.
Qed.

(** Splitting undoes joining, for fields that lack the separator. *)
Lemma split_on_concat (sep : ascii) (fs : list string) :
  fs ≠ [] → Forall (lacks sep) fs →
  split_on sep (String.concat (String sep EmptyString) fs) = fs.
Proof.
  induction fs as [|a fs IH]; [done|]. intros _ [Ha Hfs]%Forall_cons.
  destruct fs as [|b fs].
  - simpl. by apply split_on_lacks.
  - change (String.concat (String sep EmptyString) (a :: b :: fs))
      with (a +:+ String sep (String.concat (String sep EmptyString) (b :: fs))).
    rewrite split_on_append by done. f_equal. by apply IH.
Qed.

Lemma lacks_concat (c sep : ascii) (fs : list string) :
  sep ≠ c → Forall (lacks c) fs →
  lacks c (String.concat (String sep EmptyString) fs).
Proof.
  intros Hsep. induction 1 as [|a fs Ha Hfs IH]; [by constructor|].
  destruct fs as [|b fs]; [done|].
  change (String.concat (String sep EmptyString) (a :: b :: fs))
    with (a +:+ String sep (String.concat (String sep EmptyString) (b :: fs))).
  apply lacks_append. split; [done|]. by apply lacks_String.
Qed.

(** Splitting a text on line feeds gives back its lines, and one empty
    piece after the last line feed. *)
Lemma split_on_lines (ls : list string) :
  Forall (lacks LF) ls →
  split_on LF (String.concat "" ((λ l, l +:+ csv.lineterminator) <$> ls))
  = (ls ++ [EmptyString])%list.
Proof.
  induction 1 as [|l ls Hl Hls IH]; [done|].
  rewrite fmap_cons, concat_empty_cons.
  unfold csv.lineterminator at 1. rewrite append_assoc.
  change (String LF "" +:+ ?s) with (String LF s).
  rewrite split_on_append by done. by rewrite IH.
Qed.

Lemma table_rows_lines (ls : list string) :
  Forall (lacks LF) ls →
  table_rows (String.concat "" ((λ l, l +:+ csv.lineterminator) <$> ls)) = ls.
Proof.
  intros Hls. unfold table_rows. rewrite split_on_lines by done.
  rewrite reverse_snoc. by rewrite reverse_involutive.
Qed.

Lemma special_false (c : ascii) :
  c ≠ "|"%char → c ≠ DQUOTE → c ≠ LF → csv.special "|" c = false.
Proof.
  intros H1 H2 H3. unfold csv.special, csv.quotechar. simpl.
  by rewrite !(proj2 (Ascii.eqb_neq _ _)).
Qed.

Lemma write_field_plain (s : string) : plain s → csv.write_field "|" s = s.
Proof.
  intros (H1 & H2 & H3). unfold csv.write_field, csv.needs_quotes.
  assert (existsb (csv.special "|") (csv.chars s) = false) as ->; [|done].
  unfold lacks in *. induction (csv.chars s) as [|c l IH]; [done|].
  apply Forall_cons in H1 as [? ?], H2 as [? ?], H3 as [? ?].
  simpl. rewrite special_false by done. by apply IH.
Qed.

Lemma writerow_fields (r : row) :
  csv.writerow "|" (fields r) = written_row (fields r).
Proof. unfold csv.writerow, fields. by destruct (date r). Qed.

Lemma to_markdown_written (roster : list row) :
  to_markdown (frame roster) = written_table roster.
Proof.
  unfold to_markdown, to_csv, pd_concat, frame, written_table.
  cbn [columns values app]. f_equal.
  rewrite !fmap_cons. do 2 f_equal.
  apply list_fmap_ext. intros _ fs [r [-> _]]%list_elem_of_lookup_2%list_elem_of_fmap.
  apply writerow_fields.
Qed.

Lemma written_row_plain (fs : list string) :
  Forall plain fs → written_row fs = joined_row fs.
Proof.
  intros H. unfold written_row, joined_row. do 2 f_equal.
  induction H as [|f fs Hf _ IH]; [done|].
  rewrite fmap_cons, IH. f_equal. by apply write_field_plain.
Qed.

Lemma plain_literals :
  Forall plain roster_columns ∧ Forall plain (replicate 4 "---").
Proof.
  split; repeat constructor; unfold lacks; simpl;
    repeat constructor; discriminate.
Qed.

Lemma written_table_plain (roster : list row) :
  Forall plain_row roster → written_table roster = unquoted_table roster.
Proof.
  intros H. unfold written_table, unquoted_table. f_equal.
  destruct plain_literals as [Hc Hd].
  rewrite !fmap_cons, (written_row_plain roster_columns),
    (written_row_plain (replicate 4 "---")) by done.
  do 2 f_equal. apply list_fmap_ext.
  intros _ fs [r [-> Hr]]%list_elem_of_lookup_2%list_elem_of_fmap.
  apply written_row_plain. by eapply Forall_forall in H.
Qed.

Lemma needs_quotes_plain (s : string) :
  csv.needs_quotes "|" s = false ↔ plain s.
Proof.
  unfold csv.needs_quotes, plain, lacks.
  induction (csv.chars s) as [|c l IH].
  - split; [by repeat split; constructor|done].
  - simpl. rewrite orb_false_iff, IH, !(Forall_cons (λ y, y ≠ _)).
    assert (csv.special "|" c = false
            ↔ c ≠ "|"%char ∧ c ≠ DQUOTE ∧ c ≠ LF) as ->; [|tauto].
    unfold csv.special, csv.quotechar. simpl.
    rewrite !orb_false_iff, !Ascii.eqb_neq. tauto.
Qed.

(** C4 as amended. The rendered table separates the columns by the pipe
    character; a field with no pipe, no double quote and no line feed in
    it is written as it is, and any other field is written between
    double quotes, with every double quote inside it doubled.  So the
    rows of a roster of plain fields are their fields joined by the
    pipe, as they are. *)
Theorem to_markdown_rows (roster : list row) :
  to_markdown (frame roster) = written_table roster
  ∧ (∀ s, plain s → csv.write_field "|" s = s)
  ∧ (∀ s, ¬ plain s →
       csv.write_field "|" s
       = String DQUOTE (csv.double_quotes s +:+ String DQUOTE EmptyString))
  ∧ (Forall plain_row roster →
     to_markdown (frame roster) = unquoted_table roster).
Proof.
  split; [apply to_markdown_written|].
  split; [apply write_field_plain|]. split.
  - intros s Hs. unfold csv.write_field.
    destruct (csv.needs_quotes "|" s) eqn:E; [done|].
    by apply needs_quotes_plain in E.
  - intros H. rewrite to_markdown_written. by apply written_table_plain.
Qed.

Lemma unquoted_table_lines (roster : list row) :
  unquoted_table roster
  = String.concat ""
      ((λ l, l +:+ csv.lineterminator)
         <$> (String.concat "|"
                <$> (roster_columns :: replicate 4 "---" :: (fields <$> roster)))).
Proof. unfold unquoted_table. by rewrite <- list_fmap_compose. Qed.

Lemma plain_lacks_LF (fs : list string) :
  Forall plain fs → lacks LF (String.concat "|" fs).
Proof.
  intros H. apply (lacks_concat LF "|"); [discriminate|].
  eapply Forall_impl; [exact H|]. by intros s (_ & _ & ?).
Qed.

(** C9 as amended. For a roster of plain fields, splitting the rendered
    table into rows on line feeds, dropping the header row and the
    separator row, and splitting every row on the pipe gives back the
    fields of the rows of the roster. *)
Theorem to_markdown_round_trip (roster : list row) :
  Forall plain_row roster →
  parse_table (to_markdown (frame roster)) = fields <$> roster.
Proof.
  intros H. destruct plain_literals as [Hc Hd].
  rewrite to_markdown_written, written_table_plain, unquoted_table_lines by done.
  unfold parse_table. rewrite table_rows_lines.
  - rewrite !fmap_cons, <- list_fmap_compose.
    rewrite <- (list_fmap_id (fields <$> roster)) at 2.
    apply list_fmap_ext.
    intros _ fs [r [-> Hr]]%list_elem_of_lookup_2%list_elem_of_fmap.
    unfold compose. apply (split_on_concat "|"); [done|].
    eapply Forall_forall in H; [|done].
    eapply Forall_impl; [exact H|]. by intros s (? & _).
  - rewrite !fmap_cons.
    apply Forall_cons_2; [by apply plain_lacks_LF|].
    apply Forall_cons_2; [by apply plain_lacks_LF|].
    apply Forall_fmap, Forall_fmap.
    eapply Forall_impl; [exact H|]. intros r Hr. by apply plain_lacks_LF.
Qed.

(** The Markdown table that the notebook prints for its roster, the
    Sundays of January 2021. *)
Example notebook_markdown :
  to_markdown (frame [ mk_row "2021-01-03" "Sunday" "? & ?" "";
                       mk_row "2021-01-10" "Sunday" "? & ?" "";
                       mk_row "2021-01-17" "Sunday" "? & ?" "";
                       mk_row "2021-01-24" "Sunday" "? & ?" "";
                       mk_row "2021-01-31" "Sunday" "? & ?" "" ])
  = "date|weekday|volunteers|notes
---|---|---|---
2021-01-03|Sunday|? & ?|
2021-01-10|Sunday|? & ?|
2021-01-17|Sunday|? & ?|
2021-01-24|Sunday|? & ?|
2021-01-31|Sunday|? & ?|
".
Proof. vm_compute. reflexivity. Qed.

(** ** Weekdays *)

Lemma weekday_range (d : datetime.date) : 0 ≤ datetime.weekday d < 7.
Proof. unfold datetime.weekday. apply Z.mod_pos_bound. lia. Qed.

Lemma DAYS_FULL_in (k : Z) : 0 ≤ k < 7 → DAYS_FULL k ∈ weekday_names.
Proof.
  intros Hk. unfold weekday_names. apply list_elem_of_fmap.
  exists k. split; [done|]. apply elem_of_seqZ. lia.
Qed.

Lemma weekday_name_in (d : datetime.date) : weekday_name d ∈ weekday_names.
Proof. apply DAYS_FULL_in, weekday_range. Qed.

Lemma weekday_names_index (w : string) :
  w ∈ weekday_names → ∃ k, 0 ≤ k < 7 ∧ w = DAYS_FULL k.
Proof.
  unfold weekday_names. intros (k & -> & Hk%elem_of_seqZ)%list_elem_of_fmap.
  exists k. split; [lia|done].
Qed.

Lemma DAYS_FULL_inj_all :
  forallb (λ a, forallb (λ b, implb (String.eqb (DAYS_FULL a) (DAYS_FULL b))
                                    (a =? b))
                        (seqZ 0 7)) (seqZ 0 7) = true.
Proof. vm_compute. reflexivity. Qed.

Lemma DAYS_FULL_inj (a b : Z) :
  0 ≤ a < 7 → 0 ≤ b < 7 → DAYS_FULL a = DAYS_FULL b → a = b.
Proof.
  intros Ha Hb E.
  pose proof (forallb_seqZ _ _ _ a DAYS_FULL_inj_all ltac:(lia)) as H.
  cbv beta in H. pose proof (forallb_seqZ _ _ _ b H ltac:(lia)) as H'.
  cbv beta in H'. rewrite E, String.eqb_refl in H'. simpl in H'.
  by apply Z.eqb_eq.
Qed.

(** Two mappings with the same entries under the weekday names give the
    same rows. *)
Lemma roster_of_days_agree (vbw vbw' : gmap string (list string))
    (mt : option meeting) (days : list datetime.date) :
  (∀ w, w ∈ weekday_names → vbw !! w = vbw' !! w) →
  roster_of_days vbw mt days = roster_of_days vbw' mt days.
Proof.
  intros H. unfold roster_of_days.
  rewrite (List.filter_ext _ (λ d, isin (weekday_name d) (dom vbw'))).
  - apply list_fmap_ext. intros _ d _. unfold roster_row.
    by rewrite (H _ (weekday_name_in d)).
  - intros d. unfold isin. apply bool_decide_ext.
    by rewrite !elem_of_dom, (H _ (weekday_name_in d)).
Qed.

Lemma filter_none {A} (p : A → bool) (l : list A) :
  (∀ x, x ∈ l → p x = false) → List.filter p l = [].
Proof.
  induction l as [|x l IH]; [done|]. intros H. simpl.
  rewrite (H x) by apply list_elem_of_here.
  apply IH. intros y Hy. apply H. by apply list_elem_of_further.
Qed.

Lemma filter_all {A} (p : A → bool) (l : list A) :
  (∀ x, x ∈ l → p x = true) → List.filter p l = l.
Proof.
  induction l as [|x l IH]; [done|]. intros H. simpl.
  rewrite (H x) by apply list_elem_of_here. f_equal.
  apply IH. intros y Hy. apply H. by apply list_elem_of_further.
Qed.

Lemma weekday_in_month (y m i : Z) :
  datetime.weekday (datetime.mk_date y m i)
  = (datetime.weekday (first_day y m) + (i - 1)) mod 7.
Proof.
  unfold datetime.weekday. rewrite Zplus_mod_idemp_l. f_equal.
  unfold datetime.toordinal, first_day. simpl. lia.
Qed.

Lemma filter_filter {A} (p q : A → bool) (l : list A) :
  List.filter p (List.filter q l) = List.filter (λ x, q x && p x) l.
Proof.
  induction l as [|x l IH]; [done|]. simpl.
  destruct (q x); simpl; [destruct (p x)|]; simpl; by rewrite IH.
Qed.

Lemma staff_meeting_nonempty (start end_ : string) :
  staff_meeting start end_ ≠ "".
Proof. unfold staff_meeting. rewrite append_String. discriminate. Qed.

(** The rows of a month that satisfy [p], when [p] on the row of day
    [i] says that the day has weekday number [k] and lies in [lo..hi]. *)
Lemma roster_filter (y m k lo hi : Z) (vbw : gmap string (list string))
    (mt : option meeting) (p : row → bool) :
  0 ≤ k < 7 → DAYS_FULL k ∈ dom vbw →
  (∀ i, 1 ≤ i ≤ datetime.days_in_month y m →
        p (roster_row vbw mt (datetime.mk_date y m i))
        = bool_decide (weekday_name (datetime.mk_date y m i) = DAYS_FULL k)
          && (lo <=? i) && (i <=? hi)) →
  List.filter p (roster_of_days vbw mt (calendar_days y m))
  = roster_row vbw mt
      <$> (datetime.mk_date y m
             <$> occurrences (datetime.weekday (first_day y m))
                   (datetime.days_in_month y m) k lo hi).
Proof.
  intros Hk Hdom Hp. unfold roster_of_days, calendar_days, occurrences.
  rewrite filter_fmap_swap, filter_filter, filter_fmap_swap.
  do 2 f_equal. apply List.filter_ext_in.
  intros i Hi%list_elem_of_In%elem_of_seqZ.
  rewrite Hp by lia. unfold isin, weekday_name.
  rewrite weekday_in_month.
  set (w := (datetime.weekday (first_day y m) + (i - 1)) mod 7).
  assert (0 ≤ w < 7) as Hw by (apply Z.mod_pos_bound; lia).
  destruct (Z.eqb_spec w k) as [->|Hne].
  - rewrite (bool_decide_eq_true_2 (DAYS_FULL k ∈ dom vbw)) by done.
    by rewrite (bool_decide_eq_true_2 (DAYS_FULL k = DAYS_FULL k)).
  - rewrite (bool_decide_eq_false_2 (DAYS_FULL w = DAYS_FULL k)).
    + by rewrite andb_false_r.
    + intros E. by apply Hne, DAYS_FULL_inj.
Qed.

Lemma occurrences_check_all :
  forallb (λ w0, forallb (λ dim, forallb (occurrences_check w0 dim)
                                         (seqZ 0 7))
                         (seqZ 28 4)) (seqZ 0 7) = true.
Proof. vm_compute. reflexivity. Qed.

Lemma occurrences_checked (w0 dim k : Z) :
  0 ≤ w0 < 7 → 28 ≤ dim ≤ 31 → 0 ≤ k < 7 → occurrences_check w0 dim k = true.
Proof.
  intros H0 Hd Hk.
  pose proof (forallb_seqZ _ _ _ w0 occurrences_check_all ltac:(lia)) as H.
  cbv beta in H. pose proof (forallb_seqZ _ _ _ dim H ltac:(lia)) as H'.
  cbv beta in H'. apply (forallb_seqZ _ _ _ k H'). lia.
Qed.

(** A window that no day of a month reaches. *)
Lemma occurrences_outside (w0 dim k lo hi : Z) :
  dim ≤ 31 → hi < 1 ∨ 31 < lo → occurrences w0 dim k lo hi = [].
Proof.
  intros Hd Hw. unfold occurrences. apply filter_none.
  intros i Hi%elem_of_seqZ.
  destruct ((w0 + (i - 1)) mod 7 =? k); [simpl|done].
  destruct (Z.leb_spec lo i), (Z.leb_spec i hi); simpl; try done; lia.
Qed.

Lemma occurrences_bound_all :
  forallb (λ w0, forallb (λ dim, forallb (occurrences_bound_check w0 dim)
                                         (seqZ 0 7))
                         (seqZ 28 4)) (seqZ 0 7) = true.
Proof. vm_compute. reflexivity. Qed.

Lemma occurrences_bound (w0 dim k week : Z) :
  0 ≤ w0 < 7 → 28 ≤ dim ≤ 31 → 0 ≤ k < 7 →
  (length (occurrences w0 dim k (7 * (week - 1)) (7 * week)) ≤ 2)%nat.
Proof.
  intros H0 Hd Hk.
  destruct (decide (1 ≤ week ≤ 5)) as [Hw|Hw].
  - pose proof (forallb_seqZ _ _ _ w0 occurrences_bound_all ltac:(lia)) as H.
    cbv beta in H. pose proof (forallb_seqZ _ _ _ dim H ltac:(lia)) as H'.
    cbv beta in H'. pose proof (forallb_seqZ _ _ _ k H' ltac:(lia)) as H''.
    unfold occurrences_bound_check in H''.
    pose proof (forallb_seqZ _ _ _ week H'' ltac:(lia)) as Hb.
    cbv beta in Hb. apply Z.leb_le in Hb. lia.
  - rewrite occurrences_outside by lia. simpl. lia.
Qed.

(** When the row of a day carries a note. *)
Lemma noted_condition (vbw : gmap string (list string))
    (wd : string) (week : Z) (start end_ : string) (d : datetime.date) :
  bool_decide (notes (roster_row vbw (Some (wd, week, start, end_)) d) ≠ "")
  = bool_decide (weekday_name d = wd)
    && (7 * (week - 1) <=? datetime.day d) && (datetime.day d <=? 7 * week).
Proof.
  unfold roster_row, note_of. cbn [notes].
  assert (bool_decide (weekday_name d = wd) = String.eqb (weekday_name d) wd)
    as ->.
  { destruct (String.eqb_spec (weekday_name d) wd);
      [by apply bool_decide_eq_true_2|by apply bool_decide_eq_false_2]. }
  rewrite meeting_condition.
  destruct (bool_decide (weekday_name d = wd
                         ∧ 7 * (week - 1) ≤ datetime.day d ≤ 7 * week)).
  - apply bool_decide_eq_true_2, staff_meeting_nonempty.
  - apply bool_decide_eq_false_2. intros H. by apply H.
Qed.

(** The rows that carry a note, for a meeting on a weekday that is a key. *)
Lemma noted_rows (y m k week : Z) (vbw : gmap string (list string))
    (start end_ : string) :
  0 ≤ k < 7 → DAYS_FULL k ∈ dom vbw →
  filter (λ r, notes r ≠ "")
    (roster_of_days vbw (Some (DAYS_FULL k, week, start, end_))
       (calendar_days y m))
  = roster_row vbw (Some (DAYS_FULL k, week, start, end_))
      <$> (datetime.mk_date y m
             <$> occurrences (datetime.weekday (first_day y m))
                   (datetime.days_in_month y m) k
                   (7 * (week - 1)) (7 * week)).
Proof.
  intros Hk Hdom. rewrite <- filter_bool_decide.
  apply (roster_filter y m k); [done..|].
  intros i Hi. by rewrite noted_condition.
Qed.

(** No row carries a note when the meeting's weekday is not the weekday
    of any row. *)
Lemma noted_rows_none (vbw : gmap string (list string)) (mt : option meeting)
    (days : list datetime.date) :
  match mt with
  | Some (wd, _, _, _) => wd ∉ weekday_names ∨ wd ∉ dom vbw
  | None => True
  end →
  filter (λ r, notes r ≠ "") (roster_of_days vbw mt days) = [].
Proof.
  intros H. rewrite <- filter_bool_decide. apply filter_none.
  intros r (d & _ & Hk & ->)%roster_of_days_elem.
  apply bool_decide_eq_false. intros Hn. apply Hn.
  unfold roster_row, note_of. cbn [notes].
  destruct mt as [[[[wd week] start] end_]|]; [|done].
  case_bool_decide as Hc; [|done]. destruct Hc as [<- _].
  destruct H as [H|H]; [by destruct H; apply weekday_name_in|done].
Qed.

(** A weekday that is a key has four or five rows. *)
Lemma weekday_rows_count (y m k : Z) (vbw : gmap string (list string))
    (mt : option meeting) :
  valid_period y m → 0 ≤ k < 7 → DAYS_FULL k ∈ dom vbw →
  (4 ≤ length (filter (λ r, weekday r = DAYS_FULL k)
                 (roster_of_days vbw mt (calendar_days y m))) ≤ 5)%nat.
Proof.
  intros Hv Hk Hdom. pose proof Hv as [Hm _].
  pose proof (days_in_month_bounds y m Hm) as Hd.
  rewrite <- filter_bool_decide.
  rewrite (roster_filter y m k 0 31); [|done..|].
  - rewrite !length_fmap.
    pose proof (occurrences_checked _ _ k (weekday_range (first_day y m))
                  Hd Hk) as C.
    unfold occurrences_check in C. cbv zeta in C.
    do 3 (apply andb_prop in C as [C _]).
    apply andb_prop in C as [C1%Z.leb_le C2%Z.leb_le]. lia.
  - intros i Hi. cbn [roster_row weekday].
    rewrite (proj2 (Z.leb_le 0 i)), (proj2 (Z.leb_le i 31)) by lia.
    by rewrite !andb_true_r.
Qed.

Lemma traverse_Raise {A B} (g : A → result B) (good rest : list A) (x : A)
    (e : exn) :
  Forall (λ a, is_Ok (g a) = true) good → g x = Raise e →
  traverse g (good ++ x :: rest) = Raise e.
Proof.
  intros Hgood Hx. induction Hgood as [|a good Ha _ IH]; simpl.
  - by rewrite Hx.
  - destruct (g a); [|done]. cbn [mbind result_bind]. by rewrite IH.
Qed.

(** ** Plain rosters *)

Lemma lacks_concat_sep (c : ascii) (sep : string) (fs : list string) :
  lacks c sep → Forall (lacks c) fs → lacks c (String.concat sep fs).
Proof.
  intros Hsep. induction 1 as [|a fs Ha Hfs IH]; [by constructor|].
  destruct fs as [|b fs]; [done|].
  change (String.concat sep (a :: b :: fs))
    with (a +:+ sep +:+ String.concat sep (b :: fs)).
  apply lacks_append. split; [done|]. by apply lacks_append.
Qed.

Lemma plain_append (a b : string) : plain a → plain b → plain (a +:+ b).
Proof.
  intros (?&?&?) (?&?&?). by repeat split; apply lacks_append.
Qed.

Lemma plain_concat (sep : string) (fs : list string) :
  plain sep → Forall plain fs → plain (String.concat sep fs).
Proof.
  intros (S1 & S2 & S3) Hfs.
  repeat split; apply lacks_concat_sep; try done;
    (eapply Forall_impl; [exact Hfs|]); by intros s (?&?&?).
Qed.

Lemma plain_literal (s : string) : csv.needs_quotes "|" s = false → plain s.
Proof. apply needs_quotes_plain. Qed.

Lemma plain_digits :
  forallb (λ n, negb (csv.special "|" (digit n))) (seqZ 0 10) = true.
Proof. vm_compute. reflexivity. Qed.

Lemma plain_String (c : ascii) (s : string) :
  csv.special "|" c = false → plain s → plain (String c s).
Proof.
  intros Hc Hs. apply needs_quotes_plain. apply needs_quotes_plain in Hs.
  unfold csv.needs_quotes in *. simpl. by rewrite Hc.
Qed.

Lemma digit_plain (n : Z) : csv.special "|" (digit n) = false.
Proof.
  pose proof (forallb_seqZ _ _ _ (n mod 10) plain_digits
                ltac:(pose proof (Z.mod_pos_bound n 10); lia)) as H.
  cbv beta in H. apply negb_true_iff in H.
  unfold digit in *. by rewrite Zmod_mod in H.
Qed.

Lemma zfill2_plain (n : Z) : plain (zfill2 n).
Proof.
  unfold zfill2.
  apply plain_String; [apply digit_plain|].
  apply plain_String; [apply digit_plain|].
  apply plain_literal. reflexivity.
Qed.

Lemma zfill4_plain (n : Z) : plain (zfill4 n).
Proof.
  unfold zfill4.
  apply plain_String; [apply digit_plain|].
  apply plain_String; [apply digit_plain|]. apply zfill2_plain.
Qed.

Lemma isoformat_plain (d : datetime.date) : plain (isoformat d).
Proof.
  assert (plain "-") as Hdash by (apply plain_literal; reflexivity).
  unfold isoformat.
  apply plain_append; [apply zfill4_plain|].
  apply plain_append; [exact Hdash|].
  apply plain_append; [apply zfill2_plain|].
  apply plain_append; [exact Hdash|apply zfill2_plain].
Qed.

Lemma weekday_names_plain :
  forallb (λ k, negb (csv.needs_quotes "|" (DAYS_FULL k))) (seqZ 0 7) = true.
Proof. vm_compute. reflexivity. Qed.

Lemma weekday_name_plain (d : datetime.date) : plain (weekday_name d).
Proof.
  apply plain_literal, negb_true_iff.
  apply (forallb_seqZ _ _ _ _ weekday_names_plain).
  pose proof (weekday_range d). lia.
Qed.

Lemma staff_meeting_plain (start end_ : string) :
  plain start → plain end_ → plain (staff_meeting start end_).
Proof.
  intros Hs He. unfold staff_meeting.
  apply plain_append; [apply plain_literal; reflexivity|].
  apply plain_append; [assumption|].
  apply plain_append; [apply plain_literal; reflexivity|assumption].
Qed.

(** The rows built from plain names and plain meeting times are plain. *)
Lemma roster_of_days_plain (vbw : gmap string (list string))
    (mt : option meeting) (days : list datetime.date) :
  (∀ w names, vbw !! w = Some names → Forall plain names) →
  match mt with
  | Some (_, _, start, end_) => plain start ∧ plain end_
  | None => True
  end →
  Forall plain_row (roster_of_days vbw mt days).
Proof.
  intros Hnames Hmt. apply Forall_forall.
  intros r (d & _ & [names Hn]%elem_of_dom & ->)%roster_of_days_elem.
  unfold plain_row, fields, roster_row. cbn [date weekday volunteers notes].
  rewrite Hn. cbn [default].
  repeat apply Forall_cons_2; [..|apply Forall_nil_2].
  - apply isoformat_plain.
  - apply weekday_name_plain.
  - apply plain_concat; [by apply plain_literal|by eapply Hnames].
  - unfold note_of. destruct mt as [[[[wd week] start] end_]|];
      [|by apply plain_literal].
    case_bool_decide; [|by apply plain_literal].
    destruct Hmt. by apply staff_meeting_plain.
Qed.

(** ** The table determines the roster *)

Lemma read_plain_field (f rest : string) :
  lacks "|" f → lacks LF f → delimited rest →
  read_plain (f +:+ rest) = (f, rest).
Proof.
  intros H1 H2 (c & s' & -> & Hc). induction f as [|x f IH].
  - rewrite append_nil_l. cbn [read_plain].
    destruct Hc as [-> | ->]; by rewrite Ascii.eqb_refl, ?orb_true_r.
  - apply lacks_String in H1 as [Hx1 H1], H2 as [Hx2 H2].
    rewrite append_String. cbn [read_plain].
    rewrite (proj2 (Ascii.eqb_neq x "|")), (proj2 (Ascii.eqb_neq x LF)) by done.
    cbn [orb]. by rewrite IH.
Qed.

Lemma delimited_not_quote (c : ascii) :
  c = "|"%char ∨ c = LF → Ascii.eqb c DQUOTE = false.
Proof. by intros [-> | ->]. Qed.

Lemma read_quoted_field (f rest : string) :
  delimited rest →
  read_quoted (csv.double_quotes f +:+ String DQUOTE rest) = Some (f, rest).
Proof.
  intros (c & s' & -> & Hc). induction f as [|x f IH].
  - cbn [csv.double_quotes]. rewrite append_nil_l. cbn [read_quoted].
    by rewrite Ascii.eqb_refl, delimited_not_quote.
  - cbn [csv.double_quotes]. unfold csv.quotechar.
    destruct (Ascii.eqb_spec x DQUOTE) as [->|Hx].
    + rewrite !append_String. cbn [read_quoted]. rewrite !Ascii.eqb_refl.
      by rewrite IH.
    + rewrite append_String. cbn [read_quoted].
      rewrite (proj2 (Ascii.eqb_neq x DQUOTE)) by done. by rewrite IH.
Qed.

(** Reading a written field gives the field back. *)
Lemma read_cell_field (f rest : string) :
  delimited rest →
  read_cell (csv.write_field "|" f +:+ rest) = Some (f, rest).
Proof.
  intros Hrest. unfold csv.write_field.
  destruct (csv.needs_quotes "|" f) eqn:E.
  - unfold csv.quotechar. rewrite append_String, append_assoc, append_String,
      append_nil_l. unfold read_cell. rewrite Ascii.eqb_refl.
    by apply read_quoted_field.
  - apply needs_quotes_plain in E as (H1 & H2 & H3).
    destruct f as [|x f].
    + rewrite append_nil_l. destruct Hrest as (c & s' & -> & Hc).
      unfold read_cell. rewrite delimited_not_quote by done.
      cbn [read_plain].
      by destruct Hc as [-> | ->]; rewrite Ascii.eqb_refl, ?orb_true_r.
    + pose proof (read_plain_field (String x f) rest H1 H3 Hrest) as Hr.
      apply lacks_String in H2 as [Hx _].
      rewrite append_String in *. unfold read_cell.
      rewrite (proj2 (Ascii.eqb_neq x DQUOTE)) by done. by rewrite Hr.
Qed.

Lemma written_row_fields (r : row) (rest : string) :
  written_row (fields r) +:+ rest
  = csv.write_field "|" (date r) +:+ String "|"
      (csv.write_field "|" (weekday r) +:+ String "|"
        (csv.write_field "|" (volunteers r) +:+ String "|"
          (csv.write_field "|" (notes r) +:+ String LF rest))).
Proof.
  unfold written_row, fields. rewrite !fmap_cons, fmap_nil.
  change (String.concat "|" [?a; ?b; ?c; ?d])
    with (a +:+ "|" +:+ b +:+ "|" +:+ c +:+ "|" +:+ d).
  unfold csv.lineterminator.
  by rewrite !append_assoc, !append_String, !append_nil_l.
Qed.

Lemma read_row_written (r : row) (rest : string) :
  read_row (written_row (fields r) +:+ rest) = Some (r, rest).
Proof.
  rewrite written_row_fields. unfold read_row.
  do 3 (rewrite read_cell_field by (eexists _, _; split; [done|by left]);
        cbn [mbind option_bind expect]; rewrite Ascii.eqb_refl;
        cbn [mbind option_bind]).
  rewrite read_cell_field by (eexists _, _; split; [done|by right]).
  cbn [mbind option_bind expect]. rewrite Ascii.eqb_refl.
  by destruct r.
Qed.

Lemma table_body_cons (r : row) (roster : list row) :
  table_body (r :: roster) = written_row (fields r) +:+ table_body roster.
Proof. unfold table_body. by rewrite !fmap_cons, concat_empty_cons. Qed.

Lemma read_rows_body (roster : list row) (fuel : nat) :
  (length roster ≤ fuel)%nat → read_rows fuel (table_body roster) = roster.
Proof.
  revert fuel. induction roster as [|r roster IH]; intros fuel Hf.
  - by destruct fuel.
  - destruct fuel as [|fuel]; [simpl in Hf; lia|].
    rewrite table_body_cons. cbn [read_rows].
    rewrite read_row_written, IH; [done|]. simpl in Hf. lia.
Qed.

Lemma to_markdown_body (roster : list row) :
  to_markdown (frame roster)
  = (written_row roster_columns +:+ written_row (replicate 4 "---"))
    +:+ table_body roster.
Proof.
  rewrite to_markdown_written. unfold written_table, table_body.
  by rewrite !fmap_cons, !concat_empty_cons, append_assoc.
Qed.

(** X12. The Markdown table determines the roster: two rosters with
    the same table are the same roster, whatever their fields hold. *)
Theorem to_markdown_inj (roster1 roster2 : list row) :
  to_markdown (frame roster1) = to_markdown (frame roster2) →
  roster1 = roster2.
Proof.
  rewrite !to_markdown_body. intros H%String.app_inj.
  rewrite <- (read_rows_body roster1 (length roster1 `max` length roster2))
    by lia.
  rewrite H. apply read_rows_body. lia.
Qed.

(** ** Writing the table to a file *)

Section Written.

Variable cwd : list os.name.
Variable to_markdown_other : DataFrame → list os.part → os.io (option string).

Lemma resolve_cons (fs : gmap (list os.name) os.node) (c : os.part)
    (up : list os.part) :
  os.resolve cwd fs (c :: up)
  = match os.resolve cwd fs up with
    | os.Found d os.Dir =>
      match c with
      | os.Up => os.Found (tail d) os.Dir
      | os.Entry n =>
        match fs !! (n :: d) with
        | Some x => os.Found (n :: d) x
        | None => os.ENOENT
        end
      end
    | os.Found _ (os.File _) => os.ENOTDIR
    | os.ENOENT => os.ENOENT
    | os.ENOTDIR => os.ENOTDIR
    end.
Proof. reflexivity. Qed.

(** A path that leads somewhere leads through directories. *)
Lemma resolve_Found_cons (fs : gmap (list os.name) os.node) (c : os.part)
    (up : list os.part) (place : list os.name) (x : os.node) :
  os.resolve cwd fs (c :: up) = os.Found place x →
  ∃ d, os.resolve cwd fs up = os.Found d os.Dir
       ∧ match c with
         | os.Up => place = tail d ∧ x = os.Dir
         | os.Entry n => place = n :: d ∧ fs !! (n :: d) = Some x
         end.
Proof.
  rewrite resolve_cons.
  destruct (os.resolve cwd fs up) as [d [|?]| |]; try done.
  intros H. exists d. split; [done|]. destruct c as [|n].
  - by injection H as <- <-.
  - destruct (fs !! (n :: d)) as [y|]; [|done]. by injection H as <- <-.
Qed.

Lemma node_at_cons (fs : gmap (list os.name) os.node) (n : os.name)
    (d : list os.name) :
  node_at fs (n :: d) = fs !! (n :: d).
Proof. reflexivity. Qed.

Lemma node_at_tail (fs : gmap (list os.name) os.node) (d : list os.name) :
  well_formed fs → node_at fs d = Some os.Dir →
  node_at fs (tail d) = Some os.Dir.
Proof. intros Hwf Hd. destruct d as [|n d]; [done|]. by eapply Hwf. Qed.

(** What a path leads to is what the file system holds there. *)
Lemma resolve_node (fs : gmap (list os.name) os.node) (p : list os.part)
    (place : list os.name) (x : os.node) :
  sound cwd fs → os.resolve cwd fs p = os.Found place x →
  node_at fs place = Some x.
Proof.
  intros [Hwf Hcwd]. revert place x.
  induction p as [|c up IH]; intros place x H.
  - by injection H as <- <-.
  - apply resolve_Found_cons in H as (d & Hup & Hc). apply IH in Hup.
    destruct c as [|n].
    + destruct Hc as [-> ->]. by apply node_at_tail.
    + by destruct Hc as [-> ?].
Qed.

(** A file system that keeps every entry keeps where paths lead. *)
Lemma resolve_mono (fs fs' : gmap (list os.name) os.node) (p : list os.part)
    (place : list os.name) (x : os.node) :
  (∀ q y, fs !! q = Some y → fs' !! q = Some y) →
  os.resolve cwd fs p = os.Found place x →
  os.resolve cwd fs' p = os.Found place x.
Proof.
  intros Hsub. revert place x.
  induction p as [|c up IH]; intros place x H; [done|].
  apply resolve_Found_cons in H as (d & Hup & Hc).
  rewrite resolve_cons, (IH _ _ Hup). destruct c as [|n].
  - by destruct Hc as [-> ->].
  - destruct Hc as [-> Hx]. by rewrite (Hsub _ _ Hx).
Qed.

(** Writing a file where no directory is keeps where paths lead to
    directories. *)
Lemma resolve_insert_file (fs : gmap (list os.name) os.node)
    (k : list os.name) (text : string) (p : list os.part)
    (place : list os.name) :
  fs !! k ≠ Some os.Dir →
  os.resolve cwd fs p = os.Found place os.Dir →
  os.resolve cwd (<[k := os.File text]> fs) p = os.Found place os.Dir.
Proof.
  intros Hk. revert place.
  induction p as [|c up IH]; intros place H; [done|].
  apply resolve_Found_cons in H as (d & Hup & Hc).
  rewrite resolve_cons, (IH _ Hup). destruct c as [|n].
  - by destruct Hc as [-> _].
  - destruct Hc as [-> Hx].
    rewrite lookup_insert_ne by congruence. by rewrite Hx.
Qed.

Lemma well_formed_insert (fs : gmap (list os.name) os.node) (n : os.name)
    (d : list os.name) (x : os.node) :
  well_formed fs → node_at fs d = Some os.Dir →
  fs !! (n :: d) ≠ Some os.Dir ∨ x = os.Dir →
  well_formed (<[n :: d := x]> fs).
Proof.
  intros Hwf Hd Hx m e y Hy.
  assert (node_at fs e = Some os.Dir) as He.
  { destruct (decide (m :: e = n :: d)) as [[= -> ->]|Hne]; [done|].
    rewrite lookup_insert_ne in Hy by done. by eapply Hwf. }
  destruct e as [|a e]; [done|]. rewrite node_at_cons in He |- *.
  destruct (decide (a :: e = n :: d)) as [E|Hne].
  - rewrite E in He |- *. rewrite lookup_insert_eq.
    destruct Hx as [Hx| ->]; [done|done].
  - by rewrite lookup_insert_ne.
Qed.

Lemma sound_insert (fs : gmap (list os.name) os.node) (n : os.name)
    (d : list os.name) (x : os.node) :
  sound cwd fs → node_at fs d = Some os.Dir →
  fs !! (n :: d) ≠ Some os.Dir ∨ x = os.Dir →
  sound cwd (<[n :: d := x]> fs).
Proof.
  intros [Hwf Hcwd] Hd Hx. split; [by apply well_formed_insert|].
  destruct cwd as [|a e]; [done|]. rewrite node_at_cons in Hcwd |- *.
  destruct (decide (a :: e = n :: d)) as [E|Hne].
  - rewrite E in Hcwd |- *. rewrite lookup_insert_eq.
    destruct Hx as [Hx| ->]; [done|done].
  - by rewrite lookup_insert_ne.
Qed.

(** *** The steps of [Path.mkdir] *)

(** [os.mkdir] makes one directory where nothing was, or nothing. *)
Lemma os_mkdir_cases (p : list os.part) (fs fs' : gmap (list os.name) os.node)
    (r : os.outcome unit) :
  os.os_mkdir cwd p fs = (r, fs') →
  (r = os.Returned ()
   ∧ ∃ n d up, p = os.Entry n :: up
               ∧ os.resolve cwd fs up = os.Found d os.Dir
               ∧ fs !! (n :: d) = None
               ∧ fs' = <[n :: d := os.Dir]> fs)
  ∨ ((∃ e, r = os.Raised e) ∧ fs' = fs).
Proof.
  unfold os.os_mkdir. destruct p as [|c up].
  { intros [= <- <-]. right. split; [by eexists|done]. }
  destruct (os.resolve cwd fs up) as [d [|?]| |] eqn:Hup;
    try (intros [= <- <-]; right; split; [by eexists|done]).
  destruct c as [|n];
    [intros [= <- <-]; right; split; [by eexists|done]|].
  destruct (fs !! (n :: d)) as [y|] eqn:Hl;
    intros [= <- <-]; [right; split; [by eexists|done]|].
  left. split; [done|]. by exists n, d, up.
Qed.

(** Making directories keeps the file system sound and every entry. *)
Local Abbreviation grows fs fs' :=
  (∀ (q : list os.name) (y : os.node), fs !! q = Some y → fs' !! q = Some y).

Lemma os_mkdir_grows (p : list os.part) (fs fs' : gmap (list os.name) os.node)
    (r : os.outcome unit) :
  sound cwd fs → os.os_mkdir cwd p fs = (r, fs') →
  sound cwd fs' ∧ grows fs fs'.
Proof.
  intros Hs [(_ & n & d & up & _ & Hup & Hnone & ->)|[_ ->]]%os_mkdir_cases;
    [|done].
  split.
  - apply sound_insert; [done| |by right]. by eapply resolve_node.
  - intros q y Hq. rewrite lookup_insert_ne; [done|]. congruence.
Qed.

Lemma unless_is_dir_state (p : list os.part) (exist_ok : bool)
    (e : os.os_error) (fs fs' : gmap (list os.name) os.node)
    (r : os.outcome unit) :
  os.unless_is_dir cwd p exist_ok e fs = (r, fs') → fs' = fs.
Proof.
  unfold os.unless_is_dir, os.bind, os.is_dir, os.raise, os.ret.
  destruct (negb exist_ok || negb _); by intros [= _ <-].
Qed.

Lemma mkdir_grows (p : list os.part) (exist_ok : bool)
    (fs fs' : gmap (list os.name) os.node) (r : os.outcome unit) :
  sound cwd fs → os.mkdir cwd p exist_ok fs = (r, fs') →
  sound cwd fs' ∧ grows fs fs'.
Proof.
  intros Hs. unfold os.mkdir.
  destruct (os.os_mkdir cwd p fs) as [r1 fs1] eqn:E1.
  destruct (os_mkdir_grows _ _ _ _ Hs E1) as [Hs1 Hg1].
  destruct r1 as [[]|e]; [by intros [= <- <-]|].
  destruct e; try (intros ->%unless_is_dir_state; done).
  by intros [= <- <-].
Qed.

Lemma mkdir_parents_grows (p : list os.part) (exist_ok : bool)
    (fs fs' : gmap (list os.name) os.node) (r : os.outcome unit) :
  sound cwd fs → os.mkdir_parents cwd p exist_ok fs = (r, fs') →
  sound cwd fs' ∧ grows fs fs'.
Proof.
  revert exist_ok fs fs' r.
  induction p as [|c up IH]; intros exist_ok fs fs' r Hs.
  - cbn [os.mkdir_parents os.os_mkdir].
    intros ->%unless_is_dir_state. done.
  - cbn [os.mkdir_parents].
    destruct (os.os_mkdir cwd (c :: up) fs) as [r1 fs1] eqn:E1.
    destruct (os_mkdir_grows _ _ _ _ Hs E1) as [Hs1 Hg1].
    destruct r1 as [[]|e]; [by intros [= <- <-]|].
    destruct e; try (intros ->%unless_is_dir_state; done).
    unfold os.bind.
    destruct (os.mkdir_parents cwd up true fs1) as [r2 fs2] eqn:E2.
    destruct (IH _ _ _ _ Hs1 E2) as [Hs2 Hg2].
    destruct r2 as [[]|e2].
    + intros [Hs3 Hg3]%mkdir_grows; [|done]. split; [done|].
      intros q y Hq. by apply Hg3, Hg2, Hg1.
    + intros [= <- <-]. split; [done|]. intros q y Hq. by apply Hg2, Hg1.
Qed.

(** [Path.mkdir(parents=True)] under a file raises and makes nothing. *)
Lemma mkdir_parents_ENOTDIR (p : list os.part) (exist_ok : bool)
    (fs : gmap (list os.name) os.node) :
  os.resolve cwd fs p = os.ENOTDIR →
  os.mkdir_parents cwd p exist_ok fs = (os.Raised os.NotADirectoryError, fs).
Proof.
  destruct p as [|c up]; [done|]. intros Hp.
  assert (os.is_dir cwd (c :: up) fs = (os.Returned false, fs)) as Hd
    by (unfold os.is_dir; by rewrite Hp).
  rewrite resolve_cons in Hp. cbn [os.mkdir_parents]. unfold os.os_mkdir.
  destruct (os.resolve cwd fs up) as [d [|?]| |] eqn:Hup; try done.
  - destruct c as [|n]; [done|]. by destruct (fs !! (n :: d)).
  - unfold os.unless_is_dir, os.bind. rewrite Hd. by rewrite orb_true_r.
  - unfold os.unless_is_dir, os.bind. rewrite Hd. by rewrite orb_true_r.
Qed.

(** *** Paths that go up and then down *)

Lemma tail_drop {A} (k : nat) (l : list A) : tail (drop k l) = drop (S k) l.
Proof.
  revert l. induction k as [|k IH]; intros [|a l]; try done. apply IH.
Qed.

Lemma resolve_below_nil (fs : gmap (list os.name) os.node) (k : nat) :
  os.resolve cwd fs (below [] k) = os.Found (drop k cwd) os.Dir.
Proof.
  unfold below. cbn [fmap list_fmap app].
  induction k as [|k IH]; [done|].
  cbn [replicate]. rewrite resolve_cons, IH. by rewrite tail_drop.
Qed.

Lemma below_cons (n : os.name) (names : list os.name) (k : nat) :
  below (n :: names) k = os.Entry n :: below names k.
Proof. reflexivity. Qed.

(** Where such a path leads, when it leads somewhere. *)
Lemma resolve_below_place (fs : gmap (list os.name) os.node)
    (names : list os.name) (k : nat) (place : list os.name) (x : os.node) :
  os.resolve cwd fs (below names k) = os.Found place x →
  place = (names ++ drop k cwd)%list.
Proof.
  revert place x. induction names as [|n names IH]; intros place x.
  - rewrite resolve_below_nil. by intros [= <- _].
  - rewrite below_cons.
    intros (d & Hup & -> & _)%resolve_Found_cons.
    by rewrite (IH _ _ Hup).
Qed.

(** In a sound file system nothing lies under a place that is empty. *)
Lemma nothing_under (fs : gmap (list os.name) os.node) (n m : os.name)
    (d : list os.name) :
  well_formed fs → fs !! (n :: d) = None → fs !! (m :: n :: d) = None.
Proof.
  intros Hwf Hn. destruct (fs !! (m :: n :: d)) as [y|] eqn:E; [|done].
  apply Hwf in E. rewrite node_at_cons in E. congruence.
Qed.

(** [Path.mkdir(parents=True)] of a path that names nothing yet. *)
Lemma mkdir_parents_missing (names : list os.name) (k : nat)
    (exist_ok : bool) (fs : gmap (list os.name) os.node) :
  sound cwd fs → os.resolve cwd fs (below names k) = os.ENOENT →
  ∃ fs', os.mkdir_parents cwd (below names k) exist_ok fs
         = (os.Returned (), fs')
         ∧ os.resolve cwd fs' (below names k)
           = os.Found (names ++ drop k cwd)%list os.Dir
         ∧ (∀ m, fs' !! (m :: names ++ drop k cwd)%list = None).
Proof.
  revert exist_ok fs. induction names as [|n names IH]; intros exist_ok fs Hs.
  { by rewrite resolve_below_nil. }
  rewrite !below_cons, resolve_cons.
  assert (∀ fs1 : gmap (list os.name) os.node,
            sound cwd fs1 →
            os.resolve cwd fs1 (below names k)
            = os.Found (names ++ drop k cwd)%list os.Dir →
            fs1 !! (n :: names ++ drop k cwd)%list = None →
            os.os_mkdir cwd (os.Entry n :: below names k) fs1
            = (os.Returned (),
               <[(n :: names ++ drop k cwd)%list := os.Dir]> fs1)
            ∧ os.resolve cwd
                (<[(n :: names ++ drop k cwd)%list := os.Dir]> fs1)
                (os.Entry n :: below names k)
              = os.Found ((n :: names) ++ drop k cwd)%list os.Dir
            ∧ (∀ m, <[(n :: names ++ drop k cwd)%list := os.Dir]> fs1
                    !! (m :: (n :: names) ++ drop k cwd)%list = None))
    as Hstep.
  { intros fs1 [Hwf1 _] Hup Hnone. split; [|split].
    - unfold os.os_mkdir. by rewrite Hup, Hnone.
    - assert (∀ q y, fs1 !! q = Some y →
                <[(n :: names ++ drop k cwd)%list := os.Dir]> fs1 !! q
                = Some y) as Hg
        by (intros q y Hq; rewrite lookup_insert_ne; [done|congruence]).
      rewrite resolve_cons, (resolve_mono _ _ _ _ _ Hg Hup).
      by rewrite lookup_insert_eq.
    - intros m. rewrite lookup_insert_ne.
      + by apply nothing_under.
      + intros E. apply (f_equal length) in E. simpl in E. lia. }
  destruct (os.resolve cwd fs (below names k)) as [d [|?]| |] eqn:Hup;
    try done.
  - pose proof (resolve_below_place _ _ _ _ _ Hup) as ->.
    destruct (fs !! (n :: names ++ drop k cwd)%list) as [y|] eqn:Hl; [done|].
    intros _. destruct (Hstep fs Hs Hup Hl) as (E & Hr & Hc).
    eexists. split; [|split; [exact Hr|exact Hc]].
    cbn [os.mkdir_parents]. by rewrite E.
  - intros _.
    destruct (IH true fs Hs Hup) as (fs1 & E1 & Hup1 & Hc1).
    destruct (mkdir_parents_grows _ _ _ _ _ Hs E1) as [Hs1 _].
    destruct (Hstep fs1 Hs1 Hup1 (Hc1 n)) as (E & Hr & Hc).
    eexists. split; [|split; [exact Hr|exact Hc]].
    cbn [os.mkdir_parents]. unfold os.os_mkdir at 1. rewrite Hup.
    unfold os.bind. rewrite E1. unfold os.mkdir. by rewrite E.
Qed.

(** *** [to_markdown] with a path *)

Lemma to_markdown_io_ordinary (f : DataFrame) (p : list os.part) :
  ordinary p = true →
  to_markdown_io cwd to_markdown_other f (Some p)
  = os.bind
      (os.bind (os.path_exists cwd (os.parent p)) (λ present,
       if negb present then os.mkdir_parents cwd (os.parent p) false
       else os.ret ()))
      (λ _, os.bind
              (os.bind (os.is_dir cwd (os.parent p)) (λ d,
               if negb d then os.raise os.OSError
               else os.write_text cwd p (to_markdown f)))
              (λ _, os.ret None)).
Proof. intros H. unfold to_markdown_io. rewrite H. reflexivity. Qed.

(** The first step: the parent of the path is made when it is missing.
    The file system stays sound and keeps every entry. *)
Lemma make_parent_grows (p : list os.part)
    (fs fs1 : gmap (list os.name) os.node) (r : os.outcome unit) :
  sound cwd fs →
  os.bind (os.path_exists cwd (os.parent p)) (λ present,
    if negb present then os.mkdir_parents cwd (os.parent p) false
    else os.ret ()) fs = (r, fs1) →
  sound cwd fs1 ∧ grows fs fs1.
Proof.
  intros Hs. unfold os.bind, os.path_exists.
  destruct (os.resolve cwd fs (os.parent p)); cbn [negb];
    try (intros [= <- <-]; done); by apply mkdir_parents_grows.
Qed.

(** The second step: the file is written, or nothing changes. *)
Lemma write_cases (p : list os.part) (text : string)
    (fs fs' : gmap (list os.name) os.node) (r : os.outcome (option string)) :
  os.bind
    (os.bind (os.is_dir cwd (os.parent p)) (λ d,
     if negb d then os.raise os.OSError else os.write_text cwd p text))
    (λ _, os.ret None) fs = (r, fs') →
  (r = os.Returned None
   ∧ ∃ n d up, p = os.Entry n :: up
               ∧ os.resolve cwd fs up = os.Found d os.Dir
               ∧ fs !! (n :: d) ≠ Some os.Dir
               ∧ fs' = <[n :: d := os.File text]> fs)
  ∨ ((∃ e, r = os.Raised e) ∧ fs' = fs).
Proof.
  unfold os.bind, os.is_dir, os.raise, os.ret, os.write_text, os.parent.
  destruct p as [|c up].
  { cbn [tail os.resolve negb].
    intros [= <- <-]. right. split; [by eexists|done]. }
  cbn [tail].
  destruct (os.resolve cwd fs up) as [d [|?]| |] eqn:Hup; cbn [negb];
    try (intros [= <- <-]; right; split; [by eexists|done]).
  destruct c as [|n]; cbn [negb]; rewrite Hup;
    [intros [= <- <-]; right; split; [by eexists|done]|].
  destruct (fs !! (n :: d)) as [[|c]|] eqn:Hl; cbn [negb]; intros [= <- <-].
  - right. split; [by eexists|done].
  - left. split; [done|]. exists n, d, up. by rewrite Hl.
  - left. split; [done|]. exists n, d, up. by rewrite Hl.
Qed.

(** After the file is written the path leads to it. *)
Lemma written_resolve (fs : gmap (list os.name) os.node) (n : os.name)
    (d : list os.name) (up : list os.part) (text : string) :
  os.resolve cwd fs up = os.Found d os.Dir →
  fs !! (n :: d) ≠ Some os.Dir →
  os.resolve cwd (<[n :: d := os.File text]> fs) up = os.Found d os.Dir
  ∧ os.resolve cwd (<[n :: d := os.File text]> fs) (os.Entry n :: up)
    = os.Found (n :: d) (os.File text).
Proof.
  intros Hup Hl.
  pose proof (resolve_insert_file fs (n :: d) text up d Hl Hup) as Hup'.
  split; [done|]. by rewrite resolve_cons, Hup', lookup_insert_eq.
Qed.

(** The second step for a name in a directory. *)
Lemma write_in_directory (fs : gmap (list os.name) os.node) (n : os.name)
    (d : list os.name) (up : list os.part) (text : string) :
  os.resolve cwd fs up = os.Found d os.Dir →
  os.bind
    (os.bind (os.is_dir cwd up) (λ d,
     if negb d then os.raise os.OSError
     else os.write_text cwd (os.Entry n :: up) text))
    (λ _, os.ret (None : option string)) fs
  = match fs !! (n :: d) with
    | Some os.Dir => (os.Raised os.IsADirectoryError, fs)
    | _ => (os.Returned None, <[n :: d := os.File text]> fs)
    end.
Proof.
  intros Hup. unfold os.bind, os.is_dir. rewrite Hup. cbn [negb].
  unfold os.write_text, os.ret. rewrite Hup.
  by destruct (fs !! (n :: d)) as [[|?]|].
Qed.

(** What [to_markdown] does with a path that goes up and then down, by
    what the path leads to before. *)
Lemma to_markdown_io_run (f : DataFrame) (n : os.name)
    (names : list os.name) (k : nat) (fs : gmap (list os.name) os.node) :
  sound cwd fs → ordinary (below (n :: names) k) = true →
  match os.resolve cwd fs (below names k) with
  | os.Found d os.Dir =>
    match fs !! (n :: d) with
    | Some os.Dir =>
      to_markdown_io cwd to_markdown_other f (Some (below (n :: names) k)) fs
      = (os.Raised os.IsADirectoryError, fs)
    | _ =>
      to_markdown_io cwd to_markdown_other f (Some (below (n :: names) k)) fs
      = (os.Returned None, <[n :: d := os.File (to_markdown f)]> fs)
    end
  | os.Found _ (os.File _) =>
    to_markdown_io cwd to_markdown_other f (Some (below (n :: names) k)) fs
    = (os.Raised os.OSError, fs)
  | os.ENOTDIR =>
    to_markdown_io cwd to_markdown_other f (Some (below (n :: names) k)) fs
    = (os.Raised os.NotADirectoryError, fs)
  | os.ENOENT =>
    ∃ fs1, to_markdown_io cwd to_markdown_other f
             (Some (below (n :: names) k)) fs
           = (os.Returned None,
              <[(n :: names ++ drop k cwd)%list := os.File (to_markdown f)]>
                fs1)
           ∧ sound cwd fs1
           ∧ os.resolve cwd fs1 (below names k)
             = os.Found (names ++ drop k cwd)%list os.Dir
           ∧ fs1 !! (n :: names ++ drop k cwd)%list = None
  end.
Proof.
  intros Hs Ho.
  assert (to_markdown_io cwd to_markdown_other f
            (Some (below (n :: names) k)) fs
          = match os.resolve cwd fs (below names k) with
            | os.Found _ _ =>
              os.bind
                (os.bind (os.is_dir cwd (below names k)) (λ d,
                 if negb d then os.raise os.OSError
                 else os.write_text cwd (os.Entry n :: below names k)
                        (to_markdown f)))
                (λ _, os.ret (None : option string)) fs
            | _ =>
              os.bind (os.mkdir_parents cwd (below names k) false) (λ _,
              os.bind
                (os.bind (os.is_dir cwd (below names k)) (λ d,
                 if negb d then os.raise os.OSError
                 else os.write_text cwd (os.Entry n :: below names k)
                        (to_markdown f)))
                (λ _, os.ret (None : option string))) fs
            end) as ->.
  { rewrite (to_markdown_io_ordinary _ _ Ho).
    rewrite below_cons. unfold os.parent. cbn [tail].
    unfold os.bind at 1 2. unfold os.path_exists.
    by destruct (os.resolve cwd fs (below names k)) as [d [|c]| |]. }
  destruct (os.resolve cwd fs (below names k)) as [d [|c]| |] eqn:Hup.
  - rewrite (write_in_directory fs n d _ _ Hup).
    by destruct (fs !! (n :: d)) as [[|?]|].
  - unfold os.bind, os.is_dir, os.raise. by rewrite Hup.
  - destruct (mkdir_parents_missing names k false fs Hs Hup)
      as (fs1 & E1 & Hup1 & Hc1).
    destruct (mkdir_parents_grows _ _ _ _ _ Hs E1) as [Hs1 _].
    exists fs1. split; [|done]. unfold os.bind at 1. rewrite E1.
    by rewrite (write_in_directory fs1 n _ _ _ Hup1), (Hc1 n).
  - unfold os.bind at 1. by rewrite mkdir_parents_ENOTDIR.
Qed.

(** The path [.] and the paths that only go up are directories. *)
Lemma to_markdown_io_up (f : DataFrame) (k : nat)
    (fs : gmap (list os.name) os.node) :
  ordinary (below [] k) = true →
  to_markdown_io cwd to_markdown_other f (Some (below [] k)) fs
  = (os.Raised os.IsADirectoryError, fs).
Proof.
  intros Ho. rewrite (to_markdown_io_ordinary _ _ Ho).
  destruct k as [|k]; [reflexivity|].
  change (below [] (S k)) with (os.Up :: below [] k).
  unfold os.parent. cbn [tail].
  unfold os.bind at 1 2. unfold os.path_exists.
  rewrite resolve_below_nil. cbn [negb]. unfold os.ret at 1.
  unfold os.bind, os.is_dir. rewrite resolve_below_nil. cbn [negb].
  unfold os.write_text. by rewrite resolve_below_nil.
Qed.





End Written.

(** ** [build_roster] and [get_year_month] *)

Section Properties.

Variable libc_strftime : string → Timestamp → string.
Variable to_datetime_other : string → result Timestamp.

Lemma strftime_isoformat (t : Timestamp) :
  strftime libc_strftime "%Y-%m-%d" t = isoformat (to_date t).
Proof. reflexivity. Qed.

(** [build_roster] is its index, then the rows of the days kept. *)
Lemma build_roster_index (year month : Z)
    (vbw : gmap string (list string)) (mt : option meeting) :
  build_roster libc_strftime year month vbw mt
  = ix ← build_index year month; Ok (roster_of_days vbw mt (to_date <$> ix)).
Proof.
  unfold build_roster, build_index.
  destruct (datetime.new year month 1) as [d1|]; [|done].
  cbn [mbind result_bind].
  destruct (dateutil.add_relativedelta_months d1 1) as [d2|]; [|done].
  cbn [mbind result_bind].
  destruct (date_range d1 d2 closed_left) as [ix|]; [|done].
  cbn [mbind result_bind].
  rewrite filter_fmap_swap.
  rewrite (List.filter_ext _
    (λ t, isin (weekday_name (to_date t)) (dom vbw)))
    by (intros t; cbn [snd]; by rewrite day_name_weekday_name).
  set (days := List.filter _ ix).
  rewrite (traverse_Ok _
    (λ r : Timestamp * string * string,
       (r, String.concat " & " (default [] (vbw !! r.2))))).
  2:{ apply Forall_fmap. subst days.
      eapply Forall_impl; [apply filter_Forall|]. intros t Ht.
      unfold compose. cbn beta in *. cbn [snd]. rewrite day_name_weekday_name.
      by rewrite (isin_getitem _ _ Ht). }
  unfold roster_of_days. rewrite filter_fmap_swap. fold days.
  cbn [mbind result_bind]. f_equal.
  destruct mt as [[[[wd week] start] end_]|];
    rewrite <- !list_fmap_compose; apply list_fmap_ext; intros _ t _;
    unfold compose; cbn [fst snd date weekday volunteers notes].
  - unfold day_of.
    rewrite day_name_weekday_name, strftime_isoformat, meeting_condition.
    unfold roster_row, note_of. by case_bool_decide.
  - rewrite day_name_weekday_name, strftime_isoformat. reflexivity.
Qed.

Lemma build_roster_valid (year month : Z)
    (vbw : gmap string (list string)) (mt : option meeting) :
  valid_period year month →
  build_roster libc_strftime year month vbw mt
  = Ok (roster_of_days vbw mt (calendar_days year month)).
Proof.
  intros Hv. rewrite build_roster_index, build_index_valid by done.
  cbn [mbind result_bind]. by rewrite month_index_days.
Qed.

(** C1. For every valid period and every mapping, [build_roster] returns
    a roster whose dates are exactly the calendar days of the month whose
    weekday name is a key of the mapping, each once and in calendar
    order; the calendar days of the month are the days from its first
    day, included, to the first day of the following month, excluded. *)
Theorem build_roster_one_row_per_day (year month : Z)
    (volunteers_by_weekday : gmap string (list string))
    (meeting_time : option meeting) :
  valid_period year month →
  ∃ roster,
    build_roster libc_strftime year month volunteers_by_weekday meeting_time
    = Ok roster
    ∧ date <$> roster
      = isoformat
          <$> filter (λ d, weekday_name d ∈ dom volunteers_by_weekday)
                     (calendar_days year month)
    ∧ NoDup (date <$> roster)
    ∧ calendar_days year month
      = datetime.fromordinal
          <$> seqZ (datetime.toordinal (first_day year month))
                   (datetime.toordinal (next_first_day year month)
                    - datetime.toordinal (first_day year month)).
Proof.
  intros Hv. eexists. split; [by apply build_roster_valid|].
  split; [apply roster_of_days_dates|].
  split; [|by apply calendar_days_interval].
  eapply StronglySorted_NoDup; [apply str_lt_irrefl|].
  apply roster_dates_sorted, Hv.
Qed.

(** C5. In the roster [build_roster] returns for a valid period, the
    dates are strictly ascending as strings, and every row's weekday is
    the weekday name of the calendar day its date names. *)
Theorem build_roster_sorted_consistent (year month : Z)
    (volunteers_by_weekday : gmap string (list string))
    (meeting_time : option meeting) :
  valid_period year month →
  ∃ roster,
    build_roster libc_strftime year month volunteers_by_weekday meeting_time
    = Ok roster
    ∧ StronglySorted str_lt (date <$> roster)
    ∧ NoDup (date <$> roster)
    ∧ Forall (λ r, ∃ d, date_of_string (date r) = Some d
                        ∧ weekday r = weekday_name d) roster.
Proof.
  intros Hv. eexists. split; [by apply build_roster_valid|].
  assert (StronglySorted str_lt
            (date <$> roster_of_days volunteers_by_weekday meeting_time
                        (calendar_days year month))) as Hs
    by apply roster_dates_sorted, Hv.
  split; [done|]. split.
  { eapply StronglySorted_NoDup; [apply str_lt_irrefl|done]. }
  apply Forall_forall. intros r (d & Hd & _ & ->)%roster_of_days_elem.
  exists d. split; [|done]. simpl. by eapply date_of_string_isoformat.
Qed.

(** C6. In the roster [build_roster] returns for a valid period, the
    volunteers of every row are the names listed for the row's weekday,
    in the order of the list, joined by [" & "]. *)
Theorem build_roster_volunteers (year month : Z)
    (volunteers_by_weekday : gmap string (list string))
    (meeting_time : option meeting) :
  valid_period year month →
  ∃ roster,
    build_roster libc_strftime year month volunteers_by_weekday meeting_time
    = Ok roster
    ∧ Forall (λ r, ∃ names,
                volunteers_by_weekday !! weekday r = Some names
                ∧ volunteers r = String.concat " & " names) roster.
Proof.
  intros Hv. eexists. split; [by apply build_roster_valid|].
  apply Forall_forall. intros r (d & _ & Hk & ->)%roster_of_days_elem.
  apply elem_of_dom in Hk as [names Hn]. exists names. simpl.
  by rewrite Hn.
Qed.

(** C2. With a meeting time, the note of a row is the staff meeting text
    when the row's weekday is the meeting's weekday and the day of the
    month [d] of its date satisfies [7*(week-1) <= d <= 7*week], and the
    empty string otherwise.  In January 2021 with the first Sunday as
    the meeting, only the row of 2021-01-03 carries the note. *)
Theorem build_roster_meeting_notes :
  (∀ (year month : Z) (volunteers_by_weekday : gmap string (list string))
     (wd : string) (week : Z) (start end_ : string),
     valid_period year month →
     ∃ roster,
       build_roster libc_strftime year month volunteers_by_weekday
         (Some (wd, week, start, end_)) = Ok roster
       ∧ Forall (λ r, ∃ d,
           date_of_string (date r) = Some d
           ∧ notes r
             = if bool_decide (weekday r = wd
                               ∧ 7 * (week - 1) ≤ datetime.day d ≤ 7 * week)
               then "Staff meeting " +:+ start +:+ "--" +:+ end_
               else "") roster)
  ∧ build_roster libc_strftime 2021 1 {[ "Sunday" := ["A"; "B"] ]}
      (Some ("Sunday", 1, "15:00", "16:00"))
    = Ok [ mk_row "2021-01-03" "Sunday" "A & B" "Staff meeting 15:00--16:00";
           mk_row "2021-01-10" "Sunday" "A & B" "";
           mk_row "2021-01-17" "Sunday" "A & B" "";
           mk_row "2021-01-24" "Sunday" "A & B" "";
           mk_row "2021-01-31" "Sunday" "A & B" "" ].
Proof.
  split; [|vm_compute; reflexivity].
  intros year month vbw wd week start end_ Hv.
  eexists. split; [by apply build_roster_valid|].
  apply Forall_forall. intros r (d & Hd & _ & ->)%roster_of_days_elem.
  exists d. split; [by eapply date_of_string_isoformat|]. reflexivity.
Qed.

(** C3. The roster for February 2021 with the second Sunday as the
    meeting: the rows of 2021-02-07 and of 2021-02-14 both carry the
    note, since both days lie in [7, 14]. *)
Theorem build_roster_two_meetings :
  build_roster libc_strftime 2021 2 {[ "Sunday" := ["A"; "B"] ]}
    (Some ("Sunday", 2, "15:00", "16:00"))
  = Ok [ mk_row "2021-02-07" "Sunday" "A & B" "Staff meeting 15:00--16:00";
         mk_row "2021-02-14" "Sunday" "A & B" "Staff meeting 15:00--16:00";
         mk_row "2021-02-21" "Sunday" "A & B" "";
         mk_row "2021-02-28" "Sunday" "A & B" "" ].
Proof. vm_compute. reflexivity. Qed.

(** C10. A meeting whose weekday is not a key of the mapping changes
    nothing: [build_roster] returns what it returns without a meeting,
    and every note of that roster is empty. *)
Theorem build_roster_meeting_ignored (year month : Z)
    (volunteers_by_weekday : gmap string (list string))
    (wd : string) (week : Z) (start end_ : string) :
  volunteers_by_weekday !! wd = None →
  build_roster libc_strftime year month volunteers_by_weekday
    (Some (wd, week, start, end_))
  = build_roster libc_strftime year month volunteers_by_weekday None
  ∧ ∀ roster,
      build_roster libc_strftime year month volunteers_by_weekday None = Ok roster →
      Forall (λ r, notes r = "") roster.
Proof.
  intros Hwd. rewrite !build_roster_index.
  destruct (build_index year month) as [ix|e]; cbn [mbind result_bind];
    [|split; [done|intros ? [=]]].
  split.
  - f_equal. unfold roster_of_days. apply list_fmap_ext.
    intros _ d Hd%list_elem_of_lookup_2%list_elem_of_In%filter_In.
    destruct Hd as [_ Hk%bool_decide_eq_true].
    unfold roster_row. f_equal. by eapply note_of_other_weekday.
  - intros roster [= <-]. apply Forall_forall.
    by intros r (d & _ & _ & ->)%roster_of_days_elem.
Qed.

(** C7 as amended. [build_roster] raises exactly when the month is
    outside 1..12 or the period lies outside October 1677 .. March 2262,
    whatever the mapping and the meeting.  What it raises is an
    [OverflowError] when the year or the month is no C [int]; otherwise
    a [ValueError] when the year is outside 1..9999, the month is outside
    1..12 or the period is December 9999; otherwise pandas'
    [OutOfBoundsDatetime].  For every valid period an empty mapping gives
    an empty roster. *)
Theorem build_roster_raises_iff (year month : Z)
    (volunteers_by_weekday : gmap string (list string))
    (meeting_time : option meeting) :
  ((∃ e, build_roster libc_strftime year month volunteers_by_weekday meeting_time
         = Raise e)
   ↔ month < 1 ∨ 12 < month
     ∨ 12 * year + month < 12 * 1677 + 10
     ∨ 12 * 2262 + 3 < 12 * year + month)
  ∧ (¬ (datetime.INT_MIN ≤ year ≤ datetime.INT_MAX
        ∧ datetime.INT_MIN ≤ month ≤ datetime.INT_MAX) →
     build_roster libc_strftime year month volunteers_by_weekday meeting_time
     = Raise OverflowError)
  ∧ (datetime.INT_MIN ≤ year ≤ datetime.INT_MAX →
     datetime.INT_MIN ≤ month ≤ datetime.INT_MAX →
     year < 1 ∨ 9999 < year ∨ month < 1 ∨ 12 < month
     ∨ (year = 9999 ∧ month = 12) →
     build_roster libc_strftime year month volunteers_by_weekday meeting_time
     = Raise ValueError)
  ∧ (1 ≤ year ≤ 9999 → 1 ≤ month ≤ 12 → ¬ (year = 9999 ∧ month = 12) →
     ¬ valid_period year month →
     build_roster libc_strftime year month volunteers_by_weekday meeting_time
     = Raise OutOfBoundsDatetime)
  ∧ (valid_period year month →
     build_roster libc_strftime year month ∅ meeting_time = Ok []).
Proof.
  assert (∀ e, ¬ valid_period year month → raised year month = e →
            build_roster libc_strftime year month volunteers_by_weekday
              meeting_time = Raise e) as Hraise.
  { intros e Hv <-. rewrite build_roster_index.
    by rewrite (build_index_invalid year month Hv). }
  split; [|split; [|split; [|split]]].
  - destruct (decide (valid_period year month)) as [Hv|Hv].
    + rewrite build_roster_valid by done.
      split; [intros [e [=]]|]. unfold valid_period in Hv. lia.
    + split; [unfold valid_period in Hv; lia|]. intros _.
      eexists. by apply Hraise.
  - intros Hint. apply Hraise.
    + unfold valid_period, datetime.INT_MIN, datetime.INT_MAX in *. lia.
    + unfold raised, datetime.c_int.
      unfold datetime.INT_MIN, datetime.INT_MAX in *.
      repeat match goal with
      | |- context [?a <=? ?b] => destruct (Z.leb_spec a b); simpl; try done
      end; lia.
  - intros Hy Hm Hout. apply Hraise.
    + unfold valid_period. lia.
    + unfold raised, datetime.c_int.
      unfold datetime.INT_MIN, datetime.INT_MAX in *.
      repeat match goal with
      | |- context [?a <=? ?b] => destruct (Z.leb_spec a b); simpl; try done
      | |- context [?a =? ?b] => destruct (Z.eqb_spec a b); simpl; try done
      end; lia.
  - intros Hy Hm Hne Hv. apply Hraise; [done|].
    unfold raised, datetime.c_int, datetime.INT_MIN, datetime.INT_MAX.
    repeat match goal with
    | |- context [?a <=? ?b] => destruct (Z.leb_spec a b); simpl; try done
    | |- context [?a =? ?b] => destruct (Z.eqb_spec a b); simpl; try done
    end; lia.
  - intros Hv. rewrite build_roster_valid by done. f_equal.
    unfold roster_of_days.
    rewrite (List.filter_ext _ (λ _, false)); [|intros d; unfold isin;
      apply bool_decide_eq_false; set_solver].
    by induction (calendar_days year month).
Qed.

Lemma well_dated_to_datetime (r : row) :
  well_dated r →
  ∃ d, date_of_string (date r) = Some d
       ∧ to_datetime to_datetime_other (date r) = Ok (midnight d)
       ∧ to_date (midnight d) = d.
Proof.
  intros (d & Hs & Ht). exists d. split; [done|].
  destruct (date_of_string_Some _ _ Hs) as (y & m & dd & Hp & Hn).
  split.
  - unfold to_datetime. rewrite Hp, Hn. cbn [mbind result_bind].
    by rewrite Ht.
  - apply new_Ok in Hn as (-> & Hy & Hm & Hd).
    pose proof (Timestamp_year_bounds y m dd Hm Hd Ht).
    rewrite <- (Z.add_0_r (midnight _)).
    change 0 with (0 * ns_per_day) at 1. rewrite to_date_midnight, Z.add_0_r.
    by apply fromordinal_toordinal.
Qed.

Lemma strftime_default (t : Timestamp) :
  strftime libc_strftime default_format t
  = zfill4 (datetime.year (to_date t)) +:+ zfill2 (datetime.month (to_date t)).
Proof. reflexivity. Qed.

(** The rows [build_roster] returns are well dated. *)
Lemma build_roster_well_dated (year month : Z)
    (vbw : gmap string (list string)) (mt : option meeting)
    (roster : list row) :
  build_roster libc_strftime year month vbw mt = Ok roster → Forall well_dated roster.
Proof.
  destruct (decide (valid_period year month)) as [Hv|Hv].
  - rewrite build_roster_valid by done. intros [= <-].
    apply Forall_forall. intros r (d & Hd & _ & ->)%roster_of_days_elem.
    exists d. split; [by eapply date_of_string_isoformat|].
    pose proof (valid_period_ordinals _ _ Hv) as [Hlo Hhi].
    apply calendar_days_elem in Hd as (i & -> & Hi).
    rewrite Timestamp_of_date_bounds.
    assert (datetime.toordinal (datetime.mk_date year month i)
            = datetime.toordinal (first_day year month) + (i - 1)) as E
      by (unfold datetime.toordinal, first_day; simpl; lia).
    rewrite (proj2 (Z.leb_le 612412 _)), (proj2 (Z.leb_le _ 825914)) by lia.
    done.
  - rewrite build_roster_index.
    rewrite (build_index_invalid _ _ Hv); intros [=].
Qed.

Lemma midnight_not_NaT (d : datetime.date) :
  Timestamp_of_date d = Ok (midnight d) → (midnight d =? NaT) = false.
Proof.
  rewrite Timestamp_of_date_bounds.
  destruct (Z.leb_spec 612412 (datetime.toordinal d)); [|done].
  intros _. apply Z.eqb_neq.
  unfold midnight, NaT, int64_min, epoch_ordinal, ns_per_day.
  change (2 ^ 63) with 9223372036854775808. lia.
Qed.

Lemma midnight_mod (d : datetime.date) : midnight d mod ns_per_day = 0.
Proof. unfold midnight. by apply Z.mod_mul. Qed.

(** The format of a column of days: an empty format stands for the ISO
    format. *)
Lemma dt_strftime_days (format : string) (values : list Timestamp) :
  Forall (λ t, (t =? NaT) = false ∧ t mod ns_per_day = 0) values →
  dt_strftime libc_strftime format values
  = (λ t, Str (strftime libc_strftime
                 (if String.eqb format "" then "%Y-%m-%d" else format) t))
      <$> values.
Proof.
  intros H. unfold dt_strftime, get_format_datetime64_from_values.
  assert (is_dates_only values = true) as ->.
  { unfold is_dates_only. apply forallb_forall. intros t Ht%list_elem_of_In.
    rewrite Forall_forall in H. destruct (H t Ht) as [-> ->]. done. }
  apply list_fmap_ext. intros _ t Ht%list_elem_of_lookup_2.
  rewrite Forall_forall in H. by destruct (H t Ht) as [-> _].
Qed.

(** C8 as amended. For a roster of well-dated rows, [get_year_month]
    raises exactly when the roster is empty, and then it raises
    [IndexError]; for a roster that is not empty it returns the date of
    the first row, formatted by [format] when [format] is not empty and
    written [YYYY-MM-DD] when it is; the default format gives the four
    digits of the year followed by the two digits of the month. *)
Theorem get_year_month_first_date (roster : list row) (format : string) :
  Forall well_dated roster →
  ((∃ e, get_year_month libc_strftime to_datetime_other roster format = Raise e)
   ↔ roster = [])
  ∧ (roster = [] →
     get_year_month libc_strftime to_datetime_other roster format
     = Raise IndexError)
  ∧ (∀ r rest, roster = r :: rest →
       ∃ d, date_of_string (date r) = Some d
            ∧ (format ≠ "" →
               get_year_month libc_strftime to_datetime_other roster format
               = Ok (Str (strftime libc_strftime format (midnight d))))
            ∧ (format = "" →
               get_year_month libc_strftime to_datetime_other roster format
               = Ok (Str (isoformat d)))
            ∧ strftime libc_strftime default_format (midnight d)
              = zfill4 (datetime.year d) +:+ zfill2 (datetime.month d)).
Proof.
  intros Hw.
  set (g := λ r, default 0 (midnight <$> date_of_string (date r))).
  assert (traverse (to_datetime to_datetime_other) (date <$> roster)
          = Ok (g <$> roster)) as Ht.
  { rewrite (traverse_Ok _
      (λ s, default 0 (midnight <$> date_of_string s))).
    - by rewrite <- list_fmap_compose.
    - apply Forall_fmap. eapply Forall_impl; [exact Hw|].
      intros r (d & Hs & Hd & _)%well_dated_to_datetime.
      unfold compose. by rewrite Hd, Hs. }
  assert (Forall (λ t, (t =? NaT) = false ∧ t mod ns_per_day = 0)
            (g <$> roster)) as Hdays.
  { apply Forall_fmap. eapply Forall_impl; [exact Hw|].
    intros r (d & Hs & Hd). unfold compose, g. rewrite Hs. cbn [fmap option_fmap option_map default].
    split; [by apply midnight_not_NaT|apply midnight_mod]. }
  unfold get_year_month. rewrite Ht. cbn [mbind result_bind].
  rewrite (dt_strftime_days format _ Hdays).
  destruct roster as [|r rest].
  - split; [split; [done|by eexists]|]. split; [done|]. intros ?? [=].
  - apply Forall_cons in Hw as [Hr _].
    destruct (well_dated_to_datetime r Hr) as (d & Hs & Hd & Hdd).
    split; [split; [intros [e [=]]|intros [=]]|].
    split; [intros [=]|]. intros ? ? [= <- <-].
    exists d. split; [done|].
    cbn [fmap list_fmap iat0]. unfold g. rewrite Hs.
    cbn [fmap option_fmap option_map default]. unfold id.
    split; [|split].
    + intros Hne. by rewrite (proj2 (String.eqb_neq format "") Hne).
    + intros ->. cbn [String.eqb]. by rewrite strftime_isoformat, Hdd.
    + by rewrite strftime_default, Hdd.
Qed.

(** The roster that the notebook prints. *)
Example notebook_roster :
  build_roster libc_strftime 2021 1 {[ "Sunday" := ["?"; "?"] ]} None
  = Ok [ mk_row "2021-01-03" "Sunday" "? & ?" "";
         mk_row "2021-01-10" "Sunday" "? & ?" "";
         mk_row "2021-01-17" "Sunday" "? & ?" "";
         mk_row "2021-01-24" "Sunday" "? & ?" "";
         mk_row "2021-01-31" "Sunday" "? & ?" "" ].
Proof. vm_compute. reflexivity. Qed.

End Properties.

(** ** More about [build_roster] and [get_year_month] *)

Section Further.

Variable libc_strftime : string → Timestamp → string.
Variable to_datetime_other : string → result Timestamp.

(** X1. [build_roster] reads the mapping only under the seven weekday
    names: two mappings with the same entries there give the same
    result, whatever else they hold. *)
Theorem build_roster_reads_weekday_keys (year month : Z)
    (vbw vbw' : gmap string (list string)) (meeting_time : option meeting) :
  (∀ w, w ∈ weekday_names → vbw !! w = vbw' !! w) →
  build_roster libc_strftime year month vbw meeting_time
  = build_roster libc_strftime year month vbw' meeting_time.
Proof.
  intros H. rewrite !build_roster_index.
  destruct (build_index year month) as [ix|e]; [|done].
  cbn [mbind result_bind]. f_equal. by apply roster_of_days_agree.
Qed.

(** X2. A mapping none of whose keys is a weekday name, such as one
    keyed by a lower-case name, gives an empty roster and no error. *)
Theorem build_roster_no_weekday_key (year month : Z)
    (vbw : gmap string (list string)) (meeting_time : option meeting) :
  valid_period year month →
  (∀ w, w ∈ weekday_names → vbw !! w = None) →
  build_roster libc_strftime year month vbw meeting_time = Ok [].
Proof.
  intros Hv H. rewrite build_roster_valid by done. f_equal.
  unfold roster_of_days. rewrite filter_none; [done|].
  intros d _. unfold isin. apply bool_decide_eq_false.
  rewrite elem_of_dom, (H _ (weekday_name_in d)). by intros [? ?].
Qed.

(** X3. A mapping that has all seven weekday names as keys gives one
    row for every day of the month. *)
Theorem build_roster_every_day (year month : Z)
    (vbw : gmap string (list string)) (meeting_time : option meeting) :
  valid_period year month →
  (∀ w, w ∈ weekday_names → is_Some (vbw !! w)) →
  ∃ roster,
    build_roster libc_strftime year month vbw meeting_time = Ok roster
    ∧ date <$> roster = isoformat <$> calendar_days year month
    ∧ Z.of_nat (length roster) = datetime.days_in_month year month.
Proof.
  intros Hv H. eexists. split; [by apply build_roster_valid|].
  pose proof Hv as [Hm _]. pose proof (days_in_month_bounds year month Hm).
  unfold roster_of_days. rewrite filter_all.
  - split; [by rewrite <- list_fmap_compose|].
    unfold calendar_days. rewrite !length_fmap, length_seqZ. lia.
  - intros d _. unfold isin. apply bool_decide_eq_true, elem_of_dom, H.
    apply weekday_name_in.
Qed.

(** X4. A weekday name that is a key of the mapping has four or five
    rows in the roster of a valid period. *)
Theorem build_roster_rows_per_weekday (year month : Z)
    (vbw : gmap string (list string)) (meeting_time : option meeting)
    (w : string) :
  valid_period year month → w ∈ weekday_names → is_Some (vbw !! w) →
  ∃ roster,
    build_roster libc_strftime year month vbw meeting_time = Ok roster
    ∧ (4 ≤ length (filter (λ r, weekday r = w) roster) ≤ 5)%nat.
Proof.
  intros Hv (k & Hk & ->)%weekday_names_index Hdom%elem_of_dom.
  eexists. split; [by apply build_roster_valid|].
  by apply weekday_rows_count.
Qed.

(** X5. With the first week as the meeting's week and a weekday name
    that is a key as its weekday, exactly one row carries the note: the
    row of that weekday among the first seven days of the month. *)
Theorem build_roster_first_week_meeting (year month : Z)
    (vbw : gmap string (list string)) (wd start end_ : string) :
  valid_period year month → wd ∈ weekday_names → is_Some (vbw !! wd) →
  ∃ roster r d,
    build_roster libc_strftime year month vbw (Some (wd, 1, start, end_))
    = Ok roster
    ∧ filter (λ r, notes r ≠ "") roster = [r]
    ∧ weekday r = wd
    ∧ notes r = "Staff meeting " +:+ start +:+ "--" +:+ end_
    ∧ date_of_string (date r) = Some d
    ∧ 1 ≤ datetime.day d ≤ 7.
Proof.
  intros Hv (k & Hk & ->)%weekday_names_index Hdom%elem_of_dom.
  pose proof Hv as [Hm _].
  pose proof (days_in_month_bounds year month Hm) as Hd.
  pose proof (occurrences_checked _ _ k (weekday_range (first_day year month))
                Hd Hk) as C.
  unfold occurrences_check in C. cbv zeta in C.
  do 2 (apply andb_prop in C as [C _]). apply andb_prop in C as [_ C].
  pose proof (noted_rows year month k 1 vbw start end_ Hk Hdom) as Hn.
  change (7 * (1 - 1)) with 0 in Hn. change (7 * 1) with 7 in Hn.
  destruct (occurrences _ _ k 0 7) as [|i [|??]] eqn:E; try done.
  apply andb_prop in C as [Hi1%Z.leb_le Hi7%Z.leb_le].
  assert (List.In i (occurrences (datetime.weekday (first_day year month))
                       (datetime.days_in_month year month) k 0 7)) as Hin
    by (rewrite E; by left).
  unfold occurrences in Hin. apply filter_In in Hin as [_ Hc].
  repeat (apply andb_prop in Hc as [Hc _]). apply Z.eqb_eq in Hc.
  eexists _, _, (datetime.mk_date year month i).
  split; [by apply build_roster_valid|]. split; [exact Hn|].
  cbn [roster_row weekday notes date datetime.day].
  split; [|split; [|split; [|lia]]].
  - unfold weekday_name. by rewrite weekday_in_month, Hc.
  - unfold note_of. rewrite bool_decide_eq_true_2; [done|]. simpl.
    split; [|lia]. unfold weekday_name. by rewrite weekday_in_month, Hc.
  - eapply date_of_string_isoformat; [done|].
    apply calendar_days_elem. exists i. split; [done|lia].
Qed.

(** X6. A meeting whose week is below 1 or above 5 marks no row: the
    result is the result without a meeting. *)
Theorem build_roster_week_out_of_range (year month : Z)
    (vbw : gmap string (list string)) (wd : string) (week : Z)
    (start end_ : string) :
  week ≤ 0 ∨ 6 ≤ week →
  build_roster libc_strftime year month vbw (Some (wd, week, start, end_))
  = build_roster libc_strftime year month vbw None.
Proof.
  intros Hw. destruct (decide (valid_period year month)) as [Hv|Hv].
  - rewrite !build_roster_valid by done. f_equal.
    pose proof Hv as [Hm _].
    pose proof (days_in_month_bounds year month Hm) as Hd.
    unfold roster_of_days. apply list_fmap_ext.
    intros _ d Hin%list_elem_of_lookup_2%list_elem_of_In%filter_In.
    destruct Hin as [(i & -> & Hi)%list_elem_of_In%calendar_days_elem _].
    unfold roster_row. f_equal. unfold note_of.
    rewrite bool_decide_eq_false_2; [done|]. simpl. lia.
  - rewrite !build_roster_index.
    by rewrite (build_index_invalid _ _ Hv).
Qed.

(** X7. With the second, third or fourth week as the meeting's week and
    a weekday name that is a key as its weekday: when day [7*(week-1)]
    of the month falls on that weekday, two rows carry the note, the
    rows of day [7*(week-1)] and of day [7*week]; otherwise exactly one
    row does. *)
Theorem build_roster_later_week_meeting (year month week : Z)
    (vbw : gmap string (list string)) (wd start end_ : string) :
  valid_period year month → 2 ≤ week ≤ 4 →
  wd ∈ weekday_names → is_Some (vbw !! wd) →
  ∃ roster,
    build_roster libc_strftime year month vbw (Some (wd, week, start, end_))
    = Ok roster
    ∧ (weekday_name (datetime.mk_date year month (7 * (week - 1))) = wd →
       date <$> filter (λ r, notes r ≠ "") roster
       = [isoformat (datetime.mk_date year month (7 * (week - 1)));
          isoformat (datetime.mk_date year month (7 * week))])
    ∧ (weekday_name (datetime.mk_date year month (7 * (week - 1))) ≠ wd →
       length (filter (λ r, notes r ≠ "") roster) = 1%nat).
Proof.
  intros Hv Hweek (k & Hk & ->)%weekday_names_index Hdom%elem_of_dom.
  pose proof Hv as [Hm _].
  pose proof (days_in_month_bounds year month Hm) as Hd.
  pose proof (weekday_range (first_day year month)) as Hw0.
  pose proof (occurrences_checked _ _ k Hw0 Hd Hk) as C.
  unfold occurrences_check in C. cbv zeta in C.
  apply andb_prop in C as [C _]. apply andb_prop in C as [_ C].
  pose proof (forallb_seqZ _ _ _ week C ltac:(lia)) as Cw. cbv beta in Cw.
  eexists. split; [by apply build_roster_valid|].
  rewrite noted_rows by done.
  assert (weekday_name (datetime.mk_date year month (7 * (week - 1)))
          = DAYS_FULL k
          ↔ (datetime.weekday (first_day year month)
             + (7 * (week - 1) - 1)) mod 7 = k) as Hiff.
  { unfold weekday_name. rewrite weekday_in_month. split; [|by intros ->].
    apply DAYS_FULL_inj; [|done]. apply Z.mod_pos_bound. lia. }
  destruct (occurrences _ _ k _ _) as [|a [|b [|??]]]; try done.
  - apply negb_true_iff, Z.eqb_neq in Cw. split; [|done].
    intros E. by apply Hiff in E.
  - repeat (apply andb_prop in Cw as [Cw ?]).
    repeat match goal with
    | H : (_ =? _) = true |- _ => apply Z.eqb_eq in H end.
    subst a b. split; [done|]. intros E. destruct E. by apply Hiff.
Qed.

(** X8. Whatever the meeting, at most two rows of a roster carry a
    note. *)
Theorem build_roster_at_most_two_notes (year month : Z)
    (vbw : gmap string (list string)) (meeting_time : option meeting)
    (roster : list row) :
  build_roster libc_strftime year month vbw meeting_time = Ok roster →
  (length (filter (λ r, notes r ≠ "") roster) ≤ 2)%nat.
Proof.
  destruct (decide (valid_period year month)) as [Hv|Hv].
  2:{ rewrite build_roster_index.
      by rewrite (build_index_invalid _ _ Hv). }
  rewrite build_roster_valid by done. intros [= <-].
  pose proof Hv as [Hm _].
  pose proof (days_in_month_bounds year month Hm) as Hd.
  destruct meeting_time as [[[[wd week] start] end_]|];
    [|rewrite noted_rows_none by done; simpl; lia].
  destruct (decide (wd ∈ weekday_names)) as [Hwd|Hwd];
    [|rewrite noted_rows_none by (by left); simpl; lia].
  destruct (decide (wd ∈ dom vbw)) as [Hdom|Hdom];
    [|rewrite noted_rows_none by (by right); simpl; lia].
  apply weekday_names_index in Hwd as (k & Hk & ->).
  rewrite noted_rows, !length_fmap by done.
  by apply occurrences_bound; [apply weekday_range|..].
Qed.

Lemma get_year_month_cons (r : row) (rest : list row) (format : string) :
  Forall well_dated (r :: rest) →
  ∃ d, date_of_string (date r) = Some d ∧ to_date (midnight d) = d
       ∧ get_year_month libc_strftime to_datetime_other (r :: rest) format
         = Ok (Str (strftime libc_strftime
                      (if String.eqb format "" then "%Y-%m-%d" else format)
                      (midnight d))).
Proof.
  intros Hw. unfold get_year_month.
  rewrite (traverse_Ok _ (λ s, default 0 (midnight <$> date_of_string s))).
  - cbn [mbind result_bind]. rewrite dt_strftime_days.
    + apply Forall_cons in Hw as [Hr _].
      destruct (well_dated_to_datetime to_datetime_other r Hr)
        as (d & Hs & _ & Hdd).
      exists d. split; [done|]. split; [done|].
      cbn [fmap list_fmap iat0]. by rewrite Hs.
    + apply Forall_fmap, Forall_fmap. eapply Forall_impl; [exact Hw|].
      intros r' (d & Hs & Hd). unfold compose. rewrite Hs.
      cbn [fmap option_fmap option_map default].
      split; [by apply midnight_not_NaT|apply midnight_mod].
  - apply Forall_fmap. eapply Forall_impl; [exact Hw|].
    intros r' (d & Hs & Hd & _)%(well_dated_to_datetime to_datetime_other).
    unfold compose. by rewrite Hd, Hs.
Qed.

(** X9. The label of the roster built for a valid period: the year and
    the month asked for, as [YYYYMM], when some weekday name is a key of
    the mapping; an [IndexError] when none is, the roster being empty. *)
Theorem get_year_month_of_build_roster (year month : Z)
    (vbw : gmap string (list string)) (meeting_time : option meeting) :
  valid_period year month →
  ∃ roster,
    build_roster libc_strftime year month vbw meeting_time = Ok roster
    ∧ ((∃ w, w ∈ weekday_names ∧ is_Some (vbw !! w)) →
       get_year_month libc_strftime to_datetime_other roster default_format
       = Ok (Str (zfill4 year +:+ zfill2 month)))
    ∧ ((∀ w, w ∈ weekday_names → vbw !! w = None) →
       get_year_month libc_strftime to_datetime_other roster default_format
       = Raise IndexError).
Proof.
  intros Hv.
  pose proof (build_roster_valid libc_strftime year month vbw meeting_time Hv)
    as Hb.
  eexists. split; [exact Hb|]. split.
  - intros (w & (k & Hk & ->)%weekday_names_index & Hdom%elem_of_dom).
    pose proof (weekday_rows_count year month k vbw meeting_time Hv Hk Hdom)
      as Hc.
    pose proof (build_roster_well_dated libc_strftime _ _ _ _ _ Hb) as Hw.
    destruct (roster_of_days vbw meeting_time (calendar_days year month))
      as [|r rest] eqn:E; [simpl in Hc; lia|].
    destruct (get_year_month_cons r rest default_format Hw)
      as (d & Hs & Hdd & ->).
    change (String.eqb default_format "") with false. cbv iota.
    rewrite strftime_default, Hdd.
    assert (r ∈ roster_of_days vbw meeting_time (calendar_days year month))
      as (d' & Hd' & _ & ->)%roster_of_days_elem
      by (rewrite E; apply list_elem_of_here).
    cbn [roster_row date] in Hs.
    rewrite (date_of_string_isoformat year month d' Hv Hd') in Hs.
    injection Hs as <-.
    apply calendar_days_elem in Hd' as (i & -> & _). done.
  - intros Hnone. unfold roster_of_days. rewrite filter_none; [done|].
    intros d _. unfold isin. apply bool_decide_eq_false.
    rewrite elem_of_dom, (Hnone _ (weekday_name_in d)). by intros [? ?].
Qed.

(** X10. [get_year_month] parses the date of every row, not only of the
    first: when the rows before some row parse and that row's date does
    not, it raises what the parse of that date raises. *)
Theorem get_year_month_parses_every_date (good rest : list row) (r : row)
    (format : string) (e : exn) :
  Forall (λ a, is_Ok (to_datetime to_datetime_other (date a)) = true) good →
  to_datetime to_datetime_other (date r) = Raise e →
  get_year_month libc_strftime to_datetime_other (good ++ r :: rest) format
  = Raise e.
Proof.
  intros Hgood Hr. unfold get_year_month.
  rewrite fmap_app, fmap_cons.
  rewrite (traverse_Raise _ _ _ _ e); [done| |done].
  by apply Forall_fmap.
Qed.

(** X11. When no volunteer name and no meeting time holds a pipe, a
    double quote or a line feed, no field of the roster does, and its
    Markdown table is written without any quoting: every row is its
    four fields joined by the pipe. *)
Theorem build_roster_plain_table (year month : Z)
    (vbw : gmap string (list string)) (meeting_time : option meeting) :
  valid_period year month →
  (∀ w names, vbw !! w = Some names → Forall plain names) →
  match meeting_time with
  | Some (_, _, start, end_) => plain start ∧ plain end_
  | None => True
  end →
  ∃ roster,
    build_roster libc_strftime year month vbw meeting_time = Ok roster
    ∧ Forall plain_row roster
    ∧ to_markdown (frame roster) = unquoted_table roster.
Proof.
  intros Hv Hnames Hmt. eexists. split; [by apply build_roster_valid|].
  assert (Forall plain_row
            (roster_of_days vbw meeting_time (calendar_days year month)))
    as Hp by by apply roster_of_days_plain.
  split; [done|]. rewrite to_markdown_written. by apply written_table_plain.
Qed.

End Further.

(** ** Instances *)

Lemma build_roster_one_row_per_day_witness :
  valid_period 2021 12
  ∧ ∃ roster,
      build_roster libc_unused 2021 12 {[ "Sunday" := ["?"; "?"] ]} None
      = Ok roster
      ∧ date <$> roster
        = isoformat
            <$> filter (λ d, weekday_name d
                             ∈ dom ({[ "Sunday" := ["?"; "?"] ]}
                                    : gmap string (list string)))
                       (calendar_days 2021 12)
      ∧ NoDup (date <$> roster)
      ∧ calendar_days 2021 12
        = datetime.fromordinal
            <$> seqZ (datetime.toordinal (first_day 2021 12))
                     (datetime.toordinal (next_first_day 2021 12)
                      - datetime.toordinal (first_day 2021 12)).
Proof.
  split; [unfold valid_period; lia|].
  apply (build_roster_one_row_per_day libc_unused 2021 12).
  unfold valid_period; lia.
Defined.

Lemma build_roster_meeting_notes_witness :
  valid_period 2021 1
  ∧ ∃ roster,
      build_roster libc_unused 2021 1 {[ "Sunday" := ["A"; "B"] ]}
        (Some ("Sunday", 1, "15:00", "16:00")) = Ok roster
      ∧ Forall (λ r, ∃ d,
          date_of_string (date r) = Some d
          ∧ notes r
            = if bool_decide (weekday r = "Sunday"
                              ∧ 7 * (1 - 1) ≤ datetime.day d ≤ 7 * 1)
              then "Staff meeting " +:+ "15:00" +:+ "--" +:+ "16:00"
              else "") roster.
Proof.
  split; [unfold valid_period; lia|].
  apply (proj1 (build_roster_meeting_notes libc_unused) 2021 1).
  unfold valid_period; lia.
Defined.

Lemma build_roster_sorted_consistent_witness :
  valid_period 2020 2
  ∧ ∃ roster,
      build_roster libc_unused 2020 2
        {[ "Saturday" := ["A"]; "Monday" := [] ]} None = Ok roster
      ∧ StronglySorted str_lt (date <$> roster)
      ∧ NoDup (date <$> roster)
      ∧ Forall (λ r, ∃ d, date_of_string (date r) = Some d
                          ∧ weekday r = weekday_name d) roster.
Proof.
  split; [unfold valid_period; lia|].
  apply (build_roster_sorted_consistent libc_unused 2020 2).
  unfold valid_period; lia.
Defined.

Lemma build_roster_volunteers_witness :
  valid_period 2021 1
  ∧ ∃ roster,
      build_roster libc_unused 2021 1
        {[ "Thursday" := ["Tommy"; "Etienne"]; "Sunday" := ["?"; "?"] ]} None
      = Ok roster
      ∧ Forall (λ r, ∃ names,
          ({[ "Thursday" := ["Tommy"; "Etienne"]; "Sunday" := ["?"; "?"] ]}
             : gmap string (list string)) !! weekday r = Some names
          ∧ volunteers r = String.concat " & " names) roster.
Proof.
  split; [unfold valid_period; lia|].
  apply (build_roster_volunteers libc_unused 2021 1).
  unfold valid_period; lia.
Defined.

Lemma build_roster_raises_iff_witness :
  valid_period 2021 1 ∧ build_roster libc_unused 2021 1 ∅ None = Ok [].
Proof.
  split; [unfold valid_period; lia|].
  apply (build_roster_raises_iff libc_unused 2021 1 ∅ None).
  unfold valid_period; lia.
Defined.

(** C7, counterexample. In 1677 the roster of September cannot be built
    and the roster of October can, and the roster of January 1500 cannot
    be built though 1500 is a year of the calendar: no property of the
    year alone, next to the range of the month, says when [build_roster]
    raises. *)
Lemma build_roster_year_alone_does_not_decide :
  build_roster libc_unused 1677 9 ∅ None = Raise OutOfBoundsDatetime
  ∧ build_roster libc_unused 1677 10 ∅ None = Ok []
  ∧ datetime.new 1500 1 1 = Ok (datetime.mk_date 1500 1 1)
  ∧ build_roster libc_unused 1500 1 ∅ None = Raise OutOfBoundsDatetime
  ∧ ¬ ∃ year_ok : Z → Prop, ∀ year month,
        (∃ e, build_roster libc_unused year month ∅ None = Raise e)
        ↔ (month < 1 ∨ 12 < month ∨ ¬ year_ok year).
Proof.
  assert (build_roster libc_unused 1677 9 ∅ None = Raise OutOfBoundsDatetime)
    as H9 by (vm_compute; reflexivity).
  assert (build_roster libc_unused 1677 10 ∅ None = Ok []) as H10
    by (vm_compute; reflexivity).
  split; [exact H9|]. split; [exact H10|].
  split; [vm_compute; reflexivity|]. split; [vm_compute; reflexivity|].
  intros [year_ok H].
  pose proof (H 1677 9) as [Hfail _]. pose proof (H 1677 10) as [_ Hok].
  destruct Hfail as [?|[?|Hbad]]; [eexists; exact H9|lia|lia|].
  destruct Hok as [e He]; [right; right; exact Hbad|].
  rewrite H10 in He. discriminate He.
Qed.

(** A year that is no C [int]: the constructor of the first day raises
    an [OverflowError], which is no [ValueError]. *)
Example build_roster_overflow :
  build_roster libc_unused 2147483648 1 ∅ None = Raise OverflowError
  ∧ build_roster libc_unused 10000 1 ∅ None = Raise ValueError
  ∧ build_roster libc_unused 9999 12 ∅ None = Raise ValueError.
Proof. repeat split; vm_compute; reflexivity. Qed.

Lemma january_sunday_well_dated : Forall well_dated [january_sunday].
Proof.
  repeat constructor. exists (datetime.mk_date 2021 1 3).
  split; vm_compute; reflexivity.
Qed.

Lemma get_year_month_first_date_witness :
  Forall well_dated [january_sunday]
  ∧ ((∃ e, get_year_month libc_unused other_unused [january_sunday]
             default_format = Raise e) ↔ [january_sunday] = [])
  ∧ ([january_sunday] = [] →
     get_year_month libc_unused other_unused [january_sunday] default_format
     = Raise IndexError)
  ∧ (∀ r rest, [january_sunday] = r :: rest →
       ∃ d, date_of_string (date r) = Some d
            ∧ (default_format ≠ "" →
               get_year_month libc_unused other_unused [january_sunday]
                 default_format
               = Ok (Str (strftime libc_unused default_format (midnight d))))
            ∧ (default_format = "" →
               get_year_month libc_unused other_unused [january_sunday]
                 default_format
               = Ok (Str (isoformat d)))
            ∧ strftime libc_unused default_format (midnight d)
              = zfill4 (datetime.year d) +:+ zfill2 (datetime.month d)).
Proof.
  split; [exact january_sunday_well_dated|].
  apply (get_year_month_first_date libc_unused other_unused).
  exact january_sunday_well_dated.
Defined.

(** C8, counterexample. With the empty format the label of the
    notebook's roster is the whole date and not the empty string that
    the empty format prints; and with a [pd.to_datetime] that raises a
    [ValueError] for a string that names no date, a roster of one row
    with such a date has no label though it is not empty. *)
Lemma get_year_month_empty_format :
  get_year_month libc_unused other_unused [january_sunday] ""
  = Ok (Str "2021-01-03")
  ∧ strftime libc_unused "" (midnight (datetime.mk_date 2021 1 3)) = ""
  ∧ date_of_string (date january_sunday) = Some (datetime.mk_date 2021 1 3)
  ∧ get_year_month libc_unused other_unused
      [mk_row "soon" "Sunday" "? & ?" ""] default_format
    = Raise ValueError.
Proof. repeat split; vm_compute; reflexivity. Qed.

(** The label of the notebook's roster is 202101. *)
Example notebook_label :
  get_year_month libc_unused other_unused [january_sunday] default_format
  = Ok (Str "202101").
Proof. vm_compute. reflexivity. Qed.

Lemma build_roster_meeting_ignored_witness :
  ({[ "Sunday" := ["?"; "?"] ]} : gmap string (list string)) !! "Monday" = None
  ∧ build_roster libc_unused 2021 1 {[ "Sunday" := ["?"; "?"] ]}
      (Some ("Monday", 1, "15:00", "16:00"))
    = build_roster libc_unused 2021 1 {[ "Sunday" := ["?"; "?"] ]} None
  ∧ ∀ roster,
      build_roster libc_unused 2021 1 {[ "Sunday" := ["?"; "?"] ]} None
      = Ok roster →
      Forall (λ r, notes r = "") roster.
Proof.
  split; [vm_compute; reflexivity|].
  apply (build_roster_meeting_ignored libc_unused 2021 1).
  vm_compute; reflexivity.
Defined.

Lemma january_sunday_plain : Forall plain_row [january_sunday].
Proof.
  apply Forall_cons_2; [|apply Forall_nil_2].
  unfold plain_row, fields, january_sunday. simpl.
  repeat (apply Forall_cons_2; [apply needs_quotes_plain; reflexivity|]).
  apply Forall_nil_2.
Qed.

Lemma to_markdown_rows_witness :
  Forall plain_row [january_sunday]
  ∧ to_markdown (frame [january_sunday]) = unquoted_table [january_sunday].
Proof.
  split; [exact january_sunday_plain|].
  apply (to_markdown_rows [january_sunday]). exact january_sunday_plain.
Defined.

Lemma to_markdown_round_trip_witness :
  Forall plain_row [january_sunday]
  ∧ parse_table (to_markdown (frame [january_sunday]))
    = fields <$> [january_sunday].
Proof.
  split; [exact january_sunday_plain|].
  apply (to_markdown_round_trip [january_sunday]). exact january_sunday_plain.
Defined.

(** C4, counterexample. A volunteer whose name holds a pipe: the row of
    the rendered table is not the row's fields joined by the pipe, for
    the csv writer puts the volunteers field between double quotes. *)
Lemma to_markdown_quotes_a_pipe :
  ∃ roster,
    build_roster libc_unused 2021 1 {[ "Sunday" := ["A|B"] ]} None = Ok roster
    ∧ volunteers <$> roster = ["A|B"; "A|B"; "A|B"; "A|B"; "A|B"]
    ∧ to_markdown (frame roster) ≠ unquoted_table roster
    ∧ csv.write_field "|" "A|B"
      = String DQUOTE ("A|B" +:+ String DQUOTE EmptyString).
Proof.
  eexists. split; [vm_compute; reflexivity|].
  split; [vm_compute; reflexivity|].
  split; [|vm_compute; reflexivity].
  intros H. vm_compute in H. discriminate H.
Qed.

(** C9, counterexample. The same roster: splitting the row of the
    rendered table on the pipe gives five pieces, not the four fields. *)
Lemma to_markdown_round_trip_breaks :
  ∃ roster,
    build_roster libc_unused 2021 1 {[ "Sunday" := ["A|B"] ]} None = Ok roster
    ∧ parse_table (to_markdown (frame roster)) ≠ fields <$> roster
    ∧ length <$> parse_table (to_markdown (frame roster)) = [5; 5; 5; 5; 5]%nat.
Proof.
  eexists. split; [vm_compute; reflexivity|].
  split; [|vm_compute; reflexivity].
  intros H. vm_compute in H. discriminate H.
Qed.

(** ** Instances of the further properties *)

Ltac each_weekday tac :=
  apply Forall_forall;
  let l := eval vm_compute in weekday_names in
  change weekday_names with l;
  repeat (apply Forall_cons_2; [tac|]); apply Forall_nil_2.

Lemma build_roster_reads_weekday_keys_witness :
  (∀ w, w ∈ weekday_names →
     ({[ "Sunday" := ["A"] ]} : gmap string (list string)) !! w
     = ({[ "Sunday" := ["A"]; "sunday" := ["B"] ]}
          : gmap string (list string)) !! w)
  ∧ build_roster libc_unused 2021 1 {[ "Sunday" := ["A"] ]} None
    = build_roster libc_unused 2021 1
        {[ "Sunday" := ["A"]; "sunday" := ["B"] ]} None.
Proof.
  assert (∀ w, w ∈ weekday_names →
            ({[ "Sunday" := ["A"] ]} : gmap string (list string)) !! w
            = ({[ "Sunday" := ["A"]; "sunday" := ["B"] ]}
                 : gmap string (list string)) !! w) as H
    by (each_weekday ltac:(vm_compute; reflexivity)).
  split; [exact H|].
  exact (build_roster_reads_weekday_keys libc_unused 2021 1 _ _ None H).
Defined.

Lemma build_roster_no_weekday_key_witness :
  valid_period 2021 1
  ∧ (∀ w, w ∈ weekday_names →
       ({[ "sunday" := ["A"] ]} : gmap string (list string)) !! w = None)
  ∧ build_roster libc_unused 2021 1 {[ "sunday" := ["A"] ]} None = Ok [].
Proof.
  assert (valid_period 2021 1) as Hv by (unfold valid_period; lia).
  assert (∀ w, w ∈ weekday_names →
            ({[ "sunday" := ["A"] ]} : gmap string (list string)) !! w = None)
    as H by (each_weekday ltac:(vm_compute; reflexivity)).
  split; [exact Hv|]. split; [exact H|].
  exact (build_roster_no_weekday_key libc_unused 2021 1 _ None Hv H).
Defined.

Lemma build_roster_every_day_witness :
  valid_period 2020 2
  ∧ (∀ w, w ∈ weekday_names →
       is_Some (({[ "Monday" := ["A"]; "Tuesday" := ["B"];
                    "Wednesday" := ["C"]; "Thursday" := ["D"];
                    "Friday" := ["E"]; "Saturday" := ["F"];
                    "Sunday" := ["G"] ]} : gmap string (list string)) !! w))
  ∧ ∃ roster,
      build_roster libc_unused 2020 2
        {[ "Monday" := ["A"]; "Tuesday" := ["B"]; "Wednesday" := ["C"];
           "Thursday" := ["D"]; "Friday" := ["E"]; "Saturday" := ["F"];
           "Sunday" := ["G"] ]} None = Ok roster
      ∧ date <$> roster = isoformat <$> calendar_days 2020 2
      ∧ Z.of_nat (length roster) = datetime.days_in_month 2020 2.
Proof.
  assert (valid_period 2020 2) as Hv by (unfold valid_period; lia).
  assert (∀ w, w ∈ weekday_names →
       is_Some (({[ "Monday" := ["A"]; "Tuesday" := ["B"];
                    "Wednesday" := ["C"]; "Thursday" := ["D"];
                    "Friday" := ["E"]; "Saturday" := ["F"];
                    "Sunday" := ["G"] ]} : gmap string (list string)) !! w))
    as H by (each_weekday ltac:(vm_compute; eexists; reflexivity)).
  split; [exact Hv|]. split; [exact H|].
  exact (build_roster_every_day libc_unused 2020 2 _ None Hv H).
Defined.

Lemma sunday_weekday_name : "Sunday" ∈ weekday_names.
Proof. vm_compute. do 6 apply list_elem_of_further. apply list_elem_of_here. Qed.

Lemma build_roster_rows_per_weekday_witness :
  valid_period 2021 1
  ∧ "Sunday" ∈ weekday_names
  ∧ is_Some (({[ "Sunday" := ["?"; "?"] ]} : gmap string (list string))
               !! "Sunday")
  ∧ ∃ roster,
      build_roster libc_unused 2021 1 {[ "Sunday" := ["?"; "?"] ]} None
      = Ok roster
      ∧ (4 ≤ length (filter (λ r, weekday r = "Sunday") roster) ≤ 5)%nat.
Proof.
  assert (valid_period 2021 1) as Hv by (unfold valid_period; lia).
  assert (is_Some (({[ "Sunday" := ["?"; "?"] ]} : gmap string (list string))
                     !! "Sunday")) as H
    by (vm_compute; eexists; reflexivity).
  split; [exact Hv|]. split; [exact sunday_weekday_name|]. split; [exact H|].
  exact (build_roster_rows_per_weekday libc_unused 2021 1 _ None "Sunday"
           Hv sunday_weekday_name H).
Defined.

Lemma build_roster_first_week_meeting_witness :
  valid_period 2021 1
  ∧ "Sunday" ∈ weekday_names
  ∧ is_Some (({[ "Sunday" := ["A"; "B"] ]} : gmap string (list string))
               !! "Sunday")
  ∧ ∃ roster r d,
      build_roster libc_unused 2021 1 {[ "Sunday" := ["A"; "B"] ]}
        (Some ("Sunday", 1, "15:00", "16:00")) = Ok roster
      ∧ filter (λ r, notes r ≠ "") roster = [r]
      ∧ weekday r = "Sunday"
      ∧ notes r = "Staff meeting " +:+ "15:00" +:+ "--" +:+ "16:00"
      ∧ date_of_string (date r) = Some d
      ∧ 1 ≤ datetime.day d ≤ 7.
Proof.
  assert (valid_period 2021 1) as Hv by (unfold valid_period; lia).
  assert (is_Some (({[ "Sunday" := ["A"; "B"] ]} : gmap string (list string))
                     !! "Sunday")) as H
    by (vm_compute; eexists; reflexivity).
  split; [exact Hv|]. split; [exact sunday_weekday_name|]. split; [exact H|].
  exact (build_roster_first_week_meeting libc_unused 2021 1 _ "Sunday"
           "15:00" "16:00" Hv sunday_weekday_name H).
Defined.

Lemma build_roster_week_out_of_range_witness :
  (6 ≤ 0 ∨ 6 ≤ 6)
  ∧ build_roster libc_unused 2021 1 {[ "Sunday" := ["A"; "B"] ]}
      (Some ("Sunday", 6, "15:00", "16:00"))
    = build_roster libc_unused 2021 1 {[ "Sunday" := ["A"; "B"] ]} None.
Proof.
  assert (6 ≤ 0 ∨ 6 ≤ 6) as H by (right; lia).
  split; [exact H|].
  exact (build_roster_week_out_of_range libc_unused 2021 1 _ "Sunday" 6
           "15:00" "16:00" H).
Defined.

Lemma build_roster_later_week_meeting_witness :
  valid_period 2021 2
  ∧ 2 ≤ 2 ≤ 4
  ∧ "Sunday" ∈ weekday_names
  ∧ is_Some (({[ "Sunday" := ["A"; "B"] ]} : gmap string (list string))
               !! "Sunday")
  ∧ ∃ roster,
      build_roster libc_unused 2021 2 {[ "Sunday" := ["A"; "B"] ]}
        (Some ("Sunday", 2, "15:00", "16:00")) = Ok roster
      ∧ (weekday_name (datetime.mk_date 2021 2 (7 * (2 - 1))) = "Sunday" →
         date <$> filter (λ r, notes r ≠ "") roster
         = [isoformat (datetime.mk_date 2021 2 (7 * (2 - 1)));
            isoformat (datetime.mk_date 2021 2 (7 * 2))])
      ∧ (weekday_name (datetime.mk_date 2021 2 (7 * (2 - 1))) ≠ "Sunday" →
         length (filter (λ r, notes r ≠ "") roster) = 1%nat).
Proof.
  assert (valid_period 2021 2) as Hv by (unfold valid_period; lia).
  assert (2 ≤ 2 ≤ 4) as Hw by lia.
  assert (is_Some (({[ "Sunday" := ["A"; "B"] ]} : gmap string (list string))
                     !! "Sunday")) as H
    by (vm_compute; eexists; reflexivity).
  split; [exact Hv|]. split; [exact Hw|].
  split; [exact sunday_weekday_name|]. split; [exact H|].
  exact (build_roster_later_week_meeting libc_unused 2021 2 2 _ "Sunday"
           "15:00" "16:00" Hv Hw sunday_weekday_name H).
Defined.

Lemma build_roster_at_most_two_notes_witness :
  build_roster libc_unused 2021 2 {[ "Sunday" := ["A"; "B"] ]}
    (Some ("Sunday", 2, "15:00", "16:00"))
  = Ok [ mk_row "2021-02-07" "Sunday" "A & B" "Staff meeting 15:00--16:00";
         mk_row "2021-02-14" "Sunday" "A & B" "Staff meeting 15:00--16:00";
         mk_row "2021-02-21" "Sunday" "A & B" "";
         mk_row "2021-02-28" "Sunday" "A & B" "" ]
  ∧ (length
       (filter (λ r, notes r ≠ "")
          [ mk_row "2021-02-07" "Sunday" "A & B" "Staff meeting 15:00--16:00";
            mk_row "2021-02-14" "Sunday" "A & B" "Staff meeting 15:00--16:00";
            mk_row "2021-02-21" "Sunday" "A & B" "";
            mk_row "2021-02-28" "Sunday" "A & B" "" ]) ≤ 2)%nat.
Proof.
  assert (build_roster libc_unused 2021 2 {[ "Sunday" := ["A"; "B"] ]}
            (Some ("Sunday", 2, "15:00", "16:00"))
          = Ok [ mk_row "2021-02-07" "Sunday" "A & B"
                   "Staff meeting 15:00--16:00";
                 mk_row "2021-02-14" "Sunday" "A & B"
                   "Staff meeting 15:00--16:00";
                 mk_row "2021-02-21" "Sunday" "A & B" "";
                 mk_row "2021-02-28" "Sunday" "A & B" "" ]) as H
    by (vm_compute; reflexivity).
  split; [exact H|].
  exact (build_roster_at_most_two_notes libc_unused 2021 2 _ _ _ H).
Defined.

Lemma get_year_month_of_build_roster_witness :
  valid_period 2021 1
  ∧ ∃ roster,
      build_roster libc_unused 2021 1 {[ "Sunday" := ["?"; "?"] ]} None
      = Ok roster
      ∧ ((∃ w, w ∈ weekday_names
               ∧ is_Some (({[ "Sunday" := ["?"; "?"] ]}
                             : gmap string (list string)) !! w)) →
         get_year_month libc_unused other_unused roster default_format
         = Ok (Str (zfill4 2021 +:+ zfill2 1)))
      ∧ ((∀ w, w ∈ weekday_names →
               ({[ "Sunday" := ["?"; "?"] ]} : gmap string (list string)) !! w
               = None) →
         get_year_month libc_unused other_unused roster default_format
         = Raise IndexError).
Proof.
  assert (valid_period 2021 1) as Hv by (unfold valid_period; lia).
  split; [exact Hv|].
  exact (get_year_month_of_build_roster libc_unused other_unused 2021 1 _ None
           Hv).
Defined.

Lemma get_year_month_parses_every_date_witness :
  Forall (λ a, is_Ok (to_datetime other_unused (date a)) = true)
    [january_sunday]
  ∧ to_datetime other_unused (date (mk_row "soon" "Monday" "A" ""))
    = Raise ValueError
  ∧ get_year_month libc_unused other_unused
      ([january_sunday] ++ mk_row "soon" "Monday" "A" "" :: [])
      default_format
    = Raise ValueError.
Proof.
  assert (Forall (λ a, is_Ok (to_datetime other_unused (date a)) = true)
            [january_sunday]) as Hg
    by (apply Forall_cons_2; [vm_compute; reflexivity|apply Forall_nil_2]).
  assert (to_datetime other_unused (date (mk_row "soon" "Monday" "A" ""))
          = Raise ValueError) as Hr
    by (vm_compute; reflexivity).
  split; [exact Hg|]. split; [exact Hr|].
  exact (get_year_month_parses_every_date libc_unused other_unused _ [] _
           default_format _ Hg Hr).
Defined.

Lemma build_roster_plain_table_witness :
  valid_period 2021 1
  ∧ (∀ w names,
       ({[ "Sunday" := ["A"; "B"] ]} : gmap string (list string)) !! w
       = Some names → Forall plain names)
  ∧ (plain "15:00" ∧ plain "16:00")
  ∧ ∃ roster,
      build_roster libc_unused 2021 1 {[ "Sunday" := ["A"; "B"] ]}
        (Some ("Sunday", 1, "15:00", "16:00")) = Ok roster
      ∧ Forall plain_row roster
      ∧ to_markdown (frame roster) = unquoted_table roster.
Proof.
  assert (valid_period 2021 1) as Hv by (unfold valid_period; lia).
  assert (∀ w names,
            ({[ "Sunday" := ["A"; "B"] ]} : gmap string (list string)) !! w
            = Some names → Forall plain names) as Hn.
  { intros w names [_ <-]%lookup_singleton_Some.
    repeat (apply Forall_cons_2; [apply needs_quotes_plain; reflexivity|]).
    apply Forall_nil_2. }
  assert (plain "15:00" ∧ plain "16:00") as Ht
    by (split; apply needs_quotes_plain; reflexivity).
  split; [exact Hv|]. split; [exact Hn|]. split; [exact Ht|].
  exact (build_roster_plain_table libc_unused 2021 1 _
           (Some ("Sunday", 1, "15:00", "16:00")) Hv Hn Ht).
Defined.

Lemma to_markdown_inj_witness :
  to_markdown (frame [january_sunday])
  = to_markdown (frame [mk_row "2021-01-03" "Sunday" "? & ?" ""])
  ∧ [january_sunday] = [mk_row "2021-01-03" "Sunday" "? & ?" ""].
Proof.
  assert (to_markdown (frame [january_sunday])
          = to_markdown (frame [mk_row "2021-01-03" "Sunday" "? & ?" ""])) as H
    by reflexivity.
  split; [exact H|]. exact (to_markdown_inj _ _ H).
Defined.

Lemma project_sound : sound [notebooks] project.
Proof.
  split; [|vm_compute; reflexivity].
  unfold project. intros n d x [[E _]|[_ [E _]%lookup_singleton_Some]]%lookup_insert_Some;
    by injection E as <- <-.
Qed.

(** The notebook's path, [../output/rosterio_202101]. *)
Lemma roster_path_ordinary :
  ordinary (below [rosterio_202101; output] 1) = true.
Proof. vm_compute. reflexivity. Qed.

Lemma roster_path_missing :
  os.resolve [notebooks] project (below [rosterio_202101; output] 1)
  = os.ENOENT.
Proof. vm_compute. reflexivity. Qed.

Lemma roster_path_returns (f : DataFrame) :
  to_markdown_io [notebooks] other_path_unused f
    (Some (below [rosterio_202101; output] 1)) project
  = (os.Returned None,
     (to_markdown_io [notebooks] other_path_unused f
        (Some (below [rosterio_202101; output] 1)) project).2).
Proof.
  pose proof (to_markdown_io_run [notebooks] other_path_unused f
                rosterio_202101 [output] 1 project project_sound
                roster_path_ordinary) as Hrun.
  assert (os.resolve [notebooks] project (below [output] 1) = os.ENOENT)
    as E by (vm_compute; reflexivity).
  rewrite E in Hrun. destruct Hrun as (fs1 & -> & _). reflexivity.
Qed.

(** A path under the file [../README.md]. *)
Lemma under_readme_ordinary : ordinary (below [output; README] 1) = true.
Proof. vm_compute. reflexivity. Qed.

Lemma under_readme_raises (f : DataFrame) :
  to_markdown_io [notebooks] other_path_unused f
    (Some (below [output; README] 1)) project
  = (os.Raised os.OSError, project).
Proof.
  pose proof (to_markdown_io_run [notebooks] other_path_unused f
                output [README] 1 project project_sound
                under_readme_ordinary) as Hrun.
  assert (os.resolve [notebooks] project (below [README] 1)
          = os.Found [README] (os.File "# Tumekulator"))
    as E by (vm_compute; reflexivity).
  rewrite E in Hrun. exact Hrun.
Qed.

(** The path [../notebooks/../README.md], which goes through [..]. *)
Lemma through_up_ordinary :
  ordinary [os.Entry README; os.Up; os.Entry notebooks; os.Up] = true.
Proof. vm_compute. reflexivity. Qed.




